(** * Shopify insights fetcher: extraction pipeline and competitor discovery

    A shallow embedding of [scraper.py], [insights_extractor.py],
    [llm_service.py] and [competitor_service.py].  Network, language-model
    and library calls are collaborators of the code; they appear here as the
    fields of the class [Collaborators], and every function that performs a
    call threads the trace of calls made so far. *)

From Stdlib Require Import ZArith Floats Uint63 Ascii.
From stdpp Require Import gmap strings list pretty.

Set Warnings "-register-all".
Local Open Scope Z_scope.

(** ** Python [str] operations

    Strings are modelled as Rocq strings (one byte per character); case
    folding and white space follow Python on the ASCII range. *)
Module PyStr.

(** [str.isspace] on the ASCII range: TAB..CR, FS..US and the blank. *)
Definition is_space (c : ascii) : bool :=
  let n := nat_of_ascii c in
  ((9 <=? n)%nat && (n <=? 13)%nat) || ((28 <=? n)%nat && (n <=? 32)%nat).

Definition lower_char (c : ascii) : ascii :=
  let n := nat_of_ascii c in
  if ((65 <=? n)%nat && (n <=? 90)%nat) then ascii_of_nat (n + 32) else c.

(** [s.lower()] on ASCII text *)
Fixpoint lower (s : string) : string :=
  match s with
  | EmptyString => EmptyString
  | String c s' => String (lower_char c) (lower s')
  end.

Fixpoint lstrip (s : string) : string :=
  match s with
  | EmptyString => EmptyString
  | String c s' => if is_space c then lstrip s' else s
  end.

(** [s.strip()] *)
Definition strip (s : string) : string :=
  String.rev (lstrip (String.rev (lstrip s))).

(** [s.startswith(p)] *)
Definition startswith (p s : string) : bool := String.prefix p s.

(** [needle in hay] *)
Fixpoint contains (needle hay : string) : bool :=
  String.prefix needle hay ||
  match hay with
  | EmptyString => false
  | String _ hay' => contains needle hay'
  end.

(** [s[:n]] for a non-negative [n] *)
Fixpoint slice_to (n : nat) (s : string) : string :=
  match n, s with
  | S n', String c s' => String c (slice_to n' s')
  | _, _ => EmptyString
  end.

(** [sep.join(parts)] *)
Fixpoint join (sep : string) (parts : list string) : string :=
  match parts with
  | [] => EmptyString
  | [p] => p
  | p :: rest => p +:+ sep +:+ join sep rest
  end.

(** ["_"] to blank, as [s.replace('_', ' ')] *)
Fixpoint replace_underscore (s : string) : string :=
  match s with
  | EmptyString => EmptyString
  | String c s' =>
      String (if Ascii.eqb c "_" then " "%char else c) (replace_underscore s')
  end.

Definition is_alpha (c : ascii) : bool :=
  let n := nat_of_ascii c in
  ((65 <=? n)%nat && (n <=? 90)%nat) || ((97 <=? n)%nat && (n <=? 122)%nat).

Definition upper_char (c : ascii) : ascii :=
  let n := nat_of_ascii c in
  if ((97 <=? n)%nat && (n <=? 122)%nat) then ascii_of_nat (n - 32) else c.

(** [s.title()]: a cased character is upper-cased when it follows an
    uncased one and lower-cased otherwise. *)
Fixpoint title_go (prev_cased : bool) (s : string) : string :=
  match s with
  | EmptyString => EmptyString
  | String c s' =>
      String (if prev_cased then lower_char c else upper_char c)
             (title_go (is_alpha c) s')
  end.
Definition title (s : string) : string := title_go false s.

Definition strip_prefix (p s : string) : option string :=
  if String.prefix p s
  then Some (String.substring (String.length p)
                              (String.length s - String.length p) s)
  else None.

(** longest prefix of [s] whose characters all satisfy [p] *)
Fixpoint take_while (p : ascii -> bool) (s : string) : string :=
  match s with
  | EmptyString => EmptyString
  | String c s' => if p c then String c (take_while p s') else EmptyString
  end.

(** [\w] on the ASCII range *)
Definition is_word (c : ascii) : bool :=
  let n := nat_of_ascii c in
  is_alpha c || ((48 <=? n)%nat && (n <=? 57)%nat) || Ascii.eqb c "_".

(** [re.findall(r'\b\w+\b', s)]: the maximal runs of word characters. *)
Fixpoint words_go (cur : string) (s : string) : list string :=
  match s with
  | EmptyString => if String.eqb cur EmptyString then [] else [String.rev cur]
  | String c s' =>
      if is_word c then words_go (String c cur) s'
      else (if String.eqb cur EmptyString then [] else [String.rev cur])
           ++ words_go EmptyString s'
  end.
Definition findall_words (s : string) : list string := words_go EmptyString s.

(** [l[:n]] for a Python integer [n], negative bounds counting from the
    end of the list. *)
Definition list_slice_to {A} (n : Z) (l : list A) : list A :=
  if n <? 0 then take (length l - Z.to_nat (- n)) l else take (Z.to_nat n) l.

End PyStr.

(** ** Regular expressions of the scraper

    Every pattern of [extract_social_links] and [get_hero_products] has the
    shape [literal (?:alt1|alt2|...)? ([class]+)]: a literal, an optional
    group of alternatives and one capturing group over a character class. *)
Module Re.

Record pattern := {
  pat_literal : string;
  pat_optional : list string;
  pat_class : ascii -> bool
}.

(** [[^/\s?]] *)
Definition handle_char (c : ascii) : bool :=
  negb (Ascii.eqb c "/") && negb (PyStr.is_space c) && negb (Ascii.eqb c "?").

(** [[^/?]] *)
Definition slug_char (c : ascii) : bool :=
  negb (Ascii.eqb c "/") && negb (Ascii.eqb c "?").

(** the capturing group, after one choice of the optional group *)
Definition match_group (p : pattern) (alt rest : string) : option string :=
  match PyStr.strip_prefix alt rest with
  | Some r =>
      let g := PyStr.take_while (pat_class p) r in
      if String.eqb g EmptyString then None else Some g
  | None => None
  end.

Fixpoint first_alternative (p : pattern) (alts : list string) (rest : string)
  : option string :=
  match alts with
  | [] => None
  | alt :: alts' =>
      match match_group p alt rest with
      | Some g => Some g
      | None => first_alternative p alts' rest
      end
  end.

(** match anchored at the start of [s]: the alternatives are tried in
    order (the optional group is greedy), the empty choice last. *)
Definition match_here (p : pattern) (s : string) : option string :=
  match PyStr.strip_prefix (pat_literal p) s with
  | Some rest => first_alternative p (pat_optional p ++ [EmptyString]) rest
  | None => None
  end.

(** [re.search(p, s)], returning [match.group(1)] of the leftmost match *)
Fixpoint search (p : pattern) (s : string) : option string :=
  match match_here p s with
  | Some g => Some g
  | None =>
      match s with
      | EmptyString => None
      | String _ s' => search p s'
      end
  end.

(** [re.compile(needle, re.I).search(s)] for a literal [needle] *)
Definition search_ci (needle s : string) : bool :=
  PyStr.contains (PyStr.lower needle) (PyStr.lower s).

End Re.

(** ** JSON values, as [response.json()] and [json.loads] return them *)
Inductive json :=
| JNull
| JBool (b : bool)
| JInt (z : Z)
| JFloat (f : float)
| JStr (s : string)
| JArr (items : list json)
| JObj (fields : list (string * json)).

(** ** Exceptions

    Only subclasses of [Exception] are modelled; the class matters for the
    two selective [except] clauses of the scraper. *)
Inductive exn_class :=
| ValueError | TypeError | AttributeError | KeyError
| RequestException | JSONDecodeError | OverflowError | ZeroDivisionError
| OtherError.

Record exn := { exn_kind : exn_class; exn_str : string }.

Inductive result (A : Type) :=
| Ok (a : A)
| Raise (e : exn).
Arguments Ok {A} a.
Arguments Raise {A} e.

Definition is_request_exception (e : exn) : bool :=
  match exn_kind e with RequestException => true | _ => false end.

Definition is_request_or_json_error (e : exn) : bool :=
  match exn_kind e with
  | RequestException | JSONDecodeError => true
  | _ => false
  end.

Definition any_exception (e : exn) : bool := true.

(** ** Parsed documents

    A document is the forest BeautifulSoup builds; [Text] nodes are the
    strings that [get_text] yields.  Attribute lists stand for the
    attribute dictionary of a tag. *)
Inductive node :=
| Text (s : string)
| Elem (tag : string) (attrs : list (string * string)) (children : list node).

Definition soup := list node.

Module Bs4.

(** the node and its descendants, in document order *)
Fixpoint descendants (n : node) : list node :=
  n :: match n with
       | Text _ => []
       | Elem _ _ cs => flat_map descendants cs
       end.

Definition all_nodes (doc : soup) : list node := flat_map descendants doc.

Fixpoint get_attr (name : string) (attrs : list (string * string))
  : option string :=
  match attrs with
  | [] => None
  | (k, v) :: rest => if String.eqb k name then Some v else get_attr name rest
  end.

Definition attr_of (name : string) (n : node) : option string :=
  match n with
  | Text _ => None
  | Elem _ attrs _ => get_attr name attrs
  end.

Definition is_tag (name : string) (n : node) : bool :=
  match n with
  | Text _ => false
  | Elem t _ _ => String.eqb t name
  end.

(** [soup.find(...)] and [soup.find_all(...)] for a node predicate *)
Definition find (p : node -> bool) (doc : soup) : option node :=
  List.find p (all_nodes doc).
Definition find_all (p : node -> bool) (doc : soup) : list node :=
  List.filter p (all_nodes doc).

(** the strings below a node, in document order *)
Fixpoint strings_of (n : node) : list string :=
  match n with
  | Text s => [s]
  | Elem _ _ cs => flat_map strings_of cs
  end.

(** [elem.get_text(strip=True)]: every string is stripped, the empty
    ones are dropped and the rest is joined without a separator. *)
Definition get_text_strip (n : node) : string :=
  String.concat EmptyString
    (List.filter (fun s => negb (String.eqb s EmptyString))
                 (map PyStr.strip (strings_of n))).

End Bs4.

(** ** Data model ([models.py])

    [analysis_timestamp] (the wall clock at construction) is left out. *)
Record Product := {
  id : option string;
  title : string;
  description : option string;
  price : option string;
  compare_at_price : option string;
  vendor : option string;
  product_type : option string;
  handle : option string;
  url : option string;
  images : list string;
  variants : list (list (string * json));
  tags : list string;
  available : option bool
}.

Record FAQ := {
  question : string;
  answer : string;
  category : option string
}.

Record SocialHandle := {
  platform : string;
  social_url : string;
  social_handle : option string
}.

Record ContactInfo := {
  emails : list string;
  phone_numbers : list string;
  address : option string
}.

Record Policy := {
  policy_title : string;
  content : string;
  policy_url : option string
}.

Record ImportantLink := {
  link_title : string;
  link_url : string;
  link_description : option string
}.

Record BrandContext := {
  website_url : string;
  brand_name : option string;
  about_brand : option string;
  product_catalog : list Product;
  hero_products : list Product;
  total_products : Z;
  privacy_policy : option Policy;
  return_policy : option Policy;
  refund_policy : option Policy;
  terms_of_service : option Policy;
  shipping_policy : option Policy;
  faqs : list FAQ;
  social_handles : list SocialHandle;
  contact_info : ContactInfo;
  important_links : list ImportantLink;
  currency : option string;
  country : option string;
  timezone : option string;
  extraction_success : bool;
  extraction_notes : list string
}.

Record CompetitorAnalysis := {
  primary_brand : BrandContext;
  competitors : list BrandContext;
  analysis_summary : option string
}.

(** [BrandContext(website_url=...)]: every other field at its default *)
Definition new_BrandContext (u : string) : BrandContext := {|
  website_url := u;
  brand_name := None;
  about_brand := None;
  product_catalog := [];
  hero_products := [];
  total_products := 0;
  privacy_policy := None;
  return_policy := None;
  refund_policy := None;
  terms_of_service := None;
  shipping_policy := None;
  faqs := [];
  social_handles := [];
  contact_info := {| emails := []; phone_numbers := []; address := None |};
  important_links := [];
  currency := None;
  country := None;
  timezone := None;
  extraction_success := true;
  extraction_notes := []
|}.

(** ** Calls to the outside and their trace *)

(** the summary of a brand that both prompts of [llm_service.py] embed *)
Record brand_summary := {
  summary_name : option string;
  summary_products : list (option string);
  summary_description : string
}.

Inductive chat_request :=
| SimilarityPrompt (brand1 brand2 : brand_summary)
| SearchTermsPrompt (brand : brand_summary).

Inductive event :=
| EvGet (target : string)
| EvChat (req : chat_request)
| EvSleep (seconds : nat).

(** the calls made so far, oldest first *)
Definition trace := list event.

Record response := {
  resp_text : string;
  resp_soup : soup;
  resp_json : option json   (* [None]: the body is not JSON *)
}.

(** Computations that call out: they read and extend the trace and may
    raise. *)
Definition M (A : Type) : Type := trace -> result A * trace.

Definition ret {A} (a : A) : M A := fun w => (Ok a, w).
Definition raise {A} (e : exn) : M A := fun w => (Raise e, w).
Definition bind {A B} (c : M A) (k : A -> M B) : M B :=
  fun w =>
    match c w with
    | (Ok a, w') => k a w'
    | (Raise e, w') => (Raise e, w')
    end.
Definition lift {A} (r : result A) : M A := fun w => (r, w).

(** [try: c  except <classes accepted by catches>: handler] *)
Definition try_except {A} (c : M A) (catches : exn -> bool)
    (handler : exn -> M A) : M A :=
  fun w =>
    match c w with
    | (Ok a, w') => (Ok a, w')
    | (Raise e, w') => if catches e then handler e w' else (Raise e, w')
    end.

Notation "'let*' x ':=' c 'in' k" := (bind c (fun x => k))
  (at level 10, x pattern, c at level 100, k at level 200).

(** ** Collaborators

    What the code calls but does not define: the HTTP session, the chat
    completion endpoint, library functions, the iteration order of a Python
    [set], Pydantic's construction of one [Product] from a feed entry, and
    the page extractors that no statement below looks into. *)
Class Collaborators := {
  (** [self.session.get(url, timeout=...)] then [raise_for_status()] *)
  session_get : trace -> string -> result response;
  (** [openai.ChatCompletion.create(...).choices[0].message.content] *)
  chat_completion : trace -> chat_request -> result string;
  (** [LLMService.enabled]: an API key was found at construction *)
  llm_enabled : bool;
  (** [json.loads]; [None] is a [JSONDecodeError] *)
  json_loads : string -> option json;
  (** [float(s)]; [None] is a [ValueError] *)
  py_float : string -> option float;
  (** [f"{x:.2f}"] and [f"{x:.0f}"] *)
  format_2f : float -> string;
  format_0f : float -> string;
  (** [urllib.parse.urljoin]: the URL it returns, and the message of the
      [ValueError] that it raises instead when it cannot parse one of its
      arguments (an unmatched bracket in the host), if it does *)
  urljoin : string -> string -> string;
  urljoin_error : string -> string -> option string;
  (** [list(set(l))]: the distinct elements of [l] in an unspecified order *)
  list_set : list string -> list string;
  list_set_NoDup : forall l, NoDup (list_set l);
  list_set_elem : forall l x, x ∈ list_set l <-> x ∈ l;
  (** lines 110-143 of [_extract_products] on one feed entry that is a
      JSON object: field access, [_clean_html] and [Product(...)] *)
  normalize_entry : string -> list (string * json) -> result Product;
  extract_brand_info : soup -> result (option string * option string);
  extract_contact_info : soup -> result ContactInfo;
  extract_faqs : soup -> result (list FAQ);
  extract_important_links : soup -> string -> result (list ImportantLink);
  (** both helpers swallow their own exceptions *)
  _extract_currency : soup -> option string;
  _extract_country : soup -> option string
}.

(** ** Python values and operators used on the product feed *)
Module Py.

(** truth value of a JSON value *)
Definition truthy (j : json) : bool :=
  match j with
  | JNull => false
  | JBool b => b
  | JInt z => negb (z =? 0)
  | JFloat f => negb (PrimFloat.eqb f 0%float)
  | JStr s => negb (String.eqb s EmptyString)
  | JArr items => match items with [] => false | _ => true end
  | JObj fields => match fields with [] => false | _ => true end
  end.

Definition is_str (k : string) (j : json) : bool :=
  match j with JStr s => String.eqb s k | _ => false end.

Fixpoint dict_get (k : string) (fields : list (string * json)) : option json :=
  match fields with
  | [] => None
  | (k', v) :: rest => if String.eqb k' k then Some v else dict_get k rest
  end.

(** [k in j] for a string [k]: key of a dict, element of a list,
    substring of a string, and a [TypeError] on anything else *)
Definition contains (k : string) (j : json) : result bool :=
  match j with
  | JObj fields => Ok (bool_decide (is_Some (dict_get k fields)))
  | JArr items => Ok (existsb (is_str k) items)
  | JStr s => Ok (PyStr.contains k s)
  | _ => Raise {| exn_kind := TypeError;
                  exn_str := "argument is not iterable" |}
  end.

(** [j[k]] for a string [k] *)
Definition getitem (k : string) (j : json) : result json :=
  match j with
  | JObj fields =>
      match dict_get k fields with
      | Some v => Ok v
      | None => Raise {| exn_kind := KeyError; exn_str := k |}
      end
  | _ => Raise {| exn_kind := TypeError;
                  exn_str := "indices must be integers" |}
  end.

Fixpoint chars (s : string) : list json :=
  match s with
  | EmptyString => []
  | String c s' => JStr (String c EmptyString) :: chars s'
  end.

(** the values a [for] loop over [j] visits *)
Definition iter (j : json) : result (list json) :=
  match j with
  | JArr items => Ok items
  | JObj fields => Ok (map (fun kv => JStr (fst kv)) fields)
  | JStr s => Ok (chars s)
  | _ => Raise {| exn_kind := TypeError;
                  exn_str := "object is not iterable" |}
  end.

End Py.

Section Code.
Context `{Collaborators}.

(** the one effectful primitive of the scraper *)
Definition http_get (target : string) : M response :=
  fun w => (session_get w target, w ++ [EvGet target]).

Definition chat (req : chat_request) : M string :=
  fun w => (chat_completion w req, w ++ [EvChat req]).

Definition sleep (seconds : nat) : M unit :=
  fun w => (Ok tt, w ++ [EvSleep seconds]).

(** [urljoin(base, url)] as a call that may raise *)
Definition py_urljoin (base url : string) : result string :=
  match urljoin_error base url with
  | Some msg => Raise {| exn_kind := ValueError; exn_str := msg |}
  | None => Ok (urljoin base url)
  end.

(** ** [scraper.py] *)

Definition get_page_content (target : string)
  : M (option string * option soup) :=
  try_except
    (let* r := http_get target in
     ret (Some (resp_text r), Some (resp_soup r)))
    is_request_exception
    (fun _ => ret (None, None)).

(** [None] of the source is [JNull] here: both are false and both are
    what a body [null] decodes to. *)
Definition get_products_json (base_url : string) : M json :=
  try_except
    (let* products_url := lift (py_urljoin base_url "/products.json") in
     let* r := http_get products_url in
     match resp_json r with
     | Some j => ret j
     | None => raise {| exn_kind := JSONDecodeError;
                        exn_str := "Expecting value" |}
     end)
    is_request_or_json_error
    (fun _ => ret JNull).

(** [products_data and 'products' in products_data] *)
Definition has_products_key (products_data : json) : result bool :=
  if Py.truthy products_data then Py.contains "products" products_data
  else Ok false.

Definition is_generator_meta (n : node) : bool :=
  Bs4.is_tag "meta" n &&
  match Bs4.attr_of "name" n, Bs4.attr_of "content" n with
  | Some nm, Some c => String.eqb nm "generator" && Re.search_ci "Shopify" c
  | _, _ => false
  end.

Definition has_attr_matching (tag attr needle : string) (n : node) : bool :=
  Bs4.is_tag tag n &&
  match Bs4.attr_of attr n with
  | Some v => Re.search_ci needle v
  | None => false
  end.

Definition is_text_matching (needle : string) (n : node) : bool :=
  match n with
  | Text s => Re.search_ci needle s
  | Elem _ _ _ => false
  end.

Definition shopify_indicators (doc : soup) : list (option node) :=
  [ Bs4.find is_generator_meta doc;
    Bs4.find (has_attr_matching "script" "src" "shopify") doc;
    Bs4.find (is_text_matching "shopify") doc;
    Bs4.find (has_attr_matching "link" "href" "shopify") doc ].

(** [any(indicator for indicator in shopify_indicators)] *)
Definition has_marker (doc : soup) : bool :=
  existsb (fun i => bool_decide (is_Some i)) (shopify_indicators doc).

Definition is_shopify_store (target : string) : M bool :=
  try_except
    (let* products_data := get_products_json target in
     let* has := lift (has_products_key products_data) in
     if has then ret true
     else
       let* page := get_page_content target in
       match snd page with
       | Some doc =>
           ret (has_marker doc)
       | None => ret false
       end)
    any_exception
    (fun _ => ret false).

Definition lit_pattern (lit : string) (alts : list string) : Re.pattern :=
  {| Re.pat_literal := lit; Re.pat_optional := alts;
     Re.pat_class := Re.handle_char |}.

Definition social_patterns : list (string * Re.pattern) :=
  [ ("instagram", lit_pattern "instagram.com/" []);
    ("facebook", lit_pattern "facebook.com/" []);
    ("twitter", lit_pattern "twitter.com/" []);
    ("tiktok", lit_pattern "tiktok.com/" ["@"]);
    ("youtube", lit_pattern "youtube.com/" ["c/"; "channel/"; "user/"]);
    ("linkedin", lit_pattern "linkedin.com/" ["company/"; "in/"]);
    ("pinterest", lit_pattern "pinterest.com/" []) ].

Definition is_anchor_with_href (n : node) : bool :=
  Bs4.is_tag "a" n && bool_decide (is_Some (Bs4.attr_of "href" n)).

(** the inner loop of [extract_social_links] on one resolved [href] *)
Definition social_matches (href : string) : list SocialHandle :=
  flat_map
    (fun pp : string * Re.pattern =>
       match Re.search (snd pp) href with
       | Some g => [ {| platform := fst pp; social_url := href;
                        social_handle := Some g |} ]
       | None => []
       end)
    social_patterns.

(** the body of the outer loop, on one anchor whose [href] [urljoin]
    accepts: what it appends to [social_links] *)
Definition social_links_of_anchor (base_url : string) (link : node)
  : list SocialHandle :=
  let href := PyStr.lower (default EmptyString (Bs4.attr_of "href" link)) in
  if String.eqb href EmptyString then []
  else
    let href := if PyStr.startswith "/" href then urljoin base_url href
                else href in
    social_matches href.

Definition extract_social_links (doc : soup) (base_url : string)
  : list SocialHandle :=
  flat_map (social_links_of_anchor base_url)
           (Bs4.find_all is_anchor_with_href doc).

Definition products_pattern : Re.pattern :=
  {| Re.pat_literal := "/products/"; Re.pat_optional := [];
     Re.pat_class := Re.slug_char |}.

Definition is_product_anchor (n : node) : bool :=
  Bs4.is_tag "a" n &&
  match Bs4.attr_of "href" n with
  | Some v => PyStr.contains "/products/" v
  | None => false
  end.

Definition get_hero_products (doc : soup) (base_url : string) : list string :=
  let hero_product_handles :=
    flat_map
      (fun link =>
         match Bs4.attr_of "href" link with
         | Some href =>
             if String.eqb href EmptyString then []
             else match Re.search products_pattern href with
                  | Some g => [g]
                  | None => []
                  end
         | None => []
         end)
      (Bs4.find_all is_product_anchor doc) in
  take 10 (list_set hero_product_handles).

Definition policy_urls : list (string * list string) :=
  [ ("privacy_policy",
     ["/pages/privacy-policy"; "/privacy-policy"; "/pages/privacy"]);
    ("return_policy", ["/pages/returns"; "/pages/return-policy"; "/returns"]);
    ("refund_policy", ["/pages/refunds"; "/pages/refund-policy"; "/refunds"]);
    ("terms_of_service",
     ["/pages/terms-of-service"; "/terms"; "/pages/terms"]);
    ("shipping_policy",
     ["/pages/shipping-policy"; "/pages/shipping"; "/shipping"]) ].

(** the double quote character, as a string *)
Definition dq : string := String (ascii_of_nat 34) EmptyString.

(** [soup.find([...])] with a list of names: the first tag whose name is
    one of them (the two selector-like entries are compared as names) *)
Definition is_content_elem (n : node) : bool :=
  existsb (fun name => Bs4.is_tag name n)
    ["main"; "article";
     "div[class*=" +:+ dq +:+ "content" +:+ dq +:+ "]";
     "div[class*=" +:+ dq +:+ "policy" +:+ dq +:+ "]"].

(** the dictionary stored for an accepted page *)
Definition policy_from (base_url policy_name url_path text : string) : Policy :=
  {| policy_title := PyStr.title (PyStr.replace_underscore policy_name);
     content := PyStr.slice_to 2000 text;
     policy_url := Some (urljoin base_url url_path) |}.

(** one candidate path of one category: the body of the inner [try] *)
Definition probe_policy_page (base_url policy_name url_path : string)
  : M (option Policy) :=
  let* full_url := lift (py_urljoin base_url url_path) in
  let* page := get_page_content full_url in
  match snd page with
  | Some doc =>
      match Bs4.find is_content_elem doc with
      | Some content_elem =>
          let text := Bs4.get_text_strip content_elem in
          if (100 <? String.length text)%nat
          then ret (Some (policy_from base_url policy_name url_path text))
          else ret None
      | None => ret None
      end
  | None => ret None
  end.

(** the inner loop: candidates in order, [break] on the first accepted
    page, [continue] on any exception *)
Fixpoint probe_policy (base_url policy_name : string)
    (possible_urls : list string) : M (option Policy) :=
  match possible_urls with
  | [] => ret None
  | url_path :: rest =>
      let* found :=
        try_except (probe_policy_page base_url policy_name url_path)
                   any_exception (fun _ => ret None) in
      match found with
      | Some p => ret (Some p)
      | None => probe_policy base_url policy_name rest
      end
  end.

Fixpoint extract_policies_from (base_url : string)
    (categories : list (string * list string))
  : M (list (string * option Policy)) :=
  match categories with
  | [] => ret []
  | (policy_name, possible_urls) :: rest =>
      let* p := probe_policy base_url policy_name possible_urls in
      let* ps := extract_policies_from base_url rest in
      ret ((policy_name, p) :: ps)
  end.

Definition extract_policies (base_url : string)
  : M (list (string * option Policy)) :=
  extract_policies_from base_url policy_urls.

(** [policies_data.get(name)], when it is a policy *)
Fixpoint policy_of (name : string) (policies : list (string * option Policy))
  : option Policy :=
  match policies with
  | [] => None
  | (k, v) :: rest => if String.eqb k name then v else policy_of name rest
  end.

(** ** [insights_extractor.py] *)

Definition type_name (j : json) : string :=
  match j with
  | JNull => "NoneType" | JBool _ => "bool" | JInt _ => "int"
  | JFloat _ => "float" | JStr _ => "str" | JArr _ => "list"
  | JObj _ => "dict"
  end.

(** the loop of [_extract_products].  An entry that is a JSON object is
    normalised and appended, or skipped when normalisation raises.  On any
    other entry the [try] body raises and so does [product_data.get('id')]
    in the handler, which ends the function. *)
Fixpoint process_entries (target : string) (entries : list json)
    (products : list Product) : result (list Product) :=
  match entries with
  | [] => Ok products
  | JObj fields :: rest =>
      match normalize_entry target fields with
      | Ok p => process_entries target rest (products ++ [p])
      | Raise _ => process_entries target rest products
      end
  | other :: _ =>
      Raise {| exn_kind := AttributeError;
               exn_str := "'" +:+ type_name other
                          +:+ "' object has no attribute 'get'" |}
  end.

Definition _extract_products (target : string) : M (list Product) :=
  let* json_products := get_products_json target in
  let* has := lift (has_products_key json_products) in
  if has then
    let* feed := lift (Py.getitem "products" json_products) in
    let* entries := lift (Py.iter feed) in
    lift (process_entries target entries [])
  else ret [].

Definition _get_products_by_handles (products : list Product)
    (handles : list string) : list Product :=
  let handles_set : gset string := list_to_set handles in
  List.filter
    (fun product =>
       match handle product with
       | Some h => bool_decide (h ∈ handles_set)
       | None => false
       end)
    products.

(** field assignments on a [BrandContext] *)
Definition set_brand_info (n a : option string) (bc : BrandContext) :=
  let 'Build_BrandContext u _ _ pc hp tp pp rp fp ts
                          sp fq sh ci il cu co tz es en
    := bc in
  Build_BrandContext u n a pc hp tp pp rp fp ts sp fq sh ci il cu co tz es en.

Definition set_products (products : list Product) (bc : BrandContext) :=
  let 'Build_BrandContext u n a _ hp _ pp rp fp ts
                          sp fq sh ci il cu co tz es en
    := bc in
  Build_BrandContext u n a products hp (Z.of_nat (length products))
                     pp rp fp ts sp fq sh ci il cu co tz es en.

Definition set_hero_products (hero : list Product) (bc : BrandContext) :=
  let 'Build_BrandContext u n a pc _ tp pp rp fp ts
                          sp fq sh ci il cu co tz es en
    := bc in
  Build_BrandContext u n a pc hero tp pp rp fp ts sp fq sh ci il cu co tz es en.

Definition set_social_handles (sh : list SocialHandle) (bc : BrandContext) :=
  let 'Build_BrandContext u n a pc hp tp pp rp fp ts
                          sp fq _ ci il cu co tz es en
    := bc in
  Build_BrandContext u n a pc hp tp pp rp fp ts sp fq sh ci il cu co tz es en.

Definition set_contact_info (ci : ContactInfo) (bc : BrandContext) :=
  let 'Build_BrandContext u n a pc hp tp pp rp fp ts
                          sp fq sh _ il cu co tz es en
    := bc in
  Build_BrandContext u n a pc hp tp pp rp fp ts sp fq sh ci il cu co tz es en.

Definition set_faqs (fq : list FAQ) (bc : BrandContext) :=
  let 'Build_BrandContext u n a pc hp tp pp rp fp ts
                          sp _ sh ci il cu co tz es en
    := bc in
  Build_BrandContext u n a pc hp tp pp rp fp ts sp fq sh ci il cu co tz es en.

(** the five conditional assignments: a category without a policy keeps
    the field as it is *)
Definition set_policies (policies : list (string * option Policy))
    (bc : BrandContext) :=
  let 'Build_BrandContext u n a pc hp tp pp rp fp ts
                          sp fq sh ci il cu co tz es en
    := bc in
  let pick name old :=
    match policy_of name policies with Some p => Some p | None => old end in
  Build_BrandContext u n a pc hp tp
    (pick "privacy_policy" pp) (pick "return_policy" rp)
    (pick "refund_policy" fp) (pick "terms_of_service" ts)
    (pick "shipping_policy" sp) fq sh ci il cu co tz es en.

Definition set_important_links (il : list ImportantLink) (bc : BrandContext) :=
  let 'Build_BrandContext u n a pc hp tp pp rp fp ts
                          sp fq sh ci _ cu co tz es en
    := bc in
  Build_BrandContext u n a pc hp tp pp rp fp ts sp fq sh ci il cu co tz es en.

Definition set_currency (cu : option string) (bc : BrandContext) :=
  let 'Build_BrandContext u n a pc hp tp pp rp fp ts
                          sp fq sh ci il _ co tz es en
    := bc in
  Build_BrandContext u n a pc hp tp pp rp fp ts sp fq sh ci il cu co tz es en.

Definition set_country (co : option string) (bc : BrandContext) :=
  let 'Build_BrandContext u n a pc hp tp pp rp fp ts
                          sp fq sh ci il cu _ tz es en
    := bc in
  Build_BrandContext u n a pc hp tp pp rp fp ts sp fq sh ci il cu co tz es en.

Definition set_extraction_success (es : bool) (bc : BrandContext) :=
  let 'Build_BrandContext u n a pc hp tp pp rp fp ts
                          sp fq sh ci il cu co tz _ en
    := bc in
  Build_BrandContext u n a pc hp tp pp rp fp ts sp fq sh ci il cu co tz es en.

(** [extraction_notes.append(note)] *)
Definition append_note (note : string) (bc : BrandContext) :=
  let 'Build_BrandContext u n a pc hp tp pp rp fp ts
                          sp fq sh ci il cu co tz es en
    := bc in
  Build_BrandContext u n a pc hp tp pp rp fp ts sp fq sh ci il cu co tz es
                     (en ++ [note]).

(** A stage of the [try] block: the calls of one group of statements and
    then their assignments. *)
Definition stage := BrandContext -> M BrandContext.

Definition stage_brand_info (doc : soup) : stage := fun bc =>
  let* brand_info := lift (extract_brand_info doc) in
  ret (set_brand_info (fst brand_info) (snd brand_info) bc).

Definition stage_products (target : string) : stage := fun bc =>
  let* products := _extract_products target in
  ret (set_products products bc).

(** [products_data['products']] is the list just stored in
    [product_catalog] *)
Definition stage_hero_products (doc : soup) (target : string) : stage :=
  fun bc =>
    let hero_product_handles := get_hero_products doc target in
    ret (set_hero_products
           (_get_products_by_handles (product_catalog bc) hero_product_handles)
           bc).

Definition stage_social (doc : soup) (target : string) : stage := fun bc =>
  ret (set_social_handles (extract_social_links doc target) bc).

Definition stage_contact (doc : soup) : stage := fun bc =>
  let* contact_data := lift (extract_contact_info doc) in
  ret (set_contact_info contact_data bc).

Definition stage_faqs (doc : soup) : stage := fun bc =>
  let* faqs_data := lift (extract_faqs doc) in
  ret (set_faqs faqs_data bc).

Definition stage_policies (target : string) : stage := fun bc =>
  let* policies_data := extract_policies target in
  ret (set_policies policies_data bc).

Definition stage_links (doc : soup) (target : string) : stage := fun bc =>
  let* links_data := lift (extract_important_links doc target) in
  ret (set_important_links links_data bc).

Definition stage_metadata (doc : soup) : stage := fun bc =>
  ret (set_country (_extract_country doc)
         (set_currency (_extract_currency doc) bc)).

Definition stages (doc : soup) (target : string) : list stage :=
  [ stage_brand_info doc; stage_products target;
    stage_hero_products doc target; stage_social doc target;
    stage_contact doc; stage_faqs doc; stage_policies target;
    stage_links doc target; stage_metadata doc ].

(** the [try] block up to its last extraction: the context as the last
    completed stage left it, and the exception that stopped it, if any *)
Fixpoint run_stages (sts : list stage) (bc : BrandContext)
  : trace -> (BrandContext * option exn) * trace :=
  match sts with
  | [] => fun w => ((bc, None), w)
  | st :: rest => fun w =>
      match st bc w with
      | (Ok bc', w') => run_stages rest bc' w'
      | (Raise e, w') => ((bc, Some e), w')
      end
  end.

Definition normalize_url (website_url : string) : string :=
  if PyStr.startswith "http://" website_url
     || PyStr.startswith "https://" website_url
  then website_url else "https://" +:+ website_url.

Definition not_shopify_error : exn :=
  {| exn_kind := ValueError;
     exn_str := "The provided URL does not appear to be a Shopify store" |}.

Definition fetch_error : exn :=
  {| exn_kind := OtherError; exn_str := "Could not fetch website content" |}.

(** the end of the [try] block, or its [except] clause *)
Definition finish (target : string) (r : BrandContext * option exn)
  : BrandContext :=
  match r with
  | (bc, None) =>
      set_extraction_success true
        (append_note ("Successfully extracted data from " +:+ target) bc)
  | (bc, Some e) =>
      append_note ("Partial extraction due to error: " +:+ exn_str e)
        (set_extraction_success false bc)
  end.

Definition extract_all_insights (website_url : string) : M BrandContext :=
  let website_url := normalize_url website_url in
  let* shopify := is_shopify_store website_url in
  if negb shopify then raise not_shopify_error
  else
    let brand_context := new_BrandContext website_url in
    let* page := get_page_content website_url in
    match snd page with
    | None => raise fetch_error
    | Some doc => fun w =>
        let '(r, w') := run_stages (stages doc website_url) brand_context w in
        (Ok (finish website_url r), w')
    end.

(** ** [llm_service.py] *)

(** [x[:n]] on an optional string: slicing [None] is a [TypeError] *)
Definition slice_optional (n : nat) (x : option string) : result string :=
  match x with
  | Some s => Ok (PyStr.slice_to n s)
  | None => Raise {| exn_kind := TypeError;
                     exn_str := "'NoneType' object is not subscriptable" |}
  end.

(** the summary built from [brand.dict()], over the first [n] products *)
Definition summarize (n : nat) (brand : BrandContext) : result brand_summary :=
  match slice_optional 200 (about_brand brand) with
  | Ok d => Ok {| summary_name := brand_name brand;
                  summary_products :=
                    map product_type (take n (product_catalog brand));
                  summary_description := d |}
  | Raise e => Raise e
  end.

Definition float_error : exn :=
  {| exn_kind := ValueError;
     exn_str := "could not convert string to float" |}.

Definition analyze_competitor_similarity (brand1 brand2 : BrandContext)
  : M float :=
  if negb llm_enabled then ret 0%float
  else
    try_except
      (let* brand1_summary := lift (summarize 10 brand1) in
       let* brand2_summary := lift (summarize 10 brand2) in
       let* raw := chat (SimilarityPrompt brand1_summary brand2_summary) in
       match py_float (PyStr.strip raw) with
       | Some x => ret x
       | None => raise float_error
       end)
      any_exception
      (fun _ => ret 0%float).

Definition generate_competitor_search_terms (brand : BrandContext)
  : M (list json) :=
  if negb llm_enabled then ret []
  else
    try_except
      (let* brand_summary := lift (summarize 5 brand) in
       let* raw := chat (SearchTermsPrompt brand_summary) in
       match json_loads (PyStr.strip raw) with
       | Some (JArr search_terms) => ret search_terms
       | _ => ret []
       end)
      any_exception
      (fun _ => ret []).

(** ** [competitor_service.py] *)

(** a Python [int], of any size, as a binary number with exponent 0 *)
Definition sf_of_Z (z : Z) : spec_float :=
  match z with
  | Z0 => S754_zero false
  | Zpos m => S754_finite false m 0
  | Zneg m => S754_finite true m 0
  end.

(** the least magnitude that rounds to [2^1024]: half an ulp above the
    largest binary64 number *)
Definition overflow_threshold : Z := 2 ^ 1024 - 2 ^ 970.

(** [a / b] on integers: the quotient rounded to the nearest binary64
    number, ties to even, whatever the size of [a] and [b]; a divisor 0 is
    a [ZeroDivisionError], a quotient that rounds beyond the largest
    binary64 number an [OverflowError] *)
Definition truediv (a b : Z) : result float :=
  if b =? 0 then
    Raise {| exn_kind := ZeroDivisionError; exn_str := "division by zero" |}
  else if overflow_threshold * Z.abs b <=? Z.abs a then
    Raise {| exn_kind := OverflowError;
             exn_str := "integer division result too large for a float" |}
  else Ok (SF2Prim (SFdiv prec emax (sf_of_Z a) (sf_of_Z b))).

(** [sum(l)] *)
Definition sum (l : list Z) : Z := foldr Z.add 0 l.

Definition shopify_stores_by_category : list (string * list string) :=
  [ ("beauty", ["https://colourpop.com"; "https://jeffreestarcosmetics.com";
                "https://fentybeauty.com"; "https://glossier.com"]);
    ("fashion", ["https://fashionnova.com"; "https://gymshark.com";
                 "https://cupshe.com"; "https://shein.com"]);
    ("cosmetics", ["https://colourpop.com"; "https://jeffreestarcosmetics.com";
                   "https://rarebeauty.com"]);
    ("clothing", ["https://fashionnova.com"; "https://memy.co.in";
                  "https://gymshark.com"]);
    ("accessories", ["https://pandora.net"; "https://danielwellington.com"]) ].

(** the inner loop of [find_competitor_urls] for one lowered term *)
Definition urls_for_term (term_lower : string) : list string :=
  flat_map
    (fun cu : string * list string =>
       if existsb (fun keyword => PyStr.contains keyword term_lower)
                  [fst cu; "women"; "men"; "apparel"; "makeup"]
       then take 2 (snd cu) else [])
    shopify_stores_by_category.

(** the outer loop; [term.lower()] exists on strings only *)
Fixpoint collect_competitor_urls (search_terms : list json)
    (competitor_urls : list string) : result (list string) :=
  match search_terms with
  | [] => Ok competitor_urls
  | JStr term :: rest =>
      collect_competitor_urls rest
        (competitor_urls ++ urls_for_term (PyStr.lower term))
  | other :: _ =>
      Raise {| exn_kind := AttributeError;
               exn_str := "'" +:+ type_name other
                          +:+ "' object has no attribute 'lower'" |}
  end.

Definition find_competitor_urls (search_terms : list json) (max_results : Z)
  : result (list string) :=
  match collect_competitor_urls search_terms [] with
  | Ok competitor_urls =>
      Ok (PyStr.list_slice_to max_results (list_set competitor_urls))
  | Raise e => Raise e
  end.

(** the value of [x or EmptyString]-style tests on an optional string *)
Definition nonempty (x : option string) : option string :=
  match x with
  | Some s => if String.eqb s EmptyString then None else Some s
  | None => None
  end.

Definition lowered_product_types (products : list Product) : list string :=
  omap (fun p => PyStr.lower <$> nonempty (product_type p)) products.

Definition generic_terms : list string :=
  ["fashion"; "beauty"; "cosmetics"; "clothing"; "accessories"].

Definition _generate_fallback_search_terms (brand : BrandContext)
  : list string :=
  let from_types :=
    match product_catalog brand with
    | [] => []
    | _ => list_set (lowered_product_types (take 10 (product_catalog brand)))
    end in
  let from_name :=
    match nonempty (brand_name brand) with
    | Some name => take 3 (PyStr.findall_words (PyStr.lower name))
    | None => []
    end in
  take 8 (from_types ++ from_name ++ take 2 generic_terms).

(** [', '.join(terms)]; joining anything but strings is a [TypeError] *)
Fixpoint strings_of_terms (terms : list json) : result (list string) :=
  match terms with
  | [] => Ok []
  | JStr s :: rest =>
      match strings_of_terms rest with
      | Ok r => Ok (s :: r)
      | Raise e => Raise e
      end
  | other :: _ =>
      Raise {| exn_kind := TypeError;
               exn_str := "sequence item: expected str instance, "
                          +:+ type_name other +:+ " found" |}
  end.

(** [brand.brand_name or brand.website_url] *)
Definition display_name (brand : BrandContext) : string :=
  default (website_url brand) (nonempty (brand_name brand)).

Definition _create_analysis_summary (brand : BrandContext)
    (comps : list BrandContext) (search_terms : list json) : result string :=
  match strings_of_terms (take 5 search_terms) with
  | Raise e => Raise e
  | Ok terms =>
      let summary_parts :=
        [ "Competitor Analysis for " +:+ display_name brand;
          "Search terms used: " +:+ PyStr.join ", " terms;
          "Found " +:+ pretty (length comps) +:+ " competitor(s)" ] in
      match comps with
      | [] => Ok (PyStr.join " | " summary_parts)
      | _ =>
          match truediv (sum (map total_products comps))
                        (Z.of_nat (length comps)) with
          | Raise e => Raise e
          | Ok avg_competitor_products =>
              Ok (PyStr.join " | "
                    (summary_parts ++
                     [ "Competitors analyzed: "
                         +:+ PyStr.join ", " (map display_name comps);
                       "Product catalog size - Primary: "
                         +:+ pretty (total_products brand)
                         +:+ ", Competitors avg: "
                         +:+ format_0f avg_competitor_products ]))
          end
      end
  end.

(** the body of the per-candidate [try] *)
Definition analyze_candidate (brand : BrandContext) (target : string)
    (comps : list BrandContext) : M (list BrandContext) :=
  let* competitor_analysis := extract_all_insights target in
  let* competitor_analysis :=
    if llm_enabled then
      let* similarity :=
        analyze_competitor_similarity brand competitor_analysis in
      ret (append_note ("Similarity score: " +:+ format_2f similarity)
                       competitor_analysis)
    else ret competitor_analysis in
  let comps := comps ++ [competitor_analysis] in
  let* _ := sleep 2 in
  ret comps.

(** the loop over the candidates: a failure leaves the list as it is *)
Fixpoint analyze_candidates (brand : BrandContext) (targets : list string)
    (comps : list BrandContext) : M (list BrandContext) :=
  match targets with
  | [] => ret comps
  | target :: rest =>
      let* comps :=
        try_except (analyze_candidate brand target comps)
                   any_exception (fun _ => ret comps) in
      analyze_candidates brand rest comps
  end.

Definition failed_analysis (brand : BrandContext) (e : exn)
  : CompetitorAnalysis :=
  {| primary_brand := brand;
     competitors := [];
     analysis_summary := Some ("Competitor analysis failed: " +:+ exn_str e) |}.

(** the body of the outer [try] of [analyze_competitors] *)
Definition analyze_competitors_body (brand : BrandContext)
    (max_competitors : Z) : M CompetitorAnalysis :=
  let* search_terms :=
    if llm_enabled then generate_competitor_search_terms brand
    else ret [] in
  let search_terms :=
    match search_terms with
    | [] => map JStr (_generate_fallback_search_terms brand)
    | _ => search_terms
    end in
  let* competitor_urls :=
    lift (find_competitor_urls search_terms (max_competitors * 2)) in
  let competitor_urls :=
    List.filter (fun u => negb (String.eqb u (website_url brand)))
                competitor_urls in
  let* comps :=
    analyze_candidates brand
      (PyStr.list_slice_to max_competitors competitor_urls) [] in
  let* summary :=
    lift (_create_analysis_summary brand comps search_terms) in
  ret {| primary_brand := brand;
         competitors := comps;
         analysis_summary := Some summary |}.

Definition analyze_competitors (brand : BrandContext) (max_competitors : Z)
  : M CompetitorAnalysis :=
  try_except (analyze_competitors_body brand max_competitors)
             any_exception
             (fun e => ret (failed_analysis brand e)).

Record insights := {
  market_position : string;
  product_diversity : string;
  price_positioning : string;
  social_presence : string
}.

(** the literals [1.2] and [0.8] as the binary64 values Python reads *)
Definition f1_2 : float := 0x1.3333333333333p+0%float.
Definition f0_8 : float := 0x1.999999999999ap-1%float.

(** how an integer [n] compares with a float [x]: Python compares the two
    values exactly, without converting [n]; [None] when [x] is a NaN *)
Definition int_cmp_float (n : Z) (x : float) : option comparison :=
  match Prim2SF x with
  | S754_nan => None
  | S754_infinity negative => Some (if negative then Gt else Lt)
  | S754_zero _ => Some (n ?= 0)
  | S754_finite negative m e =>
      let v := if negative then Zneg m else Zpos m in
      Some (if 0 <=? e then n ?= v * 2 ^ e else n * 2 ^ (- e) ?= v)
  end.

(** [n > x] and [n < x] between an integer and a float *)
Definition int_gt_float (n : Z) (x : float) : bool :=
  match int_cmp_float n x with Some Gt => true | _ => false end.
Definition int_lt_float (n : Z) (x : float) : bool :=
  match int_cmp_float n x with Some Lt => true | _ => false end.

Definition type_set (products : list Product) : gset string :=
  list_to_set (lowered_product_types products).

(** [sum(competitor_products) / len(competitor_products)] *)
Definition average_products (comps : list BrandContext) : result float :=
  truediv (sum (map total_products comps)) (Z.of_nat (length comps)).

(** [sum(competitor_social_counts) / len(competitor_social_counts)] *)
Definition average_social (comps : list BrandContext) : result float :=
  truediv (sum (map (fun c => Z.of_nat (length (social_handles c))) comps))
          (Z.of_nat (length comps)).

(** assignments to entries of the [insights] dictionary *)
Definition set_market_position (v : string) (i : insights) : insights :=
  {| market_position := v; product_diversity := product_diversity i;
     price_positioning := price_positioning i;
     social_presence := social_presence i |}.

Definition set_social_presence (v : string) (i : insights) : insights :=
  {| market_position := market_position i;
     product_diversity := product_diversity i;
     price_positioning := price_positioning i; social_presence := v |}.

Definition set_product_diversity (v : string) (i : insights) : insights :=
  {| market_position := market_position i; product_diversity := v;
     price_positioning := price_positioning i;
     social_presence := social_presence i |}.

Definition unknown_insights : insights :=
  {| market_position := "unknown"; product_diversity := "unknown";
     price_positioning := "unknown"; social_presence := "unknown" |}.

(** The [try] block assigns the three axes one after the other; its
    handler only logs, so an exception leaves the dictionary as the
    assignments before it made it.  The two divisions are the statements of
    the block that can raise. *)
Definition get_market_insights (brand : BrandContext)
    (comps : list BrandContext) : insights :=
  let insights := unknown_insights in
  match comps with
  | [] => insights
  | _ =>
      let primary_products := total_products brand in
      match average_products comps with
      | Raise _ => insights
      | Ok avg_competitor_products =>
          let insights :=
            set_market_position
              (if int_gt_float primary_products
                    (PrimFloat.mul avg_competitor_products f1_2)
               then "large_catalog"
               else if int_lt_float primary_products
                         (PrimFloat.mul avg_competitor_products f0_8)
               then "focused_catalog"
               else "average_catalog")
              insights in
          let primary_social_count :=
            Z.of_nat (length (social_handles brand)) in
          match average_social comps with
          | Raise _ => insights
          | Ok avg_competitor_social =>
              let insights :=
                set_social_presence
                  (if int_gt_float primary_social_count avg_competitor_social
                   then "strong"
                   else if int_lt_float primary_social_count
                             avg_competitor_social
                   then "weak"
                   else "average")
                  insights in
              let primary_types := type_set (product_catalog brand) in
              let competitor_types :=
                type_set (flat_map product_catalog comps) in
              let overlap := size (primary_types ∩ competitor_types) in
              let unique_primary :=
                size (primary_types ∖ competitor_types) in
              set_product_diversity
                (if (overlap <? unique_primary)%nat then "unique_offerings"
                 else if (unique_primary <? overlap)%nat
                 then "similar_to_market"
                 else "balanced_portfolio")
                insights
          end
      end
  end.

(** ** Notions used in the statements *)

(** the product fields, which only two stages assign *)
Definition product_fields (bc : BrandContext) :=
  (product_catalog bc, hero_products bc, total_products bc).

(** [st] takes contexts satisfying [P] to contexts satisfying [Q] *)
Definition stage_maps (P Q : BrandContext -> Prop) (st : stage) : Prop :=
  forall bc w bc' w', P bc -> st bc w = (Ok bc', w') -> Q bc'.

(** a stage that leaves the product fields alone keeps whatever is known
    about them *)
Definition keeps_products (st : stage) : Prop :=
  forall bc w bc' w',
    st bc w = (Ok bc', w') -> product_fields bc' = product_fields bc.

Definition count_matches (bc : BrandContext) : Prop :=
  total_products bc = Z.of_nat (length (product_catalog bc)).

(** every hero product is a catalog product with a handle *)
Definition heroes_in_catalog (bc : BrandContext) : Prop :=
  forall p, p ∈ hero_products bc ->
    p ∈ product_catalog bc /\ is_Some (handle p).

Definition no_heroes (bc : BrandContext) : Prop := hero_products bc = [].

(** the trimmed text of the content block that fetching a candidate path
    delivers at trace [w], if the fetch delivers a document with one *)
Definition candidate_text (base_url url_path : string) (w : trace)
  : option string :=
  match py_urljoin base_url url_path with
  | Ok full_url =>
      match get_page_content full_url w with
      | (Ok (_, Some doc), _) =>
          Bs4.get_text_strip <$> Bs4.find is_content_elem doc
      | _ => None
      end
  | Raise _ => None
  end.

(** the request for one path: none when the URL cannot be formed *)
Definition fetch (base_url url_path : string) : trace :=
  match py_urljoin base_url url_path with
  | Ok full_url => [EvGet full_url]
  | Raise _ => []
  end.

Definition fetches (base_url : string) (paths : list string) : trace :=
  flat_map (fetch base_url) paths.

(** every candidate of [paths], probed in order from trace [w], has no
    content block or one of at most 100 characters *)
Fixpoint all_rejected (base_url : string) (paths : list string) (w : trace)
  : Prop :=
  match paths with
  | [] => True
  | p :: rest =>
      match candidate_text base_url p w with
      | Some text => (String.length text <= 100)%nat
      | None => True
      end
      /\ all_rejected base_url rest (w ++ fetch base_url p)
  end.

(** the outcome [r], [w'] of probing [possible_urls] from trace [w] *)
Definition probe_outcome (base_url policy_name : string)
    (possible_urls : list string) (w : trace) (r : option Policy)
    (w' : trace) : Prop :=
  match r with
  | Some p =>
      exists pre url_path post text,
        possible_urls = pre ++ url_path :: post
        /\ all_rejected base_url pre w
        /\ candidate_text base_url url_path (w ++ fetches base_url pre)
           = Some text
        /\ (100 < String.length text)%nat
        /\ p = policy_from base_url policy_name url_path text
        /\ (String.length (content p) <= 2000)%nat
        /\ w' = w ++ fetches base_url (pre ++ [url_path])
  | None =>
      all_rejected base_url possible_urls w
      /\ w' = w ++ fetches base_url possible_urls
  end.

(** the stages [sts], run one after the other from the context [bc] and
    the trace [w], all return, and leave the context [bc'] and the trace
    [w'] *)
Fixpoint stages_pass (sts : list stage) (bc : BrandContext) (w : trace)
    (bc' : BrandContext) (w' : trace) : Prop :=
  match sts with
  | [] => bc' = bc /\ w' = w
  | st :: rest =>
      exists bc1 w1,
        st bc w = (Ok bc1, w1) /\ stages_pass rest bc1 w1 bc' w'
  end.




Definition colourpop_terms : list string :=
  ["lipstick"; "eyeshadow"; "colourpop"; "cosmetics"; "fashion"; "beauty"].

End Code.

(** ** CSS selectors of [soup.select] and [soup.select_one]

    The selectors of the code have a tag name, an attribute test, or both.
    The [class] attribute is kept as written: a needle without white space
    occurs in it exactly when it occurs in the classes joined by blanks,
    which is what the selector engine compares with. *)
Module Css.

Inductive attr_test :=
| AttrContains (name needle : string)   (* [name*="needle"] *)
| AttrPresent (name : string).          (* [name] *)

Record selector := {
  sel_tag : option string;
  sel_attr : option attr_test
}.

Definition attr_matches (t : attr_test) (attrs : list (string * string))
  : bool :=
  match t with
  | AttrContains name needle =>
      match Bs4.get_attr name attrs with
      | Some v => PyStr.contains needle v
      | None => false
      end
  | AttrPresent name => bool_decide (is_Some (Bs4.get_attr name attrs))
  end.

Definition matches (s : selector) (n : node) : bool :=
  match n with
  | Text _ => false
  | Elem t attrs _ =>
      match sel_tag s with
      | Some name => String.eqb t name
      | None => true
      end
      && match sel_attr s with
         | Some test => attr_matches test attrs
         | None => true
         end
  end.

(** [soup.select(s)] and [soup.select_one(s)] *)
Definition select (s : selector) (doc : soup) : list node :=
  List.filter (matches s) (Bs4.all_nodes doc).
Definition select_one (s : selector) (doc : soup) : option node :=
  List.find (matches s) (Bs4.all_nodes doc).

(** [tag[class*="needle"]] *)
Definition with_class (tag needle : string) : selector :=
  {| sel_tag := Some tag; sel_attr := Some (AttrContains "class" needle) |}.

Definition tag_only (tag : string) : selector :=
  {| sel_tag := Some tag; sel_attr := None |}.

Definition with_attr (name : string) : selector :=
  {| sel_tag := None; sel_attr := Some (AttrPresent name) |}.

End Css.

(** every character of [s] satisfies [p] *)
Fixpoint all_chars (p : ascii -> bool) (s : string) : bool :=
  match s with
  | EmptyString => true
  | String c s' => p c && all_chars p s'
  end.

(** the descendants of a node, itself excluded: where [elem.find] and
    [elem.find_all] look *)
Definition strict_descendants (n : node) : list node :=
  match n with
  | Text _ => []
  | Elem _ _ cs => flat_map Bs4.descendants cs
  end.

(** [elem.find(names)]: the first tag below [elem] named as one of
    [names] *)
Definition find_named (names : list string) (n : node) : option node :=
  List.find (fun d => existsb (fun name => Bs4.is_tag name d) names)
            (strict_descendants n).

(** ** The page extractors of [scraper.py] *)
Module Scraper.
Section Extractors.
Context `{Collaborators}.

Definition faq_selectors : list Css.selector :=
  [ Css.with_class "div" "faq"; Css.with_class "section" "faq";
    Css.with_class "div" "question"; Css.tag_only "details";
    Css.with_class "div" "accordion" ].

Definition question_names : list string :=
  ["h3"; "h4"; "h5"; "summary"; "dt";
   "[class*=" +:+ dq +:+ "question" +:+ dq +:+ "]"].

Definition answer_names : list string :=
  ["p"; "div"; "dd"; "[class*=" +:+ dq +:+ "answer" +:+ dq +:+ "]"].

(** the body of the inner loop of [extract_faqs], with the [FAQ(...)] that
    the caller builds from the dictionary *)
Definition faq_of_element (element : node) : list FAQ :=
  match find_named question_names element,
        find_named answer_names element with
  | Some question_elem, Some answer_elem =>
      let q := Bs4.get_text_strip question_elem in
      let a := Bs4.get_text_strip answer_elem in
      if negb (String.eqb q EmptyString) && negb (String.eqb a EmptyString)
         && (5 <? String.length q)%nat && (10 <? String.length a)%nat
      then [ {| question := q; answer := a; category := None |} ]
      else []
  | _, _ => []
  end.

Definition extract_faqs (doc : soup) : list FAQ :=
  flat_map (fun selector => flat_map faq_of_element (Css.select selector doc))
           faq_selectors.

(** [s.split(sep)[0]] *)
Definition split_first (sep : ascii) (s : string) : string :=
  PyStr.take_while (fun c => negb (Ascii.eqb c sep)) s.

Definition about_selectors : list Css.selector :=
  [ Css.with_class "div" "about"; Css.with_class "section" "about";
    Css.with_class "div" "story"; Css.with_class "section" "story" ].

(** the loop over [about_selectors]: the first selector whose first match
    has more than 50 characters of text *)
Fixpoint first_description (selectors : list Css.selector) (doc : soup)
  : option string :=
  match selectors with
  | [] => None
  | selector :: rest =>
      match Css.select_one selector doc with
      | Some about_elem =>
          let text := Bs4.get_text_strip about_elem in
          if (50 <? String.length text)%nat
          then Some (PyStr.slice_to 500 text)
          else first_description rest doc
      | None => first_description rest doc
      end
  end.

(** the pair is [(brand_info['name'], brand_info['description'])] *)
Definition extract_brand_info (doc : soup) : option string * option string :=
  (match Bs4.find (Bs4.is_tag "title") doc with
   | Some title_tag =>
       Some (PyStr.strip (split_first "|" (Bs4.get_text_strip title_tag)))
   | None => None
   end,
   first_description about_selectors doc).

Definition important_keywords : list string :=
  ["contact"; "about"; "track"; "tracking"; "support"; "help";
   "blog"; "news"; "size guide"; "shipping"; "returns"].

Definition nav_names : list string :=
  ["nav"; "footer"; "header"; "div[class*=" +:+ dq +:+ "menu" +:+ dq +:+ "]"].

Definition is_nav_area (n : node) : bool :=
  existsb (fun name => Bs4.is_tag name n) nav_names.

(** the body of the inner loop of [extract_important_links], on an anchor
    whose [href] [urljoin] accepts: what it appends to [important_links] *)
Definition link_of_anchor (base_url : string) (link : node)
  : list ImportantLink :=
  let text := PyStr.lower (Bs4.get_text_strip link) in
  match Bs4.attr_of "href" link with
  | Some href =>
      if existsb (fun keyword => PyStr.contains keyword text)
                 important_keywords
      then [ {| link_title := Bs4.get_text_strip link;
                link_url := if PyStr.startswith "/" href
                            then urljoin base_url href else href;
                link_description := Some text |} ]
      else []
  | None => []
  end.

Definition links_of_area (base_url : string) (nav : node)
  : list ImportantLink :=
  flat_map (link_of_anchor base_url)
           (List.filter is_anchor_with_href (strict_descendants nav)).

Definition extract_important_links (doc : soup) (base_url : string)
  : list ImportantLink :=
  flat_map (links_of_area base_url) (Bs4.find_all is_nav_area doc).

End Extractors.
End Scraper.

(** ** The metadata helpers and the FAQ pages of [insights_extractor.py] *)
Module Extractor.
Section Helpers.
Context `{Collaborators}.

Definition currency_selectors : list Css.selector :=
  [ Css.with_class "span" "currency"; Css.with_class "span" "money";
    Css.with_attr "data-currency" ].

(** the [if]/[elif] chain over the currency symbols *)
Definition symbol_currency (text : string) : option string :=
  if PyStr.contains "$" text then Some "USD"
  else if PyStr.contains "€" text then Some "EUR"
  else if PyStr.contains "£" text then Some "GBP"
  else if PyStr.contains "₹" text then Some "INR"
  else None.

Fixpoint currency_from (selectors : list Css.selector) (doc : soup)
  : option string :=
  match selectors with
  | [] => None
  | selector :: rest =>
      match Css.select_one selector doc with
      | Some elem =>
          match symbol_currency (Bs4.get_text_strip elem) with
          | Some code => Some code
          | None => currency_from rest doc
          end
      | None => currency_from rest doc
      end
  end.

Definition has_data_currency (n : node) : bool :=
  bool_decide (is_Some (Bs4.attr_of "data-currency" n)).

Definition _extract_currency (doc : soup) : option string :=
  match currency_from currency_selectors doc with
  | Some code => Some code
  | None =>
      match Bs4.find has_data_currency doc with
      | Some currency_elem => Bs4.attr_of "data-currency" currency_elem
      | None => None
      end
  end.

Definition country_phrases : list string :=
  ["shipping to"; "deliver to"; "country"].

Definition countries : list string :=
  ["united states"; "canada"; "united kingdom"; "australia"; "india"].

(** the [lambda] given to [find_all(text=...)] *)
Definition is_country_indicator (n : node) : bool :=
  match n with
  | Text s =>
      negb (String.eqb s EmptyString)
      && existsb (fun phrase => PyStr.contains phrase (PyStr.lower s))
                 country_phrases
  | Elem _ _ _ => false
  end.

Definition country_in (indicator : string) : option string :=
  let text := PyStr.strip indicator in
  PyStr.title
    <$> List.find (fun country => PyStr.contains country (PyStr.lower text))
                  countries.

Definition _extract_country (doc : soup) : option string :=
  match Bs4.find_all is_country_indicator doc with
  | Text s :: _ => country_in s
  | _ => None
  end.

(** [self.scraper.extract_faqs], the collaborator of the pipeline *)
Definition page_faqs (doc : soup) : result (list FAQ) := extract_faqs doc.

Definition faq_urls : list string :=
  ["/pages/faq"; "/pages/faqs"; "/pages/frequently-asked-questions";
   "/faq"; "/faqs"; "/help"].

(** the FAQs of one page: the body of the [try] up to the [break] test,
    with [self.scraper.extract_faqs] the collaborator of that name *)
Definition faqs_of_page (website_url faq_path : string) : M (list FAQ) :=
  let* faq_url := lift (py_urljoin website_url faq_path) in
  let* page := get_page_content faq_url in
  match snd page with
  | Some doc => lift (page_faqs doc)
  | None => ret []
  end.

(** the loop of [extract_additional_faqs]: [break] after the first page
    with FAQs, [continue] on any exception *)
Fixpoint additional_faqs_from (website_url : string) (paths : list string)
    (additional_faqs : list FAQ) : M (list FAQ) :=
  match paths with
  | [] => ret additional_faqs
  | faq_path :: rest =>
      let* found :=
        try_except
          (let* faqs := faqs_of_page website_url faq_path in ret (Some faqs))
          any_exception (fun _ => ret None) in
      match found with
      | Some (faq :: faqs) => ret (additional_faqs ++ faq :: faqs)
      | _ => additional_faqs_from website_url rest additional_faqs
      end
  end.

Definition extract_additional_faqs (website_url : string) : M (list FAQ) :=
  additional_faqs_from website_url faq_urls [].

End Helpers.
End Extractor.

(** ** The merge of additional FAQs in [main.py] *)

(** lines 113-118 of [analyze_shopify_store]: an additional FAQ is appended
    unless its lowered question is already in [existing_questions] *)
Fixpoint add_unique_faqs (faqs : list FAQ) (existing_questions : gset string)
    (additional_faqs : list FAQ) : list FAQ :=
  match additional_faqs with
  | [] => faqs
  | faq :: rest =>
      let q := PyStr.lower (question faq) in
      if bool_decide (q ∈ existing_questions)
      then add_unique_faqs faqs existing_questions rest
      else add_unique_faqs (faqs ++ [faq]) ({[ q ]} ∪ existing_questions) rest
  end.

Definition lowered_questions (faqs : list FAQ) : list string :=
  map (fun faq => PyStr.lower (question faq)) faqs.

Definition merge_faqs (faqs additional_faqs : list FAQ) : list FAQ :=
  add_unique_faqs faqs (list_to_set (lowered_questions faqs)) additional_faqs.

(** ** Notions used in the further statements *)

Section Notions.
Context `{Collaborators}.

Definition social_platforms : list string :=
  ["instagram"; "facebook"; "twitter"; "tiktok"; "youtube"; "linkedin";
   "pinterest"].

Definition heroes_sublist (bc : BrandContext) : Prop :=
  hero_products bc `sublist_of` product_catalog bc.

(** the fields that no stage assigns *)
Definition frame_fields (bc : BrandContext) :=
  (website_url bc, extraction_notes bc, extraction_success bc, timezone bc).

Definition keeps_frame (st : stage) : Prop :=
  forall bc w bc' w',
    st bc w = (Ok bc', w') -> frame_fields bc' = frame_fields bc.

Definition is_object (j : json) : bool :=
  match j with JObj _ => true | _ => false end.

(** the product of a feed entry, when it is an object that normalises *)
Definition normalized (target : string) (entry : json) : option Product :=
  match entry with
  | JObj fields =>
      match normalize_entry target fields with
      | Ok p => Some p
      | Raise _ => None
      end
  | _ => None
  end.

Definition feed_url (target : string) : string :=
  urljoin target "/products.json".

Definition is_get (e : event) : bool :=
  match e with EvGet _ => true | _ => false end.

(** whatever [c] returns or raises, it adds at most [n] events to the
    trace, all of them GET requests *)
Definition requests_upto {A} (n : nat) (c : M A) : Prop :=
  forall w r w',
    c w = (r, w') ->
    exists evs, w' = w ++ evs
                /\ forallb is_get evs = true
                /\ (length evs <= n)%nat.

(** the number of candidate paths of a table of categories *)
Definition candidates (categories : list (string * list string)) : nat :=
  foldr (fun c n => (length (snd c) + n)%nat) 0%nat categories.

(** a stage that adds at most [n] requests, whatever the context *)
Definition stage_requests (n : nat) (st : stage) : Prop :=
  forall bc, requests_upto n (st bc).

Definition policy_names : list string :=
  ["privacy_policy"; "return_policy"; "refund_policy"; "terms_of_service";
   "shipping_policy"].

(** the candidates [pages] that were probed for a category with the
    candidates [possible_urls] and the outcome [r]: all of them when no
    policy is stored, and otherwise those up to the one whose page is
    stored *)
Definition probed_for (base_url : string) (possible_urls : list string)
    (r : option Policy) (pages : list string) : Prop :=
  match r with
  | None => pages = possible_urls
  | Some p =>
      exists url_path post,
        possible_urls = pages ++ post
        /\ last pages = Some url_path
        /\ policy_url p = Some (urljoin base_url url_path)
  end.

(** a policy as [extract_policies] stores it for the category [name] with
    the candidate paths [paths] *)
Definition stored_policy (base_url name : string) (paths : list string)
    (p : Policy) : Prop :=
  (100 < String.length (content p) <= 2000)%nat
  /\ policy_title p = PyStr.title (PyStr.replace_underscore name)
  /\ exists url_path,
       url_path ∈ paths /\ policy_url p = Some (urljoin base_url url_path).

(** the stores that [find_competitor_urls] can return: the first two of
    every category *)
Definition candidate_stores : list string :=
  ["https://colourpop.com"; "https://jeffreestarcosmetics.com";
   "https://fashionnova.com"; "https://gymshark.com"; "https://memy.co.in";
   "https://pandora.net"; "https://danielwellington.com"].

Definition broad_keywords : list string :=
  ["women"; "men"; "apparel"; "makeup"].

Definition is_string (j : json) : bool :=
  match j with JStr _ => true | _ => false end.

Definition is_sleep (e : event) : bool :=
  match e with EvSleep _ => true | _ => false end.

Definition is_chat (e : event) : bool :=
  match e with EvChat _ => true | _ => false end.

(** the sleeps and the chat calls among some events *)
Definition sleeps (evs : trace) : trace := List.filter is_sleep evs.

Definition chats (evs : trace) : trace := List.filter is_chat evs.

(** a call of the capability adds at most one chat call and no sleep *)
Definition chat_only {A} (c : M A) : Prop :=
  forall w r w',
    c w = (r, w') ->
    exists a evs, r = Ok a /\ w' = w ++ evs /\ sleeps evs = []
                  /\ (llm_enabled = false -> evs = []).

Definition not_bar (c : ascii) : bool := negb (Ascii.eqb c "|").


Definition currency_codes : list string := ["USD"; "EUR"; "GBP"; "INR"].

Definition country_names : list string :=
  ["United States"; "Canada"; "United Kingdom"; "Australia"; "India"].

(** the FAQs that the page at [faq_path] contributes when it is probed at
    the trace [w]: none when its URL cannot be formed, when the fetch
    yields no document or raises, and when the extractor raises *)
Definition page_yield (given_url faq_path : string) (w : trace) : list FAQ :=
  match py_urljoin given_url faq_path with
  | Ok faq_url =>
      match get_page_content faq_url w with
      | (Ok (_, Some doc), _) =>
          match Extractor.page_faqs doc with
          | Ok faqs => faqs
          | Raise _ => []
          end
      | _ => []
      end
  | Raise _ => []
  end.

(** every page of [paths], probed in order from the trace [w], contributes
    no FAQ *)
Fixpoint no_faqs_on (given_url : string) (paths : list string) (w : trace)
  : Prop :=
  match paths with
  | [] => True
  | faq_path :: rest =>
      page_yield given_url faq_path w = []
      /\ no_faqs_on given_url rest (w ++ fetch given_url faq_path)
  end.

Definition is_ascii (c : ascii) : bool := (nat_of_ascii c <? 128)%nat.

(** every string of the document is ASCII text, on which the string
    functions of the model are those of Python *)
Definition ascii_text (doc : soup) : bool :=
  forallb (fun n => match n with
                    | Text t => all_chars is_ascii t
                    | Elem _ _ _ => true
                    end)
          (Bs4.all_nodes doc).

Definition ascii_option (x : option string) : bool :=
  match x with
  | Some t => all_chars is_ascii t
  | None => true
  end.

(** the name of the brand and the types of its products are ASCII text *)
Definition ascii_brand (brand : BrandContext) : bool :=
  ascii_option (brand_name brand)
  && forallb (fun product => ascii_option (product_type product))
             (product_catalog brand).

(** the characters of a string *)
Definition chars (t : string) : list ascii := String.list_ascii_of_string t.

(** the first element of a list of characters, if any, is no white space *)
Definition solid_head (l : list ascii) : Prop :=
  match l with
  | [] => True
  | c :: _ => PyStr.is_space c = false
  end.

(** the average of integers that add up to [total], over [count] of them,
    fits a float: it rounds below [2^1024] *)
Definition average_fits (total : Z) (count : nat) : Prop :=
  Z.abs total < overflow_threshold * Z.of_nat count.

(** the numbers of social handles of the competitors, added up *)
Definition social_total (comps : list BrandContext) : Z :=
  sum (map (fun c => Z.of_nat (length (social_handles c))) comps).

Definition is_scalar (j : json) : bool :=
  match j with
  | JBool _ | JInt _ | JFloat _ => true
  | _ => false
  end.

(** an ASCII character that is no capital letter *)
Definition no_upper (c : ascii) : bool :=
  let n := nat_of_ascii c in
  (n <? 128)%nat && negb ((65 <=? n)%nat && (n <=? 90)%nat).

End Notions.

(** ** A concrete set of collaborators

    Used to run the functions above on examples: a scripted site and chat
    endpoint, origin-plus-path URL joining, first-occurrence order for
    sets, plain decimal literals for [float], a [Product(...)] that only
    requires a string title, and a fixed text for formatted numbers (no
    example looks at one). *)
Module Demo.

Definition request_failed : result response :=
  Raise {| exn_kind := RequestException; exn_str := "404 Client Error" |}.

Definition page (doc : soup) : result response :=
  Ok {| resp_text := EmptyString; resp_soup := doc; resp_json := None |}.

Definition feed (j : json) : result response :=
  Ok {| resp_text := EmptyString; resp_soup := []; resp_json := Some j |}.

Definition digit_of (c : ascii) : option Z :=
  Z.of_nat <$> Ascii.is_nat c.

Fixpoint digits_go (acc : Z) (s : string) : option Z :=
  match s with
  | EmptyString => Some acc
  | String c s' =>
      match digit_of c with
      | Some d => digits_go (acc * 10 + d) s'
      | None => None
      end
  end.

Definition digits (s : string) : option Z :=
  match s with
  | EmptyString => None
  | _ => digits_go 0 s
  end.

Fixpoint split_dot (s : string) : string * option string :=
  match s with
  | EmptyString => (EmptyString, None)
  | String c s' =>
      if Ascii.eqb c "." then (EmptyString, Some s')
      else let '(a, b) := split_dot s' in (String c a, b)
  end.

Definition quotient (a b : Z) : option float :=
  match truediv a b with
  | Ok x => Some x
  | Raise _ => None
  end.

(** [float] on the literals [d+] and [d+.d+] *)
Definition decimal_float (s : string) : option float :=
  match split_dot s with
  | (ip, None) =>
      match digits ip with
      | Some i => quotient i 1
      | None => None
      end
  | (ip, Some fp) =>
      match digits ip, digits fp with
      | Some i, Some f =>
          let scale := 10 ^ Z.of_nat (String.length fp) in
          quotient (i * scale + f) scale
      | _, _ => None
      end
  end.

Definition str_field (k : string) (fields : list (string * json))
  : option string :=
  match Py.dict_get k fields with
  | Some (JStr s) => Some s
  | _ => None
  end.

Definition simple_entry (base : string) (fields : list (string * json))
  : result Product :=
  match str_field "title" fields with
  | Some t =>
      Ok {| id := str_field "id" fields; title := t; description := None;
            price := None; compare_at_price := None; vendor := None;
            product_type := str_field "product_type" fields;
            handle := str_field "handle" fields;
            url := (fun h => base +:+ "/products/" +:+ h)
                     <$> str_field "handle" fields;
            images := []; variants := []; tags := [];
            available := Some false |}
  | None => Raise {| exn_kind := ValueError;
                     exn_str := "1 validation error for Product" |}
  end.

(** a base with an opening bracket that is never closed cannot be parsed *)
Definition bracket_error (base path : string) : option string :=
  if PyStr.contains "[" base && negb (PyStr.contains "]" base)
  then Some "Invalid IPv6 URL" else None.

Definition no_contact : ContactInfo :=
  {| emails := []; phone_numbers := []; address := None |}.

Definition collaborators (site : string -> result response)
    (enabled : bool) (reply : chat_request -> result string)
    (loads : string -> option json) : Collaborators :=
  {| session_get := fun _ target => site target;
     chat_completion := fun _ req => reply req;
     llm_enabled := enabled;
     json_loads := loads;
     py_float := decimal_float;
     format_2f := fun _ => "0.00";
     format_0f := fun _ => "0";
     urljoin := fun base path => base +:+ path;
     urljoin_error := bracket_error;
     list_set := remove_dups;
     list_set_NoDup := NoDup_remove_dups;
     list_set_elem := fun l x => elem_of_remove_dups l x;
     normalize_entry := simple_entry;
     extract_brand_info := fun _ => Ok (Some "Demo Shop", None);
     extract_contact_info := fun _ => Ok no_contact;
     extract_faqs := fun _ => Ok [];
     extract_important_links := fun _ _ => Ok [];
     _extract_currency := fun _ => None;
     _extract_country := fun _ => None |}.

Definition no_reply (req : chat_request) : result string :=
  Raise {| exn_kind := OtherError; exn_str := "no API key" |}.

Definition no_json (s : string) : option json := None.

(** a string of [n] letters *)
Fixpoint letters (n : nat) : string :=
  match n with
  | O => EmptyString
  | S n' => String "x" (letters n')
  end.

Definition anchor (href : string) : node :=
  Elem "a" [("href", href)] [Text "link"].

Definition entry (h ty : string) : json :=
  JObj [("id", JStr h); ("title", JStr h); ("handle", JStr h);
        ("product_type", JStr ty)].

Definition homepage : soup :=
  [ Elem "html" []
      [ Elem "body" []
          [ anchor "/products/a"; anchor "/products/c?variant=1";
            anchor "/products/z";
            anchor "https://instagram.com/brandx";
            anchor "https://instagram.com/brandx" ] ] ].

Definition policy_page (n : nat) : soup :=
  [ Elem "main" [] [ Text (" " +:+ letters n +:+ " ") ] ].

(** a store with three products, a homepage and one policy page *)
Definition store (target : string) : result response :=
  if String.eqb target "https://shop.example/products.json" then
    feed (JObj [("products",
                 JArr [entry "a" "lipstick"; entry "b" "lipstick";
                       entry "c" "eyeshadow"])])
  else if String.eqb target "https://shop.example" then page homepage
  else if String.eqb target "https://shop.example/privacy-policy"
  then page (policy_page 2500)
  else request_failed.

Definition store_env : Collaborators :=
  collaborators store false no_reply no_json.

(** a site whose feed is an object with an empty [products] array and
    whose root document carries no platform marker *)
Definition plain_root : soup :=
  [ Elem "html" [] [ Elem "body" [] [ Text "Hello" ] ] ].

Definition empty_feed_site (target : string) : result response :=
  if String.eqb target "https://plain.example/products.json" then
    feed (JObj [("products", JArr [])])
  else if String.eqb target "https://plain.example" then page plain_root
  else request_failed.

Definition empty_feed_env : Collaborators :=
  collaborators empty_feed_site false no_reply no_json.

(** a site without feed whose every page has a content block of [n]
    characters *)
Definition uniform_site (n : nat) (target : string) : result response :=
  if String.eqb target "https://docs.example/products.json"
  then request_failed
  else page (policy_page n).

Definition uniform_env (n : nat) : Collaborators :=
  collaborators (uniform_site n) false no_reply no_json.

(** a chat endpoint that answers every request with [raw] *)
Definition chatty_env (raw : string) : Collaborators :=
  collaborators store true (fun _ => Ok raw) no_json.

Definition described (name about : string) : BrandContext :=
  set_brand_info (Some name) (Some about)
                 (new_BrandContext ("https://" +:+ name)).

Definition glow : BrandContext := described "glow.example" "Skin care".
Definition shine : BrandContext := described "shine.example" "Hair care".

Definition typed_product (ty : string) : Product :=
  {| id := None; title := ty; description := None; price := None;
     compare_at_price := None; vendor := None; product_type := Some ty;
     handle := None; url := None; images := []; variants := [];
     tags := []; available := None |}.

Definition colourpop : BrandContext :=
  set_products [typed_product "lipstick"; typed_product "lipstick";
                typed_product "eyeshadow"]
    (set_brand_info (Some "ColourPop Cosmetics") None
       (new_BrandContext "https://colourpop.com")).

Definition sized (n : Z) : BrandContext :=
  let 'Build_BrandContext u nm a pc hp _ pp rp fp ts
                          sp fq sh ci il cu co tz
                          es en := new_BrandContext "https://sized.example" in
  Build_BrandContext u nm a pc hp n pp rp fp ts sp fq sh ci il cu co tz es en.

(** the store with a FAQ extractor that raises *)
Definition broken_faqs_env : Collaborators :=
  {| session_get := fun _ target => store target;
     chat_completion := fun _ req => no_reply req;
     llm_enabled := false;
     json_loads := no_json;
     py_float := decimal_float;
     format_2f := fun _ => "0.00";
     format_0f := fun _ => "0";
     urljoin := fun base path => base +:+ path;
     urljoin_error := bracket_error;
     list_set := remove_dups;
     list_set_NoDup := NoDup_remove_dups;
     list_set_elem := fun l x => elem_of_remove_dups l x;
     normalize_entry := simple_entry;
     extract_brand_info := fun _ => Ok (Some "Demo Shop", None);
     extract_contact_info := fun _ => Ok no_contact;
     extract_faqs := fun _ =>
       Raise {| exn_kind := AttributeError;
                exn_str := "'NoneType' object has no attribute 'find'" |};
     extract_important_links := fun _ _ => Ok [];
     _extract_currency := fun _ => None;
     _extract_country := fun _ => None |}.

(** a chat endpoint whose search terms decode to the array [[1]] *)
Definition odd_terms_env : Collaborators :=
  collaborators store true (fun _ => Ok "[1]")
                (fun _ => Some (JArr [JInt 1])).

(** what [extract_all_insights] returns on the store, and the calls it
    makes *)
Definition store_context : BrandContext :=
  Eval vm_compute in
    match @extract_all_insights store_env "shop.example" [] with
    | (Ok bc, _) => bc
    | (Raise _, _) => new_BrandContext EmptyString
    end.

Definition store_trace : trace :=
  Eval vm_compute in snd (@extract_all_insights store_env "shop.example" []).


End Demo.

(** ** Sample documents and sites for the page extractors *)
Module Samples.

Definition link (href text : string) : node :=
  Elem "a" [("href", href)] [Text text].

Definition faq_page : soup :=
  [ Elem "div" [("class", "faq-item question")]
      [ Elem "h3" [] [Text " How long is shipping? "];
        Elem "p" [] [Text "Three to five days."] ];
    Elem "details" []
      [ Elem "summary" [] [Text "Hi"];
        Elem "p" [] [Text "Too short a question."] ] ].

Definition brand_page : soup :=
  [ Elem "head" [] [ Elem "title" [] [Text " Glow | Skin care "] ];
    Elem "div" [("class", "about-us")] [ Text (Demo.letters 20) ];
    Elem "section" [("class", "our-story")] [ Text (Demo.letters 600) ] ].

Definition nav_page : soup :=
  [ Elem "header" []
      [ Elem "nav" []
          [ link "/pages/contact" "Contact Us";
            link "https://blog.example" "Blog";
            link "/cart" "Cart" ] ] ].

Definition money_page : soup :=
  [ Elem "span" [("class", "price money")] [Text "$10.00"];
    Elem "div" [("data-currency", "EUR")] [] ].

Definition shipping_page : soup :=
  [ Elem "p" [] [Text " Shipping to Canada and India "];
    Elem "p" [] [Text "Country: Australia"] ].

(** a feed with an entry that is not an object *)
Definition mixed_site (target : string) : result response :=
  if String.eqb target "https://mixed.example/products.json" then
    Demo.feed (JObj [("products",
                      JArr [Demo.entry "a" "lipstick"; JStr "oops";
                            Demo.entry "c" "serum"])])
  else Demo.page Demo.homepage.

Definition mixed_env : Collaborators :=
  Demo.collaborators mixed_site false Demo.no_reply Demo.no_json.

(** a feed whose body is the number 1, on a site that names the platform *)
Definition scalar_site (target : string) : result response :=
  if String.eqb target "https://scalar.example/products.json" then
    Demo.feed (JInt 1)
  else Demo.page [ Elem "p" [] [Text "Powered by Shopify"] ].

Definition scalar_env : Collaborators :=
  Demo.collaborators scalar_site false Demo.no_reply Demo.no_json.

(** every site is a store with two products; FAQs are on [/faq] only *)
Definition open_site (target : string) : result response :=
  if PyStr.contains "/products.json" target then
    Demo.feed (JObj [("products",
                      JArr [Demo.entry "a" "lipstick";
                            Demo.entry "b" "serum"])])
  else if PyStr.contains "/faq" target then
    (if PyStr.contains "/pages/" target then Demo.request_failed
     else Demo.page faq_page)
  else Demo.page nav_page.


(** collaborators whose page extractors are the ones of [Scraper] and
    [Extractor] *)
Definition scraping_env (site : string -> result response) : Collaborators :=
  let base := Demo.collaborators site false Demo.no_reply Demo.no_json in
  {| session_get := fun _ target => site target;
     chat_completion := fun _ req => Demo.no_reply req;
     llm_enabled := false;
     json_loads := Demo.no_json;
     py_float := Demo.decimal_float;
     format_2f := fun _ => "0.00";
     format_0f := fun _ => "0";
     urljoin := fun base_url path => base_url +:+ path;
     urljoin_error := Demo.bracket_error;
     list_set := remove_dups;
     list_set_NoDup := NoDup_remove_dups;
     list_set_elem := fun l x => elem_of_remove_dups l x;
     normalize_entry := Demo.simple_entry;
     extract_brand_info := fun doc => Ok (Scraper.extract_brand_info doc);
     extract_contact_info := fun _ => Ok Demo.no_contact;
     extract_faqs := fun doc => Ok (Scraper.extract_faqs doc);
     extract_important_links := fun doc base_url =>
       Ok (Scraper.extract_important_links (H := base) doc base_url);
     _extract_currency := Extractor._extract_currency;
     _extract_country := Extractor._extract_country |}.

Definition open_env : Collaborators := scraping_env open_site.


Definition typed_brand (name : string) (types : list string) : BrandContext :=
  set_products (map Demo.typed_product types)
    (set_brand_info (Some name) None
       (new_BrandContext ("https://" +:+ name))).

(** the entries of the two feeds *)
Definition two_products : list json :=
  [Demo.entry "a" "lipstick"; Demo.entry "b" "serum"].

Definition mixed_entries : list json :=
  [Demo.entry "a" "lipstick"; JStr "oops"; Demo.entry "c" "serum"].

(** what [extract_policies] returns on the store of [Demo], and the calls
    it makes *)
Definition store_policies : list (string * option Policy) :=
  Eval vm_compute in
    match @extract_policies Demo.store_env "https://shop.example" [] with
    | (Ok ps, _) => ps
    | (Raise _, _) => []
    end.

Definition store_policies_trace : trace :=
  Eval vm_compute in
    snd (@extract_policies Demo.store_env "https://shop.example" []).

(** a competitor analysis among the open sites *)
Definition open_brand : BrandContext := typed_brand "glow.example" ["Fashion"].

Definition open_analysis : CompetitorAnalysis :=
  Eval vm_compute in
    match @analyze_competitors open_env open_brand 2 [] with
    | (Ok ca, _) => ca
    | (Raise e, _) => failed_analysis open_brand e
    end.

Definition open_trace : trace :=
  Eval vm_compute in snd (@analyze_competitors open_env open_brand 2 []).

Definition asked (q : string) : FAQ :=
  {| question := q; answer := "See our policy."; category := None |}.

End Samples.

(** * Properties *)

Section Pipeline.
Context `{Collaborators}.

(** ** Projections of the field assignments *)

Ltac open_context bc := destruct bc; reflexivity.

Lemma catalog_set_products ps bc : product_catalog (set_products ps bc) = ps.
Proof. open_context bc. Qed.

Lemma total_set_products ps bc :
  total_products (set_products ps bc) = Z.of_nat (length ps).
Proof. open_context bc. Qed.

Lemma hero_set_products ps bc :
  hero_products (set_products ps bc) = hero_products bc.
Proof. open_context bc. Qed.

Lemma hero_set_hero_products hs bc :
  hero_products (set_hero_products hs bc) = hs.
Proof. open_context bc. Qed.

Lemma catalog_set_hero_products hs bc :
  product_catalog (set_hero_products hs bc) = product_catalog bc.
Proof. open_context bc. Qed.

Lemma total_set_hero_products hs bc :
  total_products (set_hero_products hs bc) = total_products bc.
Proof. open_context bc. Qed.

Lemma notes_append_note n bc :
  extraction_notes (append_note n bc) = extraction_notes bc ++ [n].
Proof. open_context bc. Qed.

Lemma success_append_note n bc :
  extraction_success (append_note n bc) = extraction_success bc.
Proof. open_context bc. Qed.

Lemma success_set_extraction_success b bc :
  extraction_success (set_extraction_success b bc) = b.
Proof. open_context bc. Qed.

Lemma notes_set_extraction_success b bc :
  extraction_notes (set_extraction_success b bc) = extraction_notes bc.
Proof. open_context bc. Qed.

Lemma product_fields_finish target bc oe :
  product_fields (finish target (bc, oe)) = product_fields bc.
Proof. destruct oe, bc; reflexivity. Qed.

Lemma hero_finish target r :
  hero_products (finish target r) = hero_products (fst r).
Proof. destruct r as [bc [e|]], bc; reflexivity. Qed.

Lemma catalog_finish target r :
  product_catalog (finish target r) = product_catalog (fst r).
Proof. destruct r as [bc [e|]], bc; reflexivity. Qed.

(** ** Stages *)

Lemma run_stages_invariant (P : BrandContext -> Prop) sts :
  Forall (stage_maps P P) sts ->
  forall bc w r w', P bc -> run_stages sts bc w = (r, w') -> P (fst r).
Proof.
  induction 1 as [|st sts Hst _ IH]; intros bc w r w' HP Hrun; simpl in Hrun.
  - inversion Hrun; subst; exact HP.
  - destruct (st bc w) as [[bc1|e] w1] eqn:Est.
    + eapply IH; [|exact Hrun]. eapply Hst; eauto.
    + inversion Hrun; subst; exact HP.
Qed.

Lemma run_stages_step (P Q R : BrandContext -> Prop) st sts :
  stage_maps P Q st ->
  (forall bc, P bc -> R bc) ->
  (forall bc w r w', Q bc -> run_stages sts bc w = (r, w') -> R (fst r)) ->
  forall bc w r w', P bc -> run_stages (st :: sts) bc w = (r, w') -> R (fst r).
Proof.
  intros Hst HPR Hrest bc w r w' HP Hrun; simpl in Hrun.
  destruct (st bc w) as [[bc1|e] w1] eqn:Est.
  - eapply Hrest; [|exact Hrun]. eapply Hst; eauto.
  - inversion Hrun; subst; simpl. auto.
Qed.

Ltac run_stage :=
  let Hrun := fresh "Hrun" in
  intros ? ? ? ? Hrun;
  repeat match type of Hrun with
         | context [bind ?c _ ?w] =>
             unfold bind in Hrun;
             let E := fresh "E" in
             destruct (c w) as [[?|?] ?] eqn:E; [|discriminate Hrun]
         end;
  unfold ret in Hrun; inversion Hrun; subst; clear Hrun.

Lemma keeps_products_brand_info doc : keeps_products (stage_brand_info doc).
Proof. unfold stage_brand_info. run_stage. destruct bc; reflexivity. Qed.

Lemma keeps_products_social doc target :
  keeps_products (stage_social doc target).
Proof. unfold stage_social. run_stage. destruct bc; reflexivity. Qed.

Lemma keeps_products_contact doc : keeps_products (stage_contact doc).
Proof. unfold stage_contact. run_stage. destruct bc; reflexivity. Qed.

Lemma keeps_products_faqs doc : keeps_products (stage_faqs doc).
Proof. unfold stage_faqs. run_stage. destruct bc; reflexivity. Qed.

Lemma keeps_products_policies target : keeps_products (stage_policies target).
Proof. unfold stage_policies. run_stage. destruct bc; reflexivity. Qed.

Lemma keeps_products_links doc target :
  keeps_products (stage_links doc target).
Proof. unfold stage_links. run_stage. destruct bc; reflexivity. Qed.

Lemma keeps_products_metadata doc : keeps_products (stage_metadata doc).
Proof. unfold stage_metadata. run_stage. destruct bc; reflexivity. Qed.

Lemma keeps_products_maps (P : _ -> Prop) st :
  keeps_products st ->
  stage_maps (fun bc => P (product_fields bc))
             (fun bc => P (product_fields bc)) st.
Proof. intros Hk bc w bc' w' HP Hst. rewrite (Hk _ _ _ _ Hst). exact HP. Qed.

(** what a successful call of [extract_all_insights] went through *)
Lemma extract_all_insights_inv website_url w bc w' :
  extract_all_insights website_url w = (Ok bc, w') ->
  exists doc w1 r,
    run_stages (stages doc (normalize_url website_url))
               (new_BrandContext (normalize_url website_url)) w1 = (r, w')
    /\ bc = finish (normalize_url website_url) r.
Proof.
  unfold extract_all_insights, bind. intros Hrun.
  destruct (is_shopify_store _ w) as [[[|]|?] w0]; try discriminate Hrun.
  cbn [negb] in Hrun.
  destruct (get_page_content _ w0) as [[[? [doc|]]|?] w1];
    try discriminate Hrun.
  cbn [snd] in Hrun.
  destruct (run_stages _ _ w1) as [r w2] eqn:Er.
  inversion Hrun; subst. eauto.
Qed.

(** ** The product count *)

Lemma count_matches_fields bc :
  count_matches bc <->
  (fun f => f.2 = Z.of_nat (length f.1.1)) (product_fields bc).
Proof. reflexivity. Qed.

Lemma count_matches_kept st :
  keeps_products st -> stage_maps count_matches count_matches st.
Proof.
  intros Hk bc w bc' w' HP Hst. apply count_matches_fields.
  rewrite (Hk _ _ _ _ Hst). apply count_matches_fields, HP.
Qed.

Lemma count_matches_stage_products target :
  stage_maps count_matches count_matches (stage_products target).
Proof.
  intros bc w bc' w' _. unfold stage_products. revert bc w bc' w'. run_stage.
  unfold count_matches.
  by rewrite total_set_products, catalog_set_products.
Qed.

Lemma count_matches_stage_hero doc target :
  stage_maps count_matches count_matches (stage_hero_products doc target).
Proof.
  intros bc w bc' w' HP. unfold stage_hero_products, ret. intros [= <- _].
  unfold count_matches.
  by rewrite total_set_hero_products, catalog_set_hero_products.
Qed.

Lemma count_matches_stages doc target :
  Forall (stage_maps count_matches count_matches) (stages doc target).
Proof.
  unfold stages.
  repeat apply Forall_cons_2; try apply Forall_nil_2;
    first [ apply count_matches_stage_products
          | apply count_matches_stage_hero
          | apply count_matches_kept;
            eauto using keeps_products_brand_info, keeps_products_social,
              keeps_products_contact, keeps_products_faqs,
              keeps_products_policies, keeps_products_links,
              keeps_products_metadata ].
Qed.

(** C1.  Every [BrandContext] that [extract_all_insights] returns, after a
    complete or a partial extraction, has [total_products] equal to the
    length of [product_catalog]. *)
Theorem total_products_is_catalog_length website_url w bc w' :
  extract_all_insights website_url w = (Ok bc, w') ->
  total_products bc = Z.of_nat (length (product_catalog bc)).
Proof.
  intros Hrun.
  destruct (extract_all_insights_inv _ _ _ _ Hrun) as (doc & w1 & r & Hr & ->).
  assert (count_matches (fst r)) as HP.
  { eapply run_stages_invariant; [apply count_matches_stages| |exact Hr].
    reflexivity. }
  destruct r as [bc0 oe]. apply count_matches_fields.
  rewrite product_fields_finish. apply count_matches_fields, HP.
Qed.

(** ** Hero products *)

Lemma _get_products_by_handles_elem products handles p :
  p ∈ _get_products_by_handles products handles <->
  p ∈ products /\ exists h, handle p = Some h /\ h ∈ handles.
Proof.
  unfold _get_products_by_handles.
  rewrite list_elem_of_In, filter_In, <- list_elem_of_In.
  split; intros [Hp Hh]; split; try done.
  - destruct (handle p) as [h|]; [|done].
    exists h. split; [done|].
    apply bool_decide_eq_true in Hh. by apply elem_of_list_to_set in Hh.
  - destruct Hh as (h & -> & Hh).
    apply bool_decide_eq_true. by apply elem_of_list_to_set.
Qed.

Lemma no_heroes_kept st :
  keeps_products st -> stage_maps no_heroes no_heroes st.
Proof.
  intros Hk bc w bc' w' HP Hst. unfold no_heroes in *.
  pose proof (Hk _ _ _ _ Hst) as Hf. unfold product_fields in Hf.
  congruence.
Qed.

Lemma heroes_in_catalog_kept st :
  keeps_products st -> stage_maps heroes_in_catalog heroes_in_catalog st.
Proof.
  intros Hk bc w bc' w' HP Hst. unfold heroes_in_catalog in *.
  pose proof (Hk _ _ _ _ Hst) as Hf. unfold product_fields in Hf.
  injection Hf as -> -> _. exact HP.
Qed.

Lemma no_heroes_stage_products target :
  stage_maps no_heroes no_heroes (stage_products target).
Proof.
  intros bc w bc' w' HP. unfold stage_products. revert bc w bc' w' HP.
  intros bc w bc' w' HP Hrun. revert bc w bc' w' Hrun HP. run_stage.
  unfold no_heroes. by rewrite hero_set_products.
Qed.

Lemma heroes_stage_hero doc target :
  stage_maps no_heroes heroes_in_catalog (stage_hero_products doc target).
Proof.
  intros bc w bc' w' _. unfold stage_hero_products, ret. intros [= <- _].
  intros p. rewrite hero_set_hero_products, catalog_set_hero_products.
  rewrite _get_products_by_handles_elem. intros [Hp (h & Hh & _)].
  split; [done|]. by rewrite Hh.
Qed.

Lemma heroes_in_catalog_stages doc target bc w r w' :
  no_heroes bc ->
  run_stages (stages doc target) bc w = (r, w') ->
  heroes_in_catalog (fst r).
Proof.
  assert (forall bc, no_heroes bc -> heroes_in_catalog bc) as Hweak.
  { intros bc0 H0 p. rewrite H0. by intros ?%elem_of_nil. }
  unfold stages. revert bc w r w'.
  eapply run_stages_step;
    [apply no_heroes_kept, keeps_products_brand_info | exact Hweak |].
  eapply run_stages_step;
    [apply no_heroes_stage_products | exact Hweak |].
  eapply run_stages_step; [apply heroes_stage_hero | exact Hweak |].
  apply run_stages_invariant.
  repeat apply Forall_cons_2; try apply Forall_nil_2;
    apply heroes_in_catalog_kept;
    eauto using keeps_products_social, keeps_products_contact,
      keeps_products_faqs, keeps_products_policies, keeps_products_links,
      keeps_products_metadata.
Qed.

(** C2.  In every [BrandContext] that [extract_all_insights] returns, each
    hero product has a handle that occurs among the handles of the catalog;
    and on a catalog with the handles a, b, c, the candidate handles a, c, z
    (in any order, with or without repetition) select exactly the products a
    and c. *)
Theorem hero_products_from_catalog :
  (forall website_url w bc w',
     extract_all_insights website_url w = (Ok bc, w') ->
     forall p, p ∈ hero_products bc ->
       exists h, handle p = Some h
                 /\ Some h ∈ map handle (product_catalog bc))
  /\ (forall pa pb pc handles,
        handle pa = Some "a" -> handle pb = Some "b" -> handle pc = Some "c" ->
        (forall x, x ∈ handles <-> x ∈ ["a"; "c"; "z"]) ->
        _get_products_by_handles [pa; pb; pc] handles = [pa; pc]).
Proof.
  split.
  - intros website_url w bc w' Hrun p Hp.
    destruct (extract_all_insights_inv _ _ _ _ Hrun)
      as (doc & w1 & r & Hr & ->).
    apply heroes_in_catalog_stages in Hr; [|reflexivity].
    rewrite hero_finish in Hp. rewrite catalog_finish.
    destruct (Hr p Hp) as [Hin [h Hh']].
    exists h. split; [done|]. rewrite <- Hh'. by apply list_elem_of_fmap_2.
  - intros pa pb pc handles Ha Hb Hc Hset.
    unfold _get_products_by_handles. cbn [List.filter]. rewrite Ha, Hb, Hc.
    assert (forall x, x ∈ (list_to_set handles : gset string)
                      <-> x ∈ ["a"; "c"; "z"]) as Hset'.
    { intros x. by rewrite elem_of_list_to_set. }
    rewrite (bool_decide_eq_true_2 ("a" ∈ _)),
      (bool_decide_eq_true_2 ("c" ∈ _)), (bool_decide_eq_false_2 ("b" ∈ _));
      [done|rewrite Hset'; apply (bool_decide_unpack _); vm_compute; exact I..].
Qed.

(** ** The store check *)

Lemma try_except_any_total {A} (c : M A) (h : exn -> M A) w :
  (forall e w0, exists a w', h e w0 = (Ok a, w')) ->
  exists a w', try_except c any_exception h w = (Ok a, w').
Proof.
  intros Hh. unfold try_except.
  destruct (c w) as [[a|e] w0]; [by eauto|]. apply Hh.
Qed.

Lemma is_shopify_store_total target w :
  exists b w', is_shopify_store target w = (Ok b, w').
Proof.
  unfold is_shopify_store. apply try_except_any_total.
  intros e w0. by exists false, w0.
Qed.

(** C3, as the code has it.  [is_shopify_store] never raises.  It answers
    true, without fetching the root document, as soon as the feed probe
    yields a JSON object with a [products] key, whatever the value under
    that key (an empty array included).  It fetches the root document and
    scans it for markers only when the probe failed or its value is false
    or has no [products] entry, and answers false when the root document
    is unavailable or the probe raised anything else. *)
Theorem is_shopify_store_by_products_key target w :
  (forall fields w1,
     get_products_json target w = (Ok (JObj fields), w1) ->
     is_Some (Py.dict_get "products" fields) ->
     is_shopify_store target w = (Ok true, w1))
  /\ match get_products_json target w with
     | (Ok products_data, w1) =>
         match has_products_key products_data with
         | Ok true => is_shopify_store target w = (Ok true, w1)
         | Ok false =>
             match get_page_content target w1 with
             | (Ok (_, Some doc), w2) =>
                 is_shopify_store target w = (Ok (has_marker doc), w2)
             | (_, w2) => is_shopify_store target w = (Ok false, w2)
             end
         | Raise _ => is_shopify_store target w = (Ok false, w1)
         end
     | (Raise _, w1) => is_shopify_store target w = (Ok false, w1)
     end.
Proof.
  assert (forall fields, is_Some (Py.dict_get "products" fields) ->
                         has_products_key (JObj fields) = Ok true) as Hkey.
  { intros fields Hk. unfold has_products_key.
    destruct fields as [|kv fields]; [by destruct Hk|].
    cbn [Py.truthy Py.contains]. by rewrite bool_decide_eq_true_2. }
  unfold is_shopify_store, try_except, bind, lift, ret, has_marker.
  split.
  - intros fields w1 -> Hk. by rewrite (Hkey _ Hk).
  - destruct (get_products_json target w) as [[products_data|e] w1]; [|done].
    destruct (has_products_key products_data) as [[|]|e]; try done.
    destruct (get_page_content target w1) as [[[html [doc|]]|e] w2]; done.
Qed.

(** ** Fatal and partial failures of [extract_all_insights] *)

Lemma run_stages_failure sts bc w bc' e w' :
  run_stages sts bc w = ((bc', Some e), w') ->
  exists st bc0 w0, st ∈ sts /\ st bc0 w0 = (Raise e, w').
Proof.
  revert bc w. induction sts as [|st sts IH]; intros bc w Hrun; simpl in Hrun.
  - discriminate Hrun.
  - destruct (st bc w) as [[bc1|e1] w1] eqn:Est.
    + destruct (IH _ _ Hrun) as (st' & bc0 & w0 & Hin & Hst').
      exists st', bc0, w0. split; [by apply list_elem_of_further|done].
    + inversion Hrun; subst. eexists st, _, _.
      split; [apply list_elem_of_here|exact Est].
Qed.

Lemma run_stages_pass sts bc w bc' w' :
  stages_pass sts bc w bc' w' -> run_stages sts bc w = ((bc', None), w').
Proof.
  revert bc w. induction sts as [|st sts IH]; intros bc w; cbn.
  - by intros [-> ->].
  - intros (bc1 & w1 & -> & Hrest). by apply IH.
Qed.

Lemma run_stages_raise pre st post bc w bc1 w1 e w2 :
  stages_pass pre bc w bc1 w1 -> st bc1 w1 = (Raise e, w2) ->
  run_stages (pre ++ st :: post) bc w = ((bc1, Some e), w2).
Proof.
  revert bc w. induction pre as [|st0 pre IH]; intros bc w; cbn.
  - by intros [-> ->] ->.
  - intros (bc0 & w0 & -> & Hrest) Hst. by apply IH.
Qed.

(** C6.  [extract_all_insights] raises in two situations only: the store
    check answers false, or the fetch of the homepage yields no document
    (or raises itself).  Past these two points it returns a context,
    whatever the stages do.  When the stages before some stage all return
    and that stage raises, the exception is caught: the result is the
    context that the stages before it built, with [extraction_success]
    false and one more note, which carries the message of the exception;
    no later stage runs.  When all stages return, [extraction_success] is
    true and the note is the success note. *)
Theorem extract_all_insights_fatal_or_partial website_url w :
  let target := normalize_url website_url in
  exists shopify w1,
    is_shopify_store target w = (Ok shopify, w1) /\
    if negb shopify
    then extract_all_insights website_url w = (Raise not_shopify_error, w1)
    else
      match get_page_content target w1 with
      | (Ok (_, Some doc), w2) =>
          (exists result w3,
             extract_all_insights website_url w = (Ok result, w3))
          /\ (forall pre st post bc w3 e w4,
                stages doc target = pre ++ st :: post ->
                stages_pass pre (new_BrandContext target) w2 bc w3 ->
                st bc w3 = (Raise e, w4) ->
                exists result,
                  extract_all_insights website_url w = (Ok result, w4)
                  /\ result
                     = append_note
                         ("Partial extraction due to error: " +:+ exn_str e)
                         (set_extraction_success false bc)
                  /\ extraction_success result = false
                  /\ extraction_notes result =
                       extraction_notes bc
                       ++ ["Partial extraction due to error: "
                           +:+ exn_str e])
          /\ (forall bc w3,
                stages_pass (stages doc target) (new_BrandContext target)
                            w2 bc w3 ->
                exists result,
                  extract_all_insights website_url w = (Ok result, w3)
                  /\ result
                     = set_extraction_success true
                         (append_note
                            ("Successfully extracted data from " +:+ target)
                            bc)
                  /\ extraction_success result = true
                  /\ extraction_notes result =
                       extraction_notes bc
                       ++ ["Successfully extracted data from " +:+ target])
      | (Ok (_, None), w2) =>
          extract_all_insights website_url w = (Raise fetch_error, w2)
      | (Raise e, w2) => extract_all_insights website_url w = (Raise e, w2)
      end.
Proof.
  intros target.
  destruct (is_shopify_store_total target w) as (shopify & w1 & Hs).
  exists shopify, w1. split; [done|].
  unfold extract_all_insights, bind. fold target. rewrite Hs.
  destruct shopify; cbn [negb]; [|done].
  destruct (get_page_content target w1) as [[[html [doc|]]|e] w2];
    cbn [snd]; try done.
  split_and!.
  - destruct (run_stages (stages doc target) (new_BrandContext target) w2)
      as [r w3]. by eexists _, _.
  - intros pre st post bc w3 e w4 -> Hpre Hst.
    rewrite (run_stages_raise _ _ _ _ _ _ _ _ _ Hpre Hst). cbn [finish].
    eexists. split; [done|]. split; [done|].
    by rewrite success_append_note, success_set_extraction_success,
      notes_append_note, notes_set_extraction_success.
  - intros bc w3 Hall. rewrite (run_stages_pass _ _ _ _ _ Hall).
    cbn [finish]. eexists. split; [done|]. split; [done|].
    by rewrite success_set_extraction_success, notes_set_extraction_success,
      notes_append_note.
Qed.

(** ** Policies *)

Lemma slice_to_length n s : (String.length (PyStr.slice_to n s) <= n)%nat.
Proof.
  revert s. induction n as [|n IH]; intros [|c s]; simpl; try lia.
  pose proof (IH s). lia.
Qed.

Lemma get_page_content_trace target w r w' :
  get_page_content target w = (r, w') -> w' = w ++ [EvGet target].
Proof.
  unfold get_page_content, try_except, bind, http_get, ret.
  destruct (session_get w target) as [resp|e]; [by intros [= _ <-]|].
  destruct (is_request_exception e); by intros [= _ <-].
Qed.

(** one candidate: accepted exactly above 100 characters *)
Lemma probe_policy_cons base_url policy_name url_path rest w :
  probe_policy base_url policy_name (url_path :: rest) w =
  match candidate_text base_url url_path w with
  | Some text =>
      if (100 <? String.length text)%nat
      then (Ok (Some (policy_from base_url policy_name url_path text)),
            w ++ fetch base_url url_path)
      else probe_policy base_url policy_name rest
             (w ++ fetch base_url url_path)
  | None => probe_policy base_url policy_name rest
              (w ++ fetch base_url url_path)
  end.
Proof.
  cbn [probe_policy]. unfold candidate_text, probe_policy_page, fetch.
  unfold bind at 1. unfold try_except, bind, lift.
  destruct (py_urljoin base_url url_path) as [full_url|e] eqn:Hjoin;
    [|cbn [any_exception]; unfold ret; by rewrite app_nil_r].
  destruct (get_page_content full_url w)
    as [[[html [doc|]]|e] w1] eqn:Hget;
    apply get_page_content_trace in Hget as ->; cbn [snd]; try done.
  destruct (Bs4.find is_content_elem doc) as [content_elem|];
    cbn [fmap option_fmap option_map]; [|done].
  by destruct (100 <? String.length (Bs4.get_text_strip content_elem))%nat.
Qed.

(** what [probe_policy] leaves behind: see the theorem below *)
Lemma probe_outcome_skip base_url policy_name url_path rest w r w' :
  match candidate_text base_url url_path w with
  | Some text => (String.length text <= 100)%nat
  | None => True
  end ->
  probe_outcome base_url policy_name rest
    (w ++ fetch base_url url_path) r w' ->
  probe_outcome base_url policy_name (url_path :: rest) w r w'.
Proof.
  intros Hhead Hr. destruct r as [p|]; cbn [probe_outcome] in *.
  - destruct Hr as (pre & path & post & text & -> & Hrej & Ht & Hl
                    & Hp & Hc & ->).
    exists (url_path :: pre), path, post, text.
    cbn [all_rejected fetches flat_map app]. rewrite <- !app_assoc.
    rewrite <- app_assoc in Ht. by repeat split.
  - destruct Hr as [Hrej ->].
    cbn [all_rejected fetches flat_map]. rewrite <- app_assoc.
    by repeat split.
Qed.

(** C4, as the code has it.  A candidate is accepted exactly when the
    trimmed text of its content block is longer than 100 characters, so a
    text of 99 or of 100 characters is rejected and one of 101 is accepted.
    [probe_policy] never raises; when it returns a policy, that policy
    comes from the first accepted candidate, its content is the first 2000
    characters of the text, and the candidates after it were not fetched;
    when it returns none, every candidate was fetched and rejected.  A
    candidate whose URL cannot be formed is passed over without a
    request. *)
Theorem probe_policy_first_above_100 base_url policy_name possible_urls w :
  exists r w',
    probe_policy base_url policy_name possible_urls w = (Ok r, w') /\
    match r with
    | Some p =>
        exists pre url_path post text,
          possible_urls = pre ++ url_path :: post
          /\ all_rejected base_url pre w
          /\ candidate_text base_url url_path (w ++ fetches base_url pre)
             = Some text
          /\ (100 < String.length text)%nat
          /\ p = policy_from base_url policy_name url_path text
          /\ (String.length (content p) <= 2000)%nat
          /\ w' = w ++ fetches base_url (pre ++ [url_path])
    | None =>
        all_rejected base_url possible_urls w
        /\ w' = w ++ fetches base_url possible_urls
    end.
Proof.
  revert w. induction possible_urls as [|url_path rest IH]; intros w.
  - exists None, w. cbn [all_rejected fetches flat_map].
    by rewrite app_nil_r.
  - rewrite probe_policy_cons.
    destruct (IH (w ++ fetch base_url url_path))
      as (r & w' & Hrun & Hr).
    destruct (candidate_text base_url url_path w) as [text|] eqn:Htext;
      [destruct (100 <? String.length text)%nat eqn:Hlen|].
    + eexists _, _. split; [done|].
      exists [], url_path, rest, text.
      cbn [all_rejected fetches flat_map app]. rewrite !app_nil_r.
      apply Nat.ltb_lt in Hlen.
      repeat split; try done. apply slice_to_length.
    + exists r, w'. split; [done|].
      apply Nat.ltb_ge in Hlen.
      apply probe_outcome_skip; [by rewrite Htext|done].
    + exists r, w'. split; [done|].
      apply probe_outcome_skip; [by rewrite Htext|done].
Qed.

(** [extract_policies] runs the candidates of one category after the
    other and never raises *)
Lemma probe_policy_total base_url policy_name possible_urls w :
  exists r w', probe_policy base_url policy_name possible_urls w = (Ok r, w').
Proof.
  revert w. induction possible_urls as [|url_path rest IH]; intros w.
  - by exists None, w.
  - rewrite probe_policy_cons.
    destruct (candidate_text base_url url_path w) as [text|]; [|apply IH].
    destruct (100 <? String.length text)%nat; [by eexists _, _|apply IH].
Qed.

Lemma extract_policies_from_total base_url categories w :
  exists ps w',
    extract_policies_from base_url categories w = (Ok ps, w')
    /\ map fst ps = map fst categories.
Proof.
  revert w.
  induction categories as [|[policy_name possible_urls] rest IH]; intros w.
  - by exists [], w.
  - cbn [extract_policies_from]. unfold bind at 1.
    destruct (probe_policy_total base_url policy_name possible_urls w)
      as (p & w1 & ->).
    unfold bind. destruct (IH w1) as (ps & w2 & -> & Hkeys).
    exists ((policy_name, p) :: ps), w2. split; [done|].
    cbn [map fst]. by rewrite Hkeys.
Qed.

(** ** Social links *)

Lemma all_nodes_app doc1 doc2 :
  Bs4.all_nodes (doc1 ++ doc2) = Bs4.all_nodes doc1 ++ Bs4.all_nodes doc2.
Proof. apply flat_map_app. Qed.



(** ** Similarity score *)

(** C7, as the code has it.  With the capability enabled,
    [analyze_competitor_similarity] never raises.  It returns 0.0 when a
    summary cannot be built, when the chat call raises and when [float]
    rejects the response; a response that [float] accepts is returned as
    parsed, with no check of its range. *)
Theorem analyze_competitor_similarity_as_parsed brand1 brand2 w :
  llm_enabled = true ->
  exists x w',
    analyze_competitor_similarity brand1 brand2 w = (Ok x, w') /\
    match summarize 10 brand1, summarize 10 brand2 with
    | Ok s1, Ok s2 =>
        w' = w ++ [EvChat (SimilarityPrompt s1 s2)] /\
        match chat_completion w (SimilarityPrompt s1 s2) with
        | Ok raw =>
            match py_float (PyStr.strip raw) with
            | Some y => x = y
            | None => x = 0%float
            end
        | Raise _ => x = 0%float
        end
    | _, _ => x = 0%float /\ w' = w
    end.
Proof.
  intros Hen. unfold analyze_competitor_similarity. rewrite Hen. cbn [negb].
  unfold try_except, bind, lift, chat, ret, raise.
  destruct (summarize 10 brand1) as [s1|e1]; [|by eexists _, _].
  destruct (summarize 10 brand2) as [s2|e2]; [|by eexists _, _].
  destruct (chat_completion w (SimilarityPrompt s1 s2)) as [raw|e];
    [|by eexists _, _].
  destruct (py_float (PyStr.strip raw)) as [y|]; by eexists _, _.
Qed.

(** ** Fallback search terms *)

Lemma lowered_product_types_map products :
  lowered_product_types products =
  omap (fun t => PyStr.lower <$> nonempty t) (map product_type products).
Proof.
  unfold lowered_product_types.
  induction products as [|p ps IH]; [done|]. cbn [omap list_omap map].
  fold (omap (fun p => PyStr.lower <$> nonempty (product_type p)) ps).
  fold (omap (fun t => PyStr.lower <$> nonempty t) (map product_type ps)).
  by rewrite IH.
Qed.

(** C8.  For a brand named ColourPop Cosmetics whose catalog has the
    product types lipstick, lipstick and eyeshadow (in any order of the
    catalog and for any iteration order of the set),
    [_generate_fallback_search_terms] returns at most 8 terms, without
    duplicates, each one a product type, a word of the brand name or a
    generic term; the function does not consult the text-structuring
    capability. *)
Theorem fallback_search_terms_colourpop brand :
  map product_type (product_catalog brand)
    ≡ₚ [Some "lipstick"; Some "lipstick"; Some "eyeshadow"] ->
  brand_name brand = Some "ColourPop Cosmetics" ->
  let terms := _generate_fallback_search_terms brand in
  (length terms <= 8)%nat
  /\ NoDup terms
  /\ (forall t, t ∈ terms ->
        t ∈ ["lipstick"; "eyeshadow"]
        \/ t ∈ PyStr.findall_words (PyStr.lower "ColourPop Cosmetics")
        \/ t ∈ generic_terms)
  /\ terms ≡ₚ colourpop_terms.
Proof.
  intros Htypes Hname terms.
  assert (length (product_catalog brand) = 3%nat) as Hlen.
  { apply Permutation_length in Htypes. by rewrite length_map in Htypes. }
  assert (terms ≡ₚ colourpop_terms) as Hperm.
  { unfold terms, _generate_fallback_search_terms. rewrite Hname.
    destruct (product_catalog brand) as [|p ps] eqn:Hcat; [done|].
    rewrite (take_ge (p :: ps)) by lia.
    set (types := list_set (lowered_product_types (p :: ps))).
    assert (types ≡ₚ ["lipstick"; "eyeshadow"]) as Hty.
    { apply NoDup_Permutation.
      - apply list_set_NoDup.
      - apply (bool_decide_unpack _). vm_compute. exact I.
      - intros x. unfold types. rewrite list_set_elem.
        rewrite lowered_product_types_map, Htypes.
        vm_compute omap. rewrite !elem_of_cons. tauto. }
    change (take 8 (types ++ ["colourpop"; "cosmetics"; "fashion"; "beauty"])
            ≡ₚ colourpop_terms).
    rewrite take_ge.
    - by rewrite Hty.
    - apply Permutation_length in Hty. rewrite length_app, Hty. cbn. lia. }
  assert (NoDup colourpop_terms) as Hnd.
  { apply (bool_decide_unpack _). vm_compute. exact I. }
  repeat split; [| |intros t Ht|done].
  - apply Permutation_length in Hperm. rewrite Hperm. cbn. lia.
  - by rewrite Hperm.
  - rewrite Hperm in Ht. revert t Ht. apply Forall_forall.
    unfold colourpop_terms, generic_terms.
    change (PyStr.findall_words (PyStr.lower "ColourPop Cosmetics"))
      with ["colourpop"; "cosmetics"].
    repeat apply Forall_cons_2; try apply Forall_nil_2;
      rewrite !elem_of_cons; tauto.
Qed.

(** ** Market position *)

Lemma market_position_cases brand comps avg :
  comps <> [] -> average_products comps = Ok avg ->
  market_position (get_market_insights brand comps) =
  if int_gt_float (total_products brand) (PrimFloat.mul avg f1_2)
  then "large_catalog"
  else if int_lt_float (total_products brand) (PrimFloat.mul avg f0_8)
  then "focused_catalog"
  else "average_catalog".
Proof.
  intros Hne Havg. destruct comps as [|c comps]; [done|].
  unfold get_market_insights. rewrite Havg.
  by destruct (average_social (c :: comps)).
Qed.

Lemma digits2_pos_bounds p :
  2 ^ (Z.pos (digits2_pos p) - 1) <= Z.pos p < 2 ^ Z.pos (digits2_pos p).
Proof.
  induction p as [p IH|p IH|]; cbn [digits2_pos]; [| |cbn; lia].
  - rewrite Pos2Z.inj_succ.
    replace (Z.succ (Z.pos (digits2_pos p)) - 1)
      with (Z.succ (Z.pos (digits2_pos p) - 1)) by lia.
    rewrite !Z.pow_succ_r by lia. lia.
  - rewrite Pos2Z.inj_succ.
    replace (Z.succ (Z.pos (digits2_pos p)) - 1)
      with (Z.succ (Z.pos (digits2_pos p) - 1)) by lia.
    rewrite !Z.pow_succ_r by lia. lia.
Qed.

(** [100 * p] has six or seven binary digits more than [p] *)
Lemma digits2_pos_100 p :
  let d := Z.pos (digits2_pos (100 * p)) - Z.pos (digits2_pos p) in
  d = 6 \/ d = 7.
Proof.
  cbn zeta.
  pose proof (digits2_pos_bounds p) as [Hl Hu].
  pose proof (digits2_pos_bounds (100 * p)) as [Hl' Hu'].
  set (d := Z.pos (digits2_pos p)) in *.
  set (d' := Z.pos (digits2_pos (100 * p))) in *.
  assert (0 < d) by (subst d; lia). assert (0 < d') by (subst d'; lia).
  rewrite Pos2Z.inj_mul in Hl', Hu'.
  assert (d' - 1 < d + 7).
  { apply (Z.pow_lt_mono_r_iff 2); [lia|lia|].
    rewrite Z.pow_add_r by lia. change (2 ^ 7) with 128. lia. }
  assert (d + 5 < d').
  { apply (Z.pow_lt_mono_r_iff 2); [lia|lia|].
    replace (d + 5) with ((d - 1) + 6) by lia.
    rewrite Z.pow_add_r by lia. change (2 ^ 6) with 64. lia. }
  lia.
Qed.

Lemma div_eucl_mul q b : 0 < b -> Z.div_eucl (q * b) b = (q, 0).
Proof.
  intros Hb. destruct (Z.div_eucl (q * b) b) as [q' r] eqn:E.
  assert (q' = q * b / b) as -> by (unfold Z.div; rewrite E; reflexivity).
  assert (r = (q * b) mod b) as ->
    by (unfold Z.modulo; rewrite E; reflexivity).
  by rewrite Z.div_mul, Z.mod_mul by lia.
Qed.

(** the quotient of [100 * p] by [p] is computed without rounding *)
Lemma SFdiv_100 p :
  SF2Prim (SFdiv prec emax (sf_of_Z (100 * Z.pos p)) (sf_of_Z (Z.pos p)))
  = 100%float.
Proof.
  change (100 * Z.pos p) with (Z.pos (100 * p)).
  cbn [sf_of_Z SFdiv]. unfold SFdiv_core_binary.
  cbn [Zdigits2].
  replace (Z.pos (digits2_pos (100 * p)) + 0 - (Z.pos (digits2_pos p) + 0))
    with (Z.pos (digits2_pos (100 * p)) - Z.pos (digits2_pos p)) by lia.
  assert (new_location (Z.pos p) 0 = loc_Exact) as Hloc.
  { unfold new_location, new_location_even, new_location_odd.
    destruct (IntDef.Z.even (Z.pos p)); reflexivity. }
  destruct (digits2_pos_100 p) as [-> | ->].
  - change (IntDef.Z.min (fexp prec emax 6) (0 - 0)) with (-47).
    change (0 - 0 - -47) with 47.
    cbv iota beta zeta.
    change (IntDef.Z.shiftl (Z.pos (100 * p)) 47)
      with (Z.shiftl (Z.pos (100 * p)) 47).
    rewrite Z.shiftl_mul_pow2 by lia. rewrite Pos2Z.inj_mul.
    replace (100 * Z.pos p * 2 ^ 47) with (100 * 2 ^ 47 * Z.pos p) by lia.
    change (IntDef.Z.div_eucl (100 * 2 ^ 47 * Z.pos p) (Z.pos p))
      with (Z.div_eucl (100 * 2 ^ 47 * Z.pos p) (Z.pos p)).
    rewrite div_eucl_mul by lia. rewrite Hloc.
    vm_compute. reflexivity.
  - change (IntDef.Z.min (fexp prec emax 7) (0 - 0)) with (-46).
    change (0 - 0 - -46) with 46.
    cbv iota beta zeta.
    change (IntDef.Z.shiftl (Z.pos (100 * p)) 46)
      with (Z.shiftl (Z.pos (100 * p)) 46).
    rewrite Z.shiftl_mul_pow2 by lia. rewrite Pos2Z.inj_mul.
    replace (100 * Z.pos p * 2 ^ 46) with (100 * 2 ^ 46 * Z.pos p) by lia.
    change (IntDef.Z.div_eucl (100 * 2 ^ 46 * Z.pos p) (Z.pos p))
      with (Z.div_eucl (100 * 2 ^ 46 * Z.pos p) (Z.pos p)).
    rewrite div_eucl_mul by lia. rewrite Hloc.
    vm_compute. reflexivity.
Qed.

Lemma truediv_100 n : 0 < n -> truediv (100 * n) n = Ok 100%float.
Proof.
  intros Hn. unfold truediv.
  destruct (Z.eqb_spec n 0) as [->|_]; [lia|].
  assert (2 ^ 1023 < overflow_threshold) as Hbig by (vm_compute; reflexivity).
  assert (100 < 2 ^ 1023) as Hsmall by (vm_compute; reflexivity).
  destruct (Z.leb_spec (overflow_threshold * Z.abs n) (Z.abs (100 * n)))
    as [Hle|_]; [nia|].
  destruct n as [|p|p]; [lia| |lia]. by rewrite SFdiv_100.
Qed.

(** comparing an integer with [120.0] and with [80.0] is comparing it
    with 120 and with 80 *)
Lemma int_gt_float_120 n :
  int_gt_float n (PrimFloat.mul 100 f1_2) = (120 <? n).
Proof.
  unfold int_gt_float, int_cmp_float.
  replace (Prim2SF (PrimFloat.mul 100 f1_2))
    with (S754_finite false 8444249301319680 (-46))
    by (vm_compute; reflexivity).
  cbn [Z.leb Z.compare]. change (2 ^ (- (-46))) with 70368744177664.
  destruct (Z.compare_spec (n * 70368744177664) 8444249301319680);
    destruct (Z.ltb_spec 120 n); try done; lia.
Qed.

Lemma int_lt_float_80 n :
  int_lt_float n (PrimFloat.mul 100 f0_8) = (n <? 80).
Proof.
  unfold int_lt_float, int_cmp_float.
  replace (Prim2SF (PrimFloat.mul 100 f0_8))
    with (S754_finite false 5629499534213120 (-46))
    by (vm_compute; reflexivity).
  cbn [Z.leb Z.compare]. change (2 ^ (- (-46))) with 70368744177664.
  destruct (Z.compare_spec (n * 70368744177664) 5629499534213120);
    destruct (Z.ltb_spec n 80); try done; lia.
Qed.

(** C9.  When the product counts of the competitors add up to 100 times
    their number, so that their average is exactly 100, the comparisons of
    [get_market_insights] are exact: the position is [large_catalog]
    exactly when the primary brand has more than 120 products and
    [focused_catalog] exactly when it has fewer than 80, so that 120
    products make an [average_catalog] and 121 a [large_catalog]. *)
Theorem market_position_large_catalog brand comps :
  comps <> [] ->
  sum (map total_products comps) = 100 * Z.of_nat (length comps) ->
  market_position (get_market_insights brand comps)
  = if 120 <? total_products brand then "large_catalog"
    else if total_products brand <? 80 then "focused_catalog"
    else "average_catalog".
Proof.
  intros Hne Hsum.
  assert (average_products comps = Ok 100%float) as Havg.
  { unfold average_products. rewrite Hsum. apply truediv_100.
    destruct comps; [done|]. cbn [length]. lia. }
  rewrite (market_position_cases _ _ _ Hne Havg).
  by rewrite int_gt_float_120, int_lt_float_80.
Qed.

(** ** Competitor analysis *)

Lemma analyze_candidate_ok brand target comps w comps' w' :
  analyze_candidate brand target comps w = (Ok comps', w') ->
  exists competitor_analysis, comps' = comps ++ [competitor_analysis].
Proof.
  unfold analyze_candidate, bind, sleep, ret. intros Hrun.
  destruct (extract_all_insights target w) as [[ca|e] w1];
    [|discriminate Hrun].
  destruct llm_enabled.
  - destruct (analyze_competitor_similarity brand ca w1) as [[x|e] w2];
      [|discriminate Hrun].
    injection Hrun as <- _. eauto.
  - injection Hrun as <- _. eauto.
Qed.

Lemma analyze_candidates_extend brand targets comps w :
  exists added w',
    analyze_candidates brand targets comps w = (Ok (comps ++ added), w')
    /\ (length added <= length targets)%nat.
Proof.
  revert comps w. induction targets as [|target rest IH]; intros comps w.
  - exists [], w. by rewrite app_nil_r.
  - cbn [analyze_candidates]. unfold bind at 1, try_except.
    destruct (analyze_candidate brand target comps w) as [[comps'|e] w1] eqn:Hc.
    + apply analyze_candidate_ok in Hc as [ca ->].
      destruct (IH (comps ++ [ca]) w1) as (added & w' & -> & Hlen).
      exists (ca :: added), w'. rewrite <- app_assoc. split; [done|].
      cbn [length]. lia.
    + cbn [any_exception]. unfold ret.
      destruct (IH comps w1) as (added & w' & -> & Hlen).
      exists added, w'. split; [done|]. cbn [length]. lia.
Qed.







End Pipeline.

(** * The statements on concrete inputs *)

Section Runs.
Import Demo.

(** ** Python helpers *)

Example lower_ex : PyStr.lower "ColourPop Cosmetics" = "colourpop cosmetics".
Proof. reflexivity. Qed.

Example title_ex :
  PyStr.title (PyStr.replace_underscore "terms_of_service") = "Terms Of Service".
Proof. reflexivity. Qed.

Example strip_ex : PyStr.strip "  a b  " = "a b".
Proof. reflexivity. Qed.

Example findall_words_ex :
  PyStr.findall_words "colourpop cosmetics" = ["colourpop"; "cosmetics"].
Proof. reflexivity. Qed.

Example list_slice_to_negative : PyStr.list_slice_to (-1) [1; 2; 3] = [1; 2].
Proof. reflexivity. Qed.

Example search_youtube_channel :
  Re.search (lit_pattern "youtube.com/" ["c/"; "channel/"; "user/"])
            "https://youtube.com/channel/uc123?x=1" = Some "uc123".
Proof. reflexivity. Qed.

Example search_tiktok_at :
  Re.search (lit_pattern "tiktok.com/" ["@"]) "https://tiktok.com/@brand/"
  = Some "brand".
Proof. reflexivity. Qed.

Example decimal_float_ex : decimal_float "1.5" = Some 1.5%float.
Proof. reflexivity. Qed.

(** [35 / 3 * 1.2] is below 14 *)
Example truediv_35_3 :
  truediv 35 3 = Ok 0x1.7555555555555p+3%float
  /\ PrimFloat.mul 0x1.7555555555555p+3%float f1_2
     = 0x1.bffffffffffffp+3%float
  /\ int_cmp_float 14 0x1.bffffffffffffp+3%float = Some Gt.
Proof. by vm_compute. Qed.

(** integers beyond [2^53] are divided and compared without a conversion
    of their own *)
Example truediv_large :
  truediv (10 ^ 400) (10 ^ 399) = Ok 10%float
  /\ int_cmp_float (2 ^ 53 + 1) 9007199254740992%float = Some Gt.
Proof. by vm_compute. Qed.

(** the quotient that rounds to [2^1024] overflows; the one below it is the
    largest float *)
Example truediv_overflow :
  exn_kind <$> (match truediv (3 * overflow_threshold) 3 with
                | Raise e => Some e
                | Ok _ => None
                end) = Some OverflowError
  /\ truediv (3 * overflow_threshold - 1) 3
     = Ok 0x1.fffffffffffffp+1023%float
  /\ SFdiv prec emax (sf_of_Z overflow_threshold) (sf_of_Z 1)
     = S754_infinity false.
Proof. by vm_compute. Qed.

(** ** The store *)

Example store_run :
  @extract_all_insights store_env "shop.example" []
  = (Ok store_context, store_trace).
Proof. vm_compute. reflexivity. Qed.

Example store_context_products :
  map handle (product_catalog store_context) = [Some "a"; Some "b"; Some "c"]
  /\ map handle (hero_products store_context) = [Some "a"; Some "c"]
  /\ total_products store_context = 3
  /\ extraction_success store_context = true.
Proof. by vm_compute. Qed.

(** a stage that raises gives a partial result *)
Example broken_faqs_partial :
  match @extract_all_insights broken_faqs_env "shop.example" [] with
  | (Ok bc, _) =>
      extraction_success bc = false
      /\ extraction_notes bc
         = ["Partial extraction due to error: "
            +:+ "'NoneType' object has no attribute 'find'"]
      /\ total_products bc = 3
      /\ privacy_policy bc = None
  | (Raise _, _) => False
  end.
Proof. by vm_compute. Qed.

(** a site that is no store: the fatal error *)
Example not_a_store_raises :
  @extract_all_insights store_env "nowhere.example" []
  = (Raise not_shopify_error,
     [EvGet "https://nowhere.example/products.json";
      EvGet "https://nowhere.example"]).
Proof. vm_compute. reflexivity. Qed.

(** search terms that are not strings end the analysis in its handler *)
Example odd_terms_fail :
  fst (@analyze_competitors odd_terms_env glow 3 [])
  = Ok (failed_analysis glow
          {| exn_kind := AttributeError;
             exn_str := "'int' object has no attribute 'lower'" |}).
Proof. vm_compute. reflexivity. Qed.

(** ** Witnesses *)

Lemma total_products_is_catalog_length_witness :
  @extract_all_insights store_env "shop.example" []
    = (Ok store_context, store_trace)
  /\ total_products store_context
     = Z.of_nat (length (product_catalog store_context)).
Proof.
  split; [vm_compute; reflexivity|].
  apply (@total_products_is_catalog_length store_env "shop.example" []
           store_context store_trace).
  vm_compute. reflexivity.
Defined.

Lemma hero_products_from_catalog_witness :
  (forall p, p ∈ hero_products store_context ->
     exists h, handle p = Some h
               /\ Some h ∈ map handle (product_catalog store_context))
  /\ _get_products_by_handles
       (product_catalog store_context) ["z"; "c"; "a"; "c"]
     = hero_products store_context.
Proof.
  split.
  - apply (proj1 (@hero_products_from_catalog store_env)
             "shop.example" [] store_context store_trace).
    vm_compute. reflexivity.
  - apply (proj2 (@hero_products_from_catalog store_env));
      [reflexivity..|].
    intros x. rewrite !elem_of_cons. tauto.
Defined.

Lemma is_shopify_store_by_products_key_witness :
  @is_shopify_store empty_feed_env "https://plain.example" []
  = (Ok true, [EvGet "https://plain.example/products.json"]).
Proof.
  apply (proj1 (@is_shopify_store_by_products_key empty_feed_env
                  "https://plain.example" [])
           [("products", JArr [])]).
  - vm_compute. reflexivity.
  - vm_compute. eauto.
Defined.

Lemma analyze_competitor_similarity_as_parsed_witness :
  exists x w',
    @analyze_competitor_similarity (chatty_env "0.25") glow shine []
      = (Ok x, w')
    /\ x = 0.25%float.
Proof.
  destruct (@analyze_competitor_similarity_as_parsed (chatty_env "0.25")
              glow shine [] eq_refl) as (x & w' & Hrun & Hx).
  exists x, w'. split; [exact Hrun|]. exact (proj2 Hx).
Defined.

Lemma fallback_search_terms_colourpop_witness :
  (length (@_generate_fallback_search_terms store_env colourpop) <= 8)%nat
  /\ NoDup (@_generate_fallback_search_terms store_env colourpop).
Proof.
  destruct (@fallback_search_terms_colourpop store_env colourpop)
    as (Hlen & Hnd & _).
  - reflexivity.
  - reflexivity.
  - split; [exact Hlen|exact Hnd].
Defined.

Lemma extract_all_insights_fatal_or_partial_witness :
  exists result w',
    @extract_all_insights broken_faqs_env "shop.example" [] = (Ok result, w')
    /\ extraction_success result = false
    /\ extraction_notes result
       = ["Partial extraction due to error: "
          +:+ "'NoneType' object has no attribute 'find'"]
    /\ total_products result = 3
    /\ privacy_policy result = None.
Proof.
  pose proof (@extract_all_insights_fatal_or_partial broken_faqs_env
                "shop.example" []) as Hrun.
  set (run := @extract_all_insights broken_faqs_env "shop.example" []) in *.
  clearbody run. cbv zeta in Hrun.
  destruct Hrun as (shopify & w1 & Hs & Hrun).
  vm_compute in Hs. injection Hs as <- <-. cbn [negb] in Hrun.
  replace (@get_page_content broken_faqs_env (normalize_url "shop.example")
             [EvGet "https://shop.example/products.json"])
    with (Ok (Some EmptyString, Some homepage),
          [EvGet "https://shop.example/products.json";
           EvGet "https://shop.example"])
    in Hrun by (vm_compute; reflexivity).
  destruct Hrun as (_ & Hpartial & _).
  edestruct (Hpartial
              [ @stage_brand_info broken_faqs_env homepage;
                @stage_products broken_faqs_env "https://shop.example";
                @stage_hero_products broken_faqs_env homepage
                  "https://shop.example";
                @stage_social broken_faqs_env homepage "https://shop.example";
                @stage_contact broken_faqs_env homepage ]
              (@stage_faqs broken_faqs_env homepage)
              [ @stage_policies broken_faqs_env "https://shop.example";
                @stage_links broken_faqs_env homepage "https://shop.example";
                @stage_metadata broken_faqs_env homepage ])
    as (result & -> & -> & _).
  - reflexivity.
  - cbn [stages_pass].
    do 5 (eexists _, _; split; [vm_compute; reflexivity|]).
    split; reflexivity.
  - vm_compute. reflexivity.
  - eexists _, _. split; [reflexivity|]. vm_compute. done.
Defined.

Lemma market_position_large_catalog_witness :
  sum (map total_products [sized 50; sized 150])
    = 100 * Z.of_nat (length [sized 50; sized 150])
  /\ market_position (get_market_insights (sized 120) [sized 50; sized 150])
     = "average_catalog"
  /\ market_position (get_market_insights (sized 121) [sized 50; sized 150])
     = "large_catalog".
Proof.
  split; [reflexivity|]. split.
  - apply (market_position_large_catalog (sized 120) [sized 50; sized 150]);
      [discriminate|reflexivity].
  - apply (market_position_large_catalog (sized 121) [sized 50; sized 150]);
      [discriminate|reflexivity].
Defined.


(** ** Where the code differs from the specification *)

(** C3: the feed is an object whose [products] array is empty and the root
    document has no marker, yet the store check answers true. *)
Lemma is_shopify_store_empty_products_true :
  @get_products_json empty_feed_env "https://plain.example" []
    = (Ok (JObj [("products", JArr [])]),
       [EvGet "https://plain.example/products.json"])
  /\ has_marker plain_root = false
  /\ fst (@is_shopify_store empty_feed_env "https://plain.example" [])
     = Ok true
  /\ fst (@is_shopify_store empty_feed_env "https://plain.example" [])
     <> Ok false.
Proof. by vm_compute. Qed.

(** C4: a content block of exactly 100 characters is rejected, for every
    category and every candidate path. *)
Lemma policy_of_100_characters_rejected :
  @candidate_text (uniform_env 100) "https://docs.example"
     "/pages/privacy-policy" [] = Some (letters 100)
  /\ String.length (letters 100) = 100%nat
  /\ fst (@extract_policies (uniform_env 100) "https://docs.example" [])
     = Ok [ ("privacy_policy", None); ("return_policy", None);
            ("refund_policy", None); ("terms_of_service", None);
            ("shipping_policy", None) ]
  /\ fst (@probe_policy (uniform_env 100) "https://docs.example"
            "privacy_policy" ["/pages/privacy-policy"] [])
     <> Ok (Some (policy_from (H := uniform_env 100) "https://docs.example"
                    "privacy_policy" "/pages/privacy-policy" (letters 100))).
Proof. by vm_compute. Qed.


(** C9: a primary with exactly 1.2 times the competitors' average is a
    large catalog, because the product of the average and 1.2 is rounded
    down. *)
Lemma market_position_exact_ratio_large :
  5 * total_products (sized 14)
    * Z.of_nat (length [sized 11; sized 12; sized 12])
  = 6 * sum (map total_products [sized 11; sized 12; sized 12])
  /\ average_products [sized 11; sized 12; sized 12]
     = Ok 0x1.7555555555555p+3%float
  /\ PrimFloat.mul 0x1.7555555555555p+3%float f1_2
     = 0x1.bffffffffffffp+3%float
  /\ market_position
       (get_market_insights (sized 14) [sized 11; sized 12; sized 12])
     = "large_catalog"
  /\ market_position
       (get_market_insights (sized 14) [sized 11; sized 12; sized 12])
     <> "average_catalog".
Proof. by vm_compute. Qed.

(** C7: the response 1.5 is returned as it is. *)
Lemma analyze_competitor_similarity_above_one :
  fst (@analyze_competitor_similarity (chatty_env "1.5") glow shine [])
    = Ok 1.5%float
  /\ PrimFloat.leb 1.5%float 1%float = false.
Proof. by vm_compute. Qed.

End Runs.

(** * Further properties of the code *)

Section Further.
Context `{Collaborators}.

(** ** What a regular-expression match captures *)

Lemma take_while_all_chars p s : all_chars p (PyStr.take_while p s) = true.
Proof.
  induction s as [|c s IH]; [done|]. cbn [PyStr.take_while].
  destruct (p c) eqn:Hc; [|done]. cbn [all_chars]. by rewrite Hc, IH.
Qed.

Lemma strip_prefix_prefix p s r :
  PyStr.strip_prefix p s = Some r -> String.prefix p s = true.
Proof. unfold PyStr.strip_prefix. by destruct (String.prefix p s). Qed.

Lemma match_group_captures p alt rest g :
  Re.match_group p alt rest = Some g ->
  g <> EmptyString /\ all_chars (Re.pat_class p) g = true.
Proof.
  unfold Re.match_group.
  destruct (PyStr.strip_prefix alt rest) as [r|]; [|done].
  destruct (String.eqb _ EmptyString) eqn:Hg; [done|].
  intros [= <-]. split; [|apply take_while_all_chars].
  by apply String.eqb_neq.
Qed.

Lemma first_alternative_captures p alts rest g :
  Re.first_alternative p alts rest = Some g ->
  g <> EmptyString /\ all_chars (Re.pat_class p) g = true.
Proof.
  induction alts as [|alt alts IH]; [done|]. cbn [Re.first_alternative].
  destruct (Re.match_group p alt rest) as [g'|] eqn:Hm; [|exact IH].
  intros [= <-]. by eapply match_group_captures.
Qed.

Lemma match_here_captures p s g :
  Re.match_here p s = Some g ->
  g <> EmptyString
  /\ all_chars (Re.pat_class p) g = true
  /\ String.prefix (Re.pat_literal p) s = true.
Proof.
  unfold Re.match_here.
  destruct (PyStr.strip_prefix _ _) as [rest|] eqn:Hp; [|done].
  intros Hg. apply first_alternative_captures in Hg as [? ?].
  by apply strip_prefix_prefix in Hp.
Qed.

(** a successful search found the literal of the pattern and captured a
    non-empty run of characters of its class *)
Lemma search_captures p s g :
  Re.search p s = Some g ->
  g <> EmptyString
  /\ all_chars (Re.pat_class p) g = true
  /\ PyStr.contains (Re.pat_literal p) s = true.
Proof.
  induction s as [|c s IH]; cbn [Re.search PyStr.contains];
    destruct (Re.match_here p _) as [g'|] eqn:Hm; try done.
  - intros [= <-]. apply match_here_captures in Hm as (? & ? & ->). done.
  - intros [= <-]. apply match_here_captures in Hm as (? & ? & ->). done.
  - intros Hg. apply IH in Hg as (? & ? & ->). by rewrite orb_true_r.
Qed.

(** ** Hero handles *)

(** X1.  [get_hero_products] returns at most ten handles, without
    duplicates; none of them is empty and none contains a slash or a
    question mark. *)
Theorem get_hero_products_handles doc base_url :
  let handles := get_hero_products doc base_url in
  (length handles <= 10)%nat
  /\ NoDup handles
  /\ Forall (fun h => h <> EmptyString /\ all_chars Re.slug_char h = true)
            handles.
Proof.
  unfold get_hero_products. cbv zeta.
  set (found := flat_map _ _).
  split; [rewrite length_take; lia|].
  split; [eapply sublist_NoDup; [apply list_set_NoDup|apply sublist_take]|].
  apply Forall_forall. intros h Hh.
  apply subseteq_take in Hh. rewrite list_set_elem in Hh.
  apply list_elem_of_In in Hh. apply in_flat_map in Hh as (link & _ & Hh).
  destruct (Bs4.attr_of "href" link) as [href|]; [|by destruct Hh].
  destruct (String.eqb href EmptyString); [by destruct Hh|].
  destruct (Re.search products_pattern href) as [g|] eqn:Hg;
    [|by destruct Hh].
  destruct Hh as [<-|[]].
  apply search_captures in Hg as (? & ? & _). done.
Qed.

(** ** Social links *)

Lemma social_matches_entries href :
  Forall (fun h =>
            platform h ∈ social_platforms
            /\ social_url h = href
            /\ PyStr.contains (platform h +:+ ".com/") href = true
            /\ exists g, social_handle h = Some g
                         /\ g <> EmptyString
                         /\ all_chars Re.handle_char g = true)
         (social_matches href).
Proof.
  unfold social_matches, social_patterns. cbn [flat_map fst snd].
  repeat match goal with
         | |- context [Re.search ?p href] =>
             let Hs := fresh "Hs" in
             destruct (Re.search p href) eqn:Hs;
             [apply search_captures in Hs as (? & ? & ?)|]
         end;
  cbn [app]; repeat apply Forall_cons_2; try apply Forall_nil_2;
    cbn [platform social_url social_handle];
    (split; [apply (bool_decide_unpack _); vm_compute; exact I|]);
    (split; [done|]); (split; [done|]); eauto.
Qed.

(** X2.  Every entry of [extract_social_links] names one of the seven
    platforms, has a URL that contains that platform's domain followed by a
    slash, and carries a handle that is not empty and contains no slash,
    question mark or white space. *)
Theorem extract_social_links_entries doc base_url :
  Forall (fun h =>
            platform h ∈ social_platforms
            /\ PyStr.contains (platform h +:+ ".com/") (social_url h) = true
            /\ exists g, social_handle h = Some g
                         /\ g <> EmptyString
                         /\ all_chars Re.handle_char g = true)
         (extract_social_links doc base_url).
Proof.
  apply Forall_forall. intros h Hh.
  apply list_elem_of_In in Hh. apply in_flat_map in Hh as (link & _ & Hh).
  unfold social_links_of_anchor in Hh.
  destruct (String.eqb _ EmptyString); [by destruct Hh|].
  apply list_elem_of_In in Hh.
  pose proof (social_matches_entries
                (if PyStr.startswith "/"
                      (PyStr.lower (default EmptyString
                                      (Bs4.attr_of "href" link)))
                 then urljoin base_url
                        (PyStr.lower (default EmptyString
                                        (Bs4.attr_of "href" link)))
                 else PyStr.lower (default EmptyString
                                     (Bs4.attr_of "href" link)))) as Hall.
  rewrite Forall_forall in Hall.
  destruct (Hall h Hh) as (Hp & Hu & Hc & Hg). rewrite Hu. done.
Qed.

(** ** Hero products keep the order of the catalog *)

Lemma _get_products_by_handles_sublist products handles :
  _get_products_by_handles products handles `sublist_of` products.
Proof.
  unfold _get_products_by_handles.
  induction products as [|p ps IH]; [done|]. cbn [List.filter].
  destruct (match handle p with Some _ => _ | None => _ end);
    by constructor.
Qed.

Lemma heroes_sublist_kept st :
  keeps_products st -> stage_maps heroes_sublist heroes_sublist st.
Proof.
  intros Hk bc w bc' w' HP Hst. unfold heroes_sublist in *.
  pose proof (Hk _ _ _ _ Hst) as Hf. unfold product_fields in Hf.
  injection Hf as -> -> _. exact HP.
Qed.

Lemma heroes_sublist_stage_hero doc target :
  stage_maps no_heroes heroes_sublist (stage_hero_products doc target).
Proof.
  intros bc w bc' w' _. unfold stage_hero_products, ret. intros [= <- _].
  unfold heroes_sublist.
  rewrite hero_set_hero_products, catalog_set_hero_products.
  apply _get_products_by_handles_sublist.
Qed.

Lemma heroes_sublist_stages doc target bc w r w' :
  no_heroes bc ->
  run_stages (stages doc target) bc w = (r, w') ->
  heroes_sublist (fst r).
Proof.
  assert (forall bc0, no_heroes bc0 -> heroes_sublist bc0) as Hweak.
  { intros bc0 H0. unfold heroes_sublist. rewrite H0. apply sublist_nil_l. }
  unfold stages. revert bc w r w'.
  eapply run_stages_step;
    [apply no_heroes_kept, keeps_products_brand_info | exact Hweak |].
  eapply run_stages_step;
    [apply no_heroes_stage_products | exact Hweak |].
  eapply run_stages_step; [apply heroes_sublist_stage_hero | exact Hweak |].
  apply run_stages_invariant.
  repeat apply Forall_cons_2; try apply Forall_nil_2;
    apply heroes_sublist_kept;
    eauto using keeps_products_social, keeps_products_contact,
      keeps_products_faqs, keeps_products_policies, keeps_products_links,
      keeps_products_metadata.
Qed.

(** X3.  In every context that [extract_all_insights] returns, the hero
    products are a sublist of the catalog: the same products, in the order
    of the feed, none of them repeated more often than in the catalog. *)
Theorem hero_products_sublist_of_catalog website_url w bc w' :
  extract_all_insights website_url w = (Ok bc, w') ->
  hero_products bc `sublist_of` product_catalog bc.
Proof.
  intros Hrun.
  destruct (extract_all_insights_inv _ _ _ _ Hrun)
    as (doc & w1 & r & Hr & ->).
  rewrite hero_finish, catalog_finish.
  by eapply heroes_sublist_stages; [|exact Hr].
Qed.

(** ** The URL and the notes of a returned context *)

Ltac run_frame_stage :=
  let Hrun := fresh "Hrun" in
  intros ? ? ? ? Hrun;
  repeat match type of Hrun with
         | context [bind ?c _ ?w] =>
             unfold bind in Hrun;
             let E := fresh "E" in
             destruct (c w) as [[?|?] ?] eqn:E; [|discriminate Hrun]
         end;
  unfold ret in Hrun; inversion Hrun; subst; clear Hrun;
  match goal with bc : BrandContext |- _ => destruct bc; reflexivity end.

Lemma keeps_frame_stages doc target :
  Forall keeps_frame (stages doc target).
Proof.
  unfold stages.
  repeat apply Forall_cons_2; try apply Forall_nil_2.
  - unfold stage_brand_info. run_frame_stage.
  - unfold stage_products. run_frame_stage.
  - unfold stage_hero_products. run_frame_stage.
  - unfold stage_social. run_frame_stage.
  - unfold stage_contact. run_frame_stage.
  - unfold stage_faqs. run_frame_stage.
  - unfold stage_policies. run_frame_stage.
  - unfold stage_links. run_frame_stage.
  - unfold stage_metadata. run_frame_stage.
Qed.

Lemma run_stages_frame doc target bc w r w' :
  run_stages (stages doc target) bc w = (r, w') ->
  frame_fields (fst r) = frame_fields bc.
Proof.
  intros Hrun.
  apply (run_stages_invariant
           (fun bc0 => frame_fields bc0 = frame_fields bc)
           (stages doc target)) with (w := w) (w' := w') (bc := bc);
    [|done|done].
  eapply Forall_impl; [apply keeps_frame_stages|].
  intros st Hk bc0 w0 bc1 w1 HP Hst. by rewrite (Hk _ _ _ _ Hst).
Qed.

Lemma prefix_https u : String.prefix "https://" ("https://" +:+ u) = true.
Proof. cbv -[String.prefix]. by destruct u. Qed.

(** X4.  [normalize_url] is idempotent and its result always starts with
    [http://] or [https://]; a URL that already does is left as it is. *)
Theorem normalize_url_idempotent u :
  normalize_url (normalize_url u) = normalize_url u
  /\ (PyStr.startswith "http://" (normalize_url u)
      || PyStr.startswith "https://" (normalize_url u)) = true
  /\ ((PyStr.startswith "http://" u || PyStr.startswith "https://" u) = true
      -> normalize_url u = u).
Proof.
  assert ((PyStr.startswith "http://" (normalize_url u)
           || PyStr.startswith "https://" (normalize_url u)) = true) as Hs.
  { unfold normalize_url.
    destruct (PyStr.startswith "http://" u || PyStr.startswith "https://" u)
      eqn:Hu; [done|].
    unfold PyStr.startswith at 2. rewrite prefix_https. apply orb_true_r. }
  split; [|split; [done|]].
  - unfold normalize_url at 1. by rewrite Hs.
  - intros Hu. unfold normalize_url. by rewrite Hu.
Qed.

(** X5.  A context returned by [extract_all_insights] carries the
    normalised URL and exactly one extraction note: the success note when
    [extraction_success] is true, the note of the partial failure when it
    is false. *)
Theorem extract_all_insights_url_and_note given_url w bc w' :
  extract_all_insights given_url w = (Ok bc, w') ->
  website_url bc = normalize_url given_url
  /\ exists note,
       extraction_notes bc = [note]
       /\ (extraction_success bc = true <->
           note = "Successfully extracted data from "
                  +:+ normalize_url given_url)
       /\ (extraction_success bc = false <->
           exists msg, note = "Partial extraction due to error: " +:+ msg).
Proof.
  intros Hrun.
  destruct (extract_all_insights_inv _ _ _ _ Hrun)
    as (doc & w1 & [bc0 oe] & Hr & ->).
  apply run_stages_frame in Hr. cbn [fst] in Hr.
  unfold frame_fields in Hr. injection Hr as Hu Hn Hs _.
  cbn in Hu, Hn.
  destruct oe as [e|]; cbn [finish].
  - split; [by destruct bc0|].
    exists ("Partial extraction due to error: " +:+ exn_str e).
    rewrite notes_append_note, notes_set_extraction_success, Hn,
      success_append_note, success_set_extraction_success.
    split; [done|]. split; [split; [done|]|split; [by eauto|done]].
    intros Heq. by cbv -[String.append] in Heq.
  - split; [by destruct bc0|].
    exists ("Successfully extracted data from " +:+ normalize_url given_url).
    rewrite notes_set_extraction_success, notes_append_note, Hn,
      success_set_extraction_success.
    split; [done|]. split; [done|]. split; [done|].
    intros [msg Heq]. by cbv -[String.append] in Heq.
Qed.

(** ** The product feed *)

(** [get_products_json] makes the request for the feed, unless the URL of
    the feed cannot be formed: it then raises the [ValueError] of [urljoin]
    without a request *)
Lemma get_products_json_trace target w r w' :
  get_products_json target w = (r, w') ->
  match urljoin_error target "/products.json" with
  | None => w' = w ++ [EvGet (feed_url target)]
  | Some msg =>
      w' = w /\ r = Raise {| exn_kind := ValueError; exn_str := msg |}
  end.
Proof.
  unfold get_products_json, try_except, bind, lift, py_urljoin, http_get,
    ret, raise, feed_url.
  destruct (urljoin_error target "/products.json") as [msg|].
  - by intros [= <- <-].
  - destruct (session_get w _) as [resp|e].
    + destruct (resp_json resp); by intros [= _ <-].
    + destruct (is_request_or_json_error e); by intros [= _ <-].
Qed.

Lemma get_products_json_returns target w j w' :
  get_products_json target w = (Ok j, w') ->
  w' = w ++ [EvGet (feed_url target)].
Proof.
  intros Hget. apply get_products_json_trace in Hget.
  destruct (urljoin_error target "/products.json"); [|done].
  by destruct Hget.
Qed.

Lemma process_entries_objects target entries products :
  forallb is_object entries = true ->
  process_entries target entries products
  = Ok (products ++ omap (normalized target) entries).
Proof.
  revert products.
  induction entries as [|entry rest IH]; intros products Hall.
  - by rewrite app_nil_r.
  - cbn [forallb] in Hall. apply andb_true_iff in Hall as [Ho Hrest].
    destruct entry; try discriminate Ho.
    cbn [process_entries omap list_omap normalized].
    destruct (normalize_entry target fields) as [p|e].
    + rewrite IH by done. by rewrite <- app_assoc.
    + by apply IH.
Qed.

Lemma process_entries_non_object target entries products :
  forallb is_object entries = false ->
  exists e, process_entries target entries products = Raise e
            /\ exn_kind e = AttributeError.
Proof.
  revert products.
  induction entries as [|entry rest IH]; intros products Hall; [done|].
  cbn [forallb] in Hall. apply andb_false_iff in Hall.
  destruct entry; try (by eexists; split; [reflexivity|]).
  destruct Hall as [Ho|Hrest]; [done|].
  cbn [process_entries].
  destruct (normalize_entry target fields); by apply IH.
Qed.

Lemma has_products_key_object fields :
  is_Some (Py.dict_get "products" fields) ->
  has_products_key (JObj fields) = Ok true.
Proof.
  intros Hk. unfold has_products_key.
  destruct fields as [|kv fields]; [by destruct Hk|].
  cbn [Py.truthy Py.contains]. by rewrite bool_decide_eq_true_2.
Qed.

(** X6.  When the feed is an object whose [products] entry is an array of
    objects, [_extract_products] returns the entries that normalise, in the
    order of the feed, and skips the others; it makes one request and does
    not raise. *)
Theorem _extract_products_objects target w fields entries w1 :
  get_products_json target w = (Ok (JObj fields), w1) ->
  Py.dict_get "products" fields = Some (JArr entries) ->
  forallb is_object entries = true ->
  _extract_products target w = (Ok (omap (normalized target) entries), w1)
  /\ w1 = w ++ [EvGet (feed_url target)]
  /\ (length (omap (normalized target) entries) <= length entries)%nat.
Proof.
  intros Hget Hk Hall. split; [|split].
  - unfold _extract_products, bind, lift. rewrite Hget.
    rewrite has_products_key_object by (by rewrite Hk).
    cbn [Py.getitem]. rewrite Hk. cbn [Py.iter].
    by rewrite process_entries_objects.
  - by eapply get_products_json_returns.
  - clear. induction entries as [|entry rest IH]; [done|].
    cbn [omap list_omap]. destruct (normalized target entry); cbn [length];
      fold (omap (normalized target) rest); lia.
Qed.

(** X7.  One feed entry that is not a JSON object makes [_extract_products]
    raise an [AttributeError], wherever the entry stands in the feed: the
    handler of the per-entry [try] calls [product_data.get] itself, so the
    entry is not skipped and the products before it are not returned. *)
Theorem _extract_products_non_object target w fields entries w1 :
  get_products_json target w = (Ok (JObj fields), w1) ->
  Py.dict_get "products" fields = Some (JArr entries) ->
  forallb is_object entries = false ->
  exists e, _extract_products target w = (Raise e, w1)
            /\ exn_kind e = AttributeError.
Proof.
  intros Hget Hk Hall.
  destruct (process_entries_non_object target entries [] Hall)
    as (e & Hp & He).
  exists e. split; [|done].
  unfold _extract_products, bind, lift. rewrite Hget.
  rewrite has_products_key_object by (by rewrite Hk).
  cbn [Py.getitem]. rewrite Hk. cbn [Py.iter]. by rewrite Hp.
Qed.

(** X8.  When the URL of the feed can be formed, [_extract_products]
    returns the empty list and does not raise in three situations: the
    request for the feed fails with a request error, its body is not JSON,
    or the body is an object without a [products] entry.  When the URL
    cannot be formed, it raises the [ValueError] of [urljoin] without
    making a request. *)
Theorem _extract_products_without_feed target w :
  (urljoin_error target "/products.json" = None ->
   (forall e,
      session_get w (feed_url target) = Raise e ->
      is_request_or_json_error e = true ->
      _extract_products target w = (Ok [], w ++ [EvGet (feed_url target)]))
   /\ (forall resp,
         session_get w (feed_url target) = Ok resp ->
         resp_json resp = None ->
         _extract_products target w
         = (Ok [], w ++ [EvGet (feed_url target)]))
   /\ (forall resp fields,
         session_get w (feed_url target) = Ok resp ->
         resp_json resp = Some (JObj fields) ->
         Py.dict_get "products" fields = None ->
         _extract_products target w
         = (Ok [], w ++ [EvGet (feed_url target)])))
  /\ (forall msg,
        urljoin_error target "/products.json" = Some msg ->
        _extract_products target w
        = (Raise {| exn_kind := ValueError; exn_str := msg |}, w)).
Proof.
  unfold _extract_products, get_products_json, try_except, bind, http_get,
    lift, py_urljoin, ret, raise, feed_url.
  split; [intros ->; split; [|split]|].
  - intros e -> He. by rewrite He.
  - by intros resp -> ->.
  - intros resp fields -> -> Hk. unfold has_products_key.
    destruct fields as [|kv fields]; [done|].
    cbn [Py.truthy Py.contains]. rewrite bool_decide_eq_false_2; [done|].
    rewrite Hk. by intros [? ?].
  - by intros msg ->.
Qed.

(** ** Counting requests *)

Lemma requests_mono {A} n m (c : M A) :
  (n <= m)%nat -> requests_upto n c -> requests_upto m c.
Proof.
  intros Hle Hc w r w' Hrun.
  destruct (Hc _ _ _ Hrun) as (evs & -> & Hg & Hl).
  exists evs. split_and!; [done|done|lia].
Qed.

Lemma requests_ret {A} (a : A) : requests_upto 0 (ret a).
Proof. intros w r w' [= _ <-]. exists []. by rewrite app_nil_r. Qed.

Lemma requests_raise {A} e : requests_upto 0 (raise (A := A) e).
Proof. intros w r w' [= _ <-]. exists []. by rewrite app_nil_r. Qed.

Lemma requests_lift {A} (x : result A) : requests_upto 0 (lift x).
Proof. intros w r w' [= _ <-]. exists []. by rewrite app_nil_r. Qed.

Lemma requests_http_get target : requests_upto 1 (http_get target).
Proof. intros w r w' [= _ <-]. by exists [EvGet target]. Qed.

Lemma requests_bind {A B} n m (c : M A) (k : A -> M B) :
  requests_upto n c -> (forall a, requests_upto m (k a)) ->
  requests_upto (n + m) (bind c k).
Proof.
  intros Hc Hk w r w' Hrun. unfold bind in Hrun.
  destruct (c w) as [[a|e] w1] eqn:Ec;
    destruct (Hc _ _ _ Ec) as (evs1 & -> & Hg1 & Hl1).
  - destruct (Hk a _ _ _ Hrun) as (evs2 & -> & Hg2 & Hl2).
    exists (evs1 ++ evs2). rewrite forallb_app, length_app, Hg1, Hg2.
    split_and!; [by rewrite app_assoc|done|lia].
  - injection Hrun as _ <-. exists evs1. split_and!; [done|done|lia].
Qed.

Lemma requests_try {A} n m (c : M A) catches h :
  requests_upto n c -> (forall e, requests_upto m (h e)) ->
  requests_upto (n + m) (try_except c catches h).
Proof.
  intros Hc Hh w r w' Hrun. unfold try_except in Hrun.
  destruct (c w) as [[a|e] w1] eqn:Ec;
    destruct (Hc _ _ _ Ec) as (evs1 & -> & Hg1 & Hl1).
  - injection Hrun as _ <-. exists evs1. split_and!; [done|done|lia].
  - destruct (catches e).
    + destruct (Hh e _ _ _ Hrun) as (evs2 & -> & Hg2 & Hl2).
      exists (evs1 ++ evs2). rewrite forallb_app, length_app, Hg1, Hg2.
      split_and!; [by rewrite app_assoc|done|lia].
    + injection Hrun as _ <-. exists evs1. split_and!; [done|done|lia].
Qed.

Lemma requests_get_page_content target :
  requests_upto 1 (get_page_content target).
Proof.
  apply (requests_mono (1 + 0 + 0)); [lia|].
  apply requests_try; [|intros; apply requests_ret].
  apply requests_bind; [apply requests_http_get|intros; apply requests_ret].
Qed.

Lemma requests_get_products_json target :
  requests_upto 1 (get_products_json target).
Proof.
  apply (requests_mono (0 + (1 + 0) + 0)); [lia|].
  apply requests_try; [|intros; apply requests_ret].
  apply requests_bind; [apply requests_lift|]. intros products_url.
  apply requests_bind; [apply requests_http_get|].
  intros r. destruct (resp_json r); [apply requests_ret|apply requests_raise].
Qed.

Lemma requests_is_shopify_store target :
  requests_upto 2 (is_shopify_store target).
Proof.
  apply (requests_mono (1 + (0 + (1 + 0)) + 0)); [lia|].
  apply requests_try; [|intros; apply requests_ret].
  apply requests_bind; [apply requests_get_products_json|]. intros j.
  apply requests_bind; [apply requests_lift|]. intros [|].
  - apply (requests_mono 0); [lia|apply requests_ret].
  - apply requests_bind; [apply requests_get_page_content|].
    intros page. destruct (snd page); apply requests_ret.
Qed.

Lemma requests__extract_products target :
  requests_upto 1 (_extract_products target).
Proof.
  apply (requests_mono (1 + (0 + (0 + (0 + 0))))); [lia|].
  apply requests_bind; [apply requests_get_products_json|]. intros j.
  apply requests_bind; [apply requests_lift|]. intros [|].
  - apply requests_bind; [apply requests_lift|]. intros feed.
    apply requests_bind; [apply requests_lift|]. intros entries.
    apply requests_lift.
  - apply (requests_mono 0); [lia|apply requests_ret].
Qed.

Lemma requests_probe_policy base_url policy_name possible_urls :
  requests_upto (length possible_urls)
                (probe_policy base_url policy_name possible_urls).
Proof.
  induction possible_urls as [|url_path rest IH]; [apply requests_ret|].
  cbn [probe_policy length].
  apply (requests_mono (0 + (1 + 0) + 0 + length rest)); [lia|].
  apply requests_bind.
  - apply requests_try; [|intros; apply requests_ret].
    unfold probe_policy_page.
    apply requests_bind; [apply requests_lift|]. intros full_url.
    apply requests_bind; [apply requests_get_page_content|].
    intros page. destruct (snd page) as [doc|]; [|apply requests_ret].
    destruct (Bs4.find is_content_elem doc); [|apply requests_ret].
    destruct (100 <? _)%nat; apply requests_ret.
  - intros [p|]; [|exact IH].
    apply (requests_mono 0); [lia|apply requests_ret].
Qed.

Lemma requests_extract_policies_from base_url categories :
  requests_upto (candidates categories)
                (extract_policies_from base_url categories).
Proof.
  induction categories as [|[policy_name possible_urls] rest IH];
    [apply requests_ret|].
  cbn [extract_policies_from candidates foldr snd].
  apply (requests_mono (length possible_urls + (candidates rest + 0)));
    [unfold candidates; lia|].
  apply requests_bind; [apply requests_probe_policy|]. intros p.
  apply requests_bind; [exact IH|]. intros ps. apply requests_ret.
Qed.

Lemma requests_run_stages sts ns bc w r w' :
  Forall2 stage_requests ns sts ->
  run_stages sts bc w = (r, w') ->
  exists evs, w' = w ++ evs
              /\ forallb is_get evs = true
              /\ (length evs <= foldr Nat.add 0%nat ns)%nat.
Proof.
  intros Hall. revert bc w.
  induction Hall as [|n st ns sts Hst _ IH]; intros bc w Hrun;
    cbn [run_stages] in Hrun.
  - injection Hrun as _ <-. exists []. by rewrite app_nil_r.
  - destruct (st bc w) as [[bc1|e] w1] eqn:Est;
      destruct (Hst _ _ _ _ Est) as (evs1 & -> & Hg1 & Hl1).
    + destruct (IH _ _ Hrun) as (evs2 & -> & Hg2 & Hl2).
      exists (evs1 ++ evs2). rewrite forallb_app, length_app, Hg1, Hg2.
      cbn [foldr]. split_and!; [by rewrite app_assoc|done|lia].
    + injection Hrun as _ <-. exists evs1. cbn [foldr].
      split_and!; [done|done|lia].
Qed.

Lemma stage_requests_stages doc target :
  Forall2 stage_requests [0; 1; 0; 0; 0; 0; 15; 0; 0]%nat (stages doc target).
Proof.
  unfold stages. repeat apply Forall2_cons_2; try apply Forall2_nil_2;
    intros bc.
  - apply (requests_mono (0 + 0)); [lia|].
    apply requests_bind; [apply requests_lift|intros; apply requests_ret].
  - apply (requests_mono (1 + 0)); [lia|].
    apply requests_bind;
      [apply requests__extract_products|intros; apply requests_ret].
  - apply requests_ret.
  - apply requests_ret.
  - apply (requests_mono (0 + 0)); [lia|].
    apply requests_bind; [apply requests_lift|intros; apply requests_ret].
  - apply (requests_mono (0 + 0)); [lia|].
    apply requests_bind; [apply requests_lift|intros; apply requests_ret].
  - apply (requests_mono (15 + 0)); [lia|].
    apply requests_bind; [|intros; apply requests_ret].
    apply (requests_extract_policies_from target policy_urls).
  - apply (requests_mono (0 + 0)); [lia|].
    apply requests_bind; [apply requests_lift|intros; apply requests_ret].
  - apply requests_ret.
Qed.

Lemma extract_all_insights_gets given_url w r w' :
  extract_all_insights given_url w = (r, w') ->
  exists evs, w' = w ++ evs /\ forallb is_get evs = true.
Proof.
  unfold extract_all_insights. cbv zeta. unfold bind at 1.
  destruct (is_shopify_store _ w) as [[[|]|e] w1] eqn:Hs;
    destruct (requests_is_shopify_store _ _ _ _ Hs) as (evs1 & -> & Hg1 & _);
    cbn [negb]; try (intros [= _ <-]; by exists evs1).
  unfold bind at 1.
  destruct (get_page_content _ _) as [[page|e] w2] eqn:Hp;
    destruct (requests_get_page_content _ _ _ _ Hp) as (evs2 & -> & Hg2 & _);
    [|intros [= _ <-]; exists (evs1 ++ evs2);
      by rewrite app_assoc, forallb_app, Hg1, Hg2].
  destruct (snd page) as [doc|];
    [|intros [= _ <-]; exists (evs1 ++ evs2);
      by rewrite app_assoc, forallb_app, Hg1, Hg2].
  destruct (run_stages _ _ _) as [r0 w3] eqn:Hr. intros [= _ <-].
  apply (requests_run_stages _ _ _ _ _ _
           (stage_requests_stages doc (normalize_url given_url))) in Hr
    as (evs3 & -> & Hg3 & _).
  exists (evs1 ++ evs2 ++ evs3).
  by rewrite !app_assoc, !forallb_app, Hg1, Hg2, Hg3.
Qed.

Lemma is_shopify_store_first_request target w r w' :
  is_shopify_store target w = (r, w') ->
  match urljoin_error target "/products.json" with
  | Some _ => r = Ok false /\ w' = w
  | None =>
      exists evs,
        w' = w ++ EvGet (feed_url target) :: evs
        /\ forallb is_get evs = true
        /\ (length evs <= 1)%nat
  end.
Proof.
  unfold is_shopify_store, try_except. unfold bind at 1.
  destruct (get_products_json target w) as [[j|e] w1] eqn:Hj;
    apply get_products_json_trace in Hj;
    destruct (urljoin_error target "/products.json") as [msg|];
    try (by destruct Hj); cbn [any_exception]; unfold ret.
  - subst w1.
    assert (forall (b : result bool),
               exists evs : trace,
                 w ++ [EvGet (feed_url target)]
                 = w ++ EvGet (feed_url target) :: evs
                 /\ forallb is_get evs = true /\ (length evs <= 1)%nat)
      as Hnone.
    { intros _. exists []. split_and!; [done|done|cbn; lia]. }
    unfold bind at 1, lift.
    destruct (has_products_key j) as [[|]|e];
      try (intros [= _ <-]; exact (Hnone (Ok false))).
    unfold bind.
    destruct (get_page_content target _) as [[page|e] w2] eqn:Hp;
      destruct (requests_get_page_content _ _ _ _ Hp)
        as (evs & -> & Hg & Hl);
      [destruct (snd page)|]; intros [= _ <-]; exists evs;
      by rewrite <- app_assoc.
  - destruct Hj as [-> _]. by intros [= <- <-].
  - subst w1. intros [= _ <-]. exists [].
    split_and!; [done|done|cbn; lia].
Qed.

(** X9.  [extract_all_insights] only makes GET requests: it never sleeps
    and never calls the chat endpoint.  When the URL of the product feed
    cannot be formed from the normalised URL, it raises the error of the
    store check without a single request.  Otherwise, whether it returns
    or raises, it performs between 1 and 19 requests and the first one is
    the request for the product feed: at most two requests for the store
    check, one for the homepage, one for the product feed and at most
    fifteen for the policies. *)
Theorem extract_all_insights_requests given_url w r w' :
  extract_all_insights given_url w = (r, w') ->
  match urljoin_error (normalize_url given_url) "/products.json" with
  | Some _ => r = Raise not_shopify_error /\ w' = w
  | None =>
      exists evs,
        w' = w ++ EvGet (feed_url (normalize_url given_url)) :: evs
        /\ forallb is_get evs = true
        /\ (length evs <= 18)%nat
  end.
Proof.
  unfold extract_all_insights. cbv zeta. unfold bind at 1.
  destruct (is_shopify_store _ w) as [[[|]|e] w1] eqn:Hs;
    apply is_shopify_store_first_request in Hs;
    destruct (urljoin_error (normalize_url given_url) "/products.json")
      as [msg|];
    try (by destruct Hs); cbn [negb].
  - destruct Hs as (evs1 & -> & Hg1 & Hl1). unfold bind at 1.
    destruct (get_page_content _ _) as [[page|e] w2] eqn:Hp;
      destruct (requests_get_page_content _ _ _ _ Hp)
        as (evs2 & -> & Hg2 & Hl2);
      [|intros [= _ <-]; exists (evs1 ++ evs2);
        rewrite <- app_assoc, forallb_app, length_app, Hg1, Hg2;
        split_and!; [done|done|lia]].
    destruct (snd page) as [doc|];
      [|intros [= _ <-]; exists (evs1 ++ evs2);
        rewrite <- app_assoc, forallb_app, length_app, Hg1, Hg2;
        split_and!; [done|done|lia]].
    destruct (run_stages _ _ _) as [r0 w3] eqn:Hr. intros [= _ <-].
    apply (requests_run_stages _ _ _ _ _ _
             (stage_requests_stages doc (normalize_url given_url))) in Hr
      as (evs3 & -> & Hg3 & Hl3).
    cbn [foldr Nat.add] in Hl3.
    exists (evs1 ++ evs2 ++ evs3).
    rewrite <- !app_assoc, !forallb_app, !length_app, Hg1, Hg2, Hg3.
    split_and!; [done|done|lia].
  - destruct Hs as [_ ->]. by intros [= <- <-].
  - destruct Hs as (evs1 & -> & Hg1 & Hl1). intros [= _ <-].
    exists evs1. split_and!; [done|done|lia].
  - destruct Hs as (evs1 & -> & Hg1 & Hl1). intros [= _ <-].
    exists evs1. split_and!; [done|done|lia].
Qed.

(** ** The policies that are stored *)

Lemma slice_to_length_min n s :
  String.length (PyStr.slice_to n s) = Nat.min n (String.length s).
Proof.
  revert s. induction n as [|n IH]; intros [|c s]; simpl; try done.
  by rewrite IH.
Qed.

Lemma fetch_length base_url url_path :
  (length (fetch base_url url_path) <= 1)%nat.
Proof. unfold fetch. destruct (py_urljoin _ _); cbn; lia. Qed.

Lemma fetches_length base_url pages :
  (length (fetches base_url pages) <= length pages)%nat.
Proof.
  induction pages as [|url_path pages IH]; [done|].
  cbn [fetches flat_map length]. rewrite length_app.
  pose proof (fetch_length base_url url_path).
  fold (fetches base_url pages). lia.
Qed.

Lemma fetches_gets base_url pages :
  forallb is_get (fetches base_url pages) = true.
Proof.
  induction pages as [|url_path pages IH]; [done|].
  cbn [fetches flat_map]. rewrite forallb_app. fold (fetches base_url pages).
  rewrite IH, andb_true_r. unfold fetch. by destruct (py_urljoin _ _).
Qed.

Lemma fetches_app base_url pages1 pages2 :
  fetches base_url (pages1 ++ pages2)
  = fetches base_url pages1 ++ fetches base_url pages2.
Proof. apply flat_map_app. Qed.

(** when every URL can be formed, every probed candidate is a request *)
Lemma fetches_formed base_url pages :
  (forall url_path, urljoin_error base_url url_path = None) ->
  fetches base_url pages = map (fun p => EvGet (urljoin base_url p)) pages.
Proof.
  intros Hok. induction pages as [|url_path pages IH]; [done|].
  cbn [fetches flat_map map]. fold (fetches base_url pages). rewrite IH.
  unfold fetch, py_urljoin. by rewrite Hok.
Qed.

Lemma fetches_malformed base_url pages :
  (forall url_path, is_Some (urljoin_error base_url url_path)) ->
  fetches base_url pages = [].
Proof.
  intros Hbad. induction pages as [|url_path pages IH]; [done|].
  cbn [fetches flat_map]. fold (fetches base_url pages). rewrite IH.
  unfold fetch, py_urljoin. by destruct (Hbad url_path) as [msg ->].
Qed.

Lemma probe_policy_probed base_url policy_name possible_urls w r w' :
  probe_policy base_url policy_name possible_urls w = (Ok r, w') ->
  exists pages,
    w' = w ++ fetches base_url pages
    /\ probed_for base_url possible_urls r pages.
Proof.
  revert w. induction possible_urls as [|url_path rest IH]; intros w.
  - intros [= <- <-]. exists []. by rewrite app_nil_r.
  - rewrite probe_policy_cons.
    assert (probe_policy base_url policy_name rest
              (w ++ fetch base_url url_path) = (Ok r, w') ->
            exists pages,
              w' = w ++ fetches base_url pages
              /\ probed_for base_url (url_path :: rest) r pages) as Hrest.
    { intros Hrun. destruct (IH _ Hrun) as (pages & -> & Hpages).
      exists (url_path :: pages).
      cbn [fetches flat_map]. rewrite <- app_assoc. split; [done|].
      destruct r as [p|]; cbn [probed_for] in *; [|by rewrite Hpages].
      destruct Hpages as (path & post & -> & Hlast & Hurl).
      exists path, post. split; [done|]. split; [|done].
      destruct pages; [done|]. by rewrite last_cons, Hlast. }
    destruct (candidate_text base_url url_path w) as [text|];
      [|exact Hrest].
    destruct (100 <? String.length text)%nat; [|exact Hrest].
    intros [= <- <-]. exists [url_path].
    cbn [fetches flat_map]. rewrite app_nil_r. split; [done|].
    by exists url_path, rest.
Qed.

Lemma extract_policies_from_probed base_url categories w ps w' :
  extract_policies_from base_url categories w = (Ok ps, w') ->
  exists probed,
    w' = w ++ flat_map (fetches base_url) probed
    /\ Forall3 (fun c np pages =>
                  fst np = fst c
                  /\ probed_for base_url (snd c) (snd np) pages)
               categories ps probed.
Proof.
  revert w ps w'.
  induction categories as [|[policy_name possible_urls] rest IH];
    intros w ps w' Hrun; cbn [extract_policies_from] in Hrun.
  - injection Hrun as <- <-. exists []. split; [|constructor].
    by rewrite app_nil_r.
  - unfold bind at 1 in Hrun.
    destruct (probe_policy _ _ _ w) as [[r|e] w1] eqn:Hp; [|done].
    unfold bind in Hrun.
    destruct (extract_policies_from _ rest _) as [[ps0|e] w2] eqn:Hrest;
      [|done].
    injection Hrun as <- <-.
    apply probe_policy_probed in Hp as (pages & -> & Hpages).
    apply IH in Hrest as (probed & -> & Hall).
    exists (pages :: probed). cbn [flat_map]. rewrite <- app_assoc.
    split; [done|]. by constructor.
Qed.

Lemma probed_for_nonempty base_url possible_urls r pages :
  possible_urls <> [] -> probed_for base_url possible_urls r pages ->
  pages <> [].
Proof.
  intros Hne. destruct r as [p|]; cbn [probed_for].
  - intros (path & post & _ & Hlast & _). by destruct pages.
  - by intros ->.
Qed.

Lemma probed_requests base_url categories ps probed :
  (forall url_path, urljoin_error base_url url_path = None) ->
  Forall (fun c : string * list string => snd c <> []) categories ->
  Forall3 (fun c np pages =>
             fst np = fst c
             /\ probed_for base_url (snd c) (snd np) pages)
          categories ps probed ->
  (length categories <= length (flat_map (fetches base_url) probed))%nat.
Proof.
  intros Hok Hne Hall. revert Hne.
  induction Hall as [|c np pages categories ps probed [_ Hpages] _ IH];
    intros Hne; [done|].
  apply Forall_cons in Hne as [Hc Hne].
  cbn [flat_map length]. rewrite length_app, fetches_formed by done.
  rewrite length_map. pose proof (IH Hne).
  pose proof (probed_for_nonempty _ _ _ _ Hc Hpages).
  destruct pages; [done|]. cbn [length]. lia.
Qed.

(** X10.  [extract_policies] never raises.  It returns one entry for each
    of the five categories, in their fixed order.  The candidates of a
    category are probed in their order: all of them when no policy is
    stored for the category, and those up to the page that is stored
    otherwise.  A probed candidate is one GET request, or none when its
    URL cannot be formed, so that there are at most 15 requests; when
    every URL can be formed there are at least 5, at least one and at
    most three per category, and when none can be formed there is no
    request at all. *)
Theorem extract_policies_five_categories base_url w :
  exists ps w' probed,
    extract_policies base_url w = (Ok ps, w')
    /\ map fst ps = policy_names
    /\ Forall3 (fun c np pages =>
                  fst np = fst c
                  /\ probed_for base_url (snd c) (snd np) pages)
               policy_urls ps probed
    /\ w' = w ++ flat_map (fetches base_url) probed
    /\ forallb is_get (flat_map (fetches base_url) probed) = true
    /\ (length (flat_map (fetches base_url) probed) <= 15)%nat
    /\ ((forall url_path, urljoin_error base_url url_path = None) ->
        (5 <= length (flat_map (fetches base_url) probed))%nat
        /\ flat_map (fetches base_url) probed
           = map (fun p => EvGet (urljoin base_url p)) (concat probed))
    /\ ((forall url_path, is_Some (urljoin_error base_url url_path)) ->
        w' = w).
Proof.
  unfold extract_policies.
  destruct (extract_policies_from_total base_url policy_urls w)
    as (ps & w' & Hrun & Hkeys).
  destruct (requests_extract_policies_from _ _ _ _ _ Hrun)
    as (evs & Hevs & Hg & Hhi).
  destruct (extract_policies_from_probed _ _ _ _ _ Hrun)
    as (probed & -> & Hall).
  apply app_inv_head in Hevs as <-.
  exists ps, (w ++ flat_map (fetches base_url) probed), probed.
  split_and!; try done.
  - intros Hok. split.
    + apply (probed_requests _ _ _ _ Hok) in Hall; [done|].
      unfold policy_urls.
      repeat apply Forall_cons_2; try apply Forall_nil_2; done.
    + clear -Hok. induction probed as [|pages probed IH]; [done|].
      cbn [flat_map concat]. by rewrite map_app, IH, fetches_formed.
  - intros Hbad.
    assert (flat_map (fetches base_url) probed = []) as ->;
      [|by rewrite app_nil_r].
    clear -Hbad. induction probed as [|pages probed IH]; [done|].
    cbn [flat_map]. by rewrite IH, fetches_malformed.
Qed.

Lemma probe_policy_accepts base_url policy_name possible_urls w p w' :
  probe_policy base_url policy_name possible_urls w = (Ok (Some p), w') ->
  exists url_path text,
    url_path ∈ possible_urls
    /\ p = policy_from base_url policy_name url_path text
    /\ (100 < String.length text)%nat.
Proof.
  revert w. induction possible_urls as [|url_path rest IH]; intros w;
    [done|].
  rewrite probe_policy_cons.
  assert (probe_policy base_url policy_name rest
            (w ++ fetch base_url url_path) = (Ok (Some p), w') ->
          exists url_path0 text,
            url_path0 ∈ url_path :: rest
            /\ p = policy_from base_url policy_name url_path0 text
            /\ (100 < String.length text)%nat) as Hrest.
  { intros Hr. destruct (IH _ Hr) as (path & text & Hin & Hp & Hl).
    exists path, text. split; [by apply list_elem_of_further|done]. }
  destruct (candidate_text base_url url_path w) as [text|]; [|exact Hrest].
  destruct (100 <? String.length text)%nat eqn:Hlen; [|exact Hrest].
  intros [= <- _]. exists url_path, text. apply Nat.ltb_lt in Hlen.
  split; [apply list_elem_of_here|done].
Qed.

Lemma stored_policy_from base_url name paths url_path text :
  url_path ∈ paths -> (100 < String.length text)%nat ->
  stored_policy base_url name paths
                (policy_from base_url name url_path text).
Proof.
  intros Hin Hlen. unfold stored_policy, policy_from.
  cbn [content policy_title policy_url]. rewrite slice_to_length_min.
  split; [lia|]. split; [done|]. by exists url_path.
Qed.

Lemma extract_policies_from_stored base_url categories w ps w' :
  extract_policies_from base_url categories w = (Ok ps, w') ->
  Forall2 (fun c np =>
             fst np = fst c
             /\ forall p, snd np = Some p ->
                          stored_policy base_url (fst c) (snd c) p)
          categories ps.
Proof.
  revert w ps w'.
  induction categories as [|[policy_name possible_urls] rest IH];
    intros w ps w' Hrun; cbn [extract_policies_from] in Hrun.
  - injection Hrun as <- _. constructor.
  - unfold bind at 1 in Hrun.
    destruct (probe_policy _ _ _ w) as [[op|e] w1] eqn:Hp; [|done].
    unfold bind in Hrun.
    destruct (extract_policies_from _ rest _) as [[ps0|e] w2] eqn:Hrest;
      [|done].
    injection Hrun as <- _. constructor; [|by eapply IH].
    cbn [fst snd]. split; [done|]. intros p ->.
    apply probe_policy_accepts in Hp as (path & text & Hin & -> & Hl).
    by apply stored_policy_from.
Qed.

(** X11.  Every policy that [extract_policies] returns has a content of
    more than 100 and at most 2000 characters, the humanised name of its
    category as title, and the URL of one of the candidate paths of that
    category. *)
Theorem extract_policies_stored base_url w ps w' :
  extract_policies base_url w = (Ok ps, w') ->
  Forall2 (fun c np =>
             fst np = fst c
             /\ forall p, snd np = Some p ->
                          stored_policy base_url (fst c) (snd c) p)
          policy_urls ps.
Proof. apply extract_policies_from_stored. Qed.

(** ** The curated directory *)

Lemma urls_for_term_stores term_lower :
  Forall (fun u => u ∈ candidate_stores) (urls_for_term term_lower).
Proof.
  unfold urls_for_term, shopify_stores_by_category.
  cbn [flat_map fst snd take].
  repeat match goal with
         | |- context [existsb ?f ?l] => destruct (existsb f l)
         end;
    cbn [app]; repeat apply Forall_cons_2; try apply Forall_nil_2;
    apply (bool_decide_unpack _); vm_compute; exact I.
Qed.

Lemma collect_competitor_urls_stores search_terms acc urls :
  collect_competitor_urls search_terms acc = Ok urls ->
  Forall (fun u => u ∈ candidate_stores) acc ->
  Forall (fun u => u ∈ candidate_stores) urls
  /\ forallb is_string search_terms = true.
Proof.
  revert acc. induction search_terms as [|term rest IH]; intros acc.
  - by intros [= <-].
  - destruct term; try done. cbn [collect_competitor_urls forallb is_string].
    intros Hrun Hacc. apply IH in Hrun; [done|].
    apply Forall_app. split; [done|apply urls_for_term_stores].
Qed.

Lemma list_slice_to_sublist {A} n (l : list A) :
  PyStr.list_slice_to n l `sublist_of` l.
Proof. unfold PyStr.list_slice_to. destruct (n <? 0); apply sublist_take. Qed.

Lemma list_slice_to_length {A} n (l : list A) :
  0 <= n -> (length (PyStr.list_slice_to n l) <= Z.to_nat n)%nat.
Proof.
  intros Hn. unfold PyStr.list_slice_to.
  destruct (n <? 0) eqn:Hneg; [lia|]. rewrite length_take. lia.
Qed.

Lemma find_competitor_urls_stores search_terms max_results urls :
  find_competitor_urls search_terms max_results = Ok urls ->
  NoDup urls
  /\ Forall (fun u => u ∈ candidate_stores) urls
  /\ forallb is_string search_terms = true.
Proof.
  unfold find_competitor_urls.
  destruct (collect_competitor_urls search_terms []) as [found|e] eqn:Hc;
    [|done].
  intros [= <-].
  apply collect_competitor_urls_stores in Hc as [Hs Hstr]; [|constructor].
  split; [|split; [|done]].
  - eapply sublist_NoDup; [apply list_set_NoDup|apply list_slice_to_sublist].
  - apply Forall_forall. intros u Hu.
    apply (sublist_subseteq _ _ (list_slice_to_sublist _ _)) in Hu.
    rewrite list_set_elem in Hu. rewrite Forall_forall in Hs. by apply Hs.
Qed.

(** X12.  When [find_competitor_urls] returns, its result has no
    duplicates and consists of stores of the curated directory, so it never
    has more than seven entries; for a non-negative [max_results] it has at
    most [max_results] entries. *)
Theorem find_competitor_urls_result search_terms max_results urls :
  find_competitor_urls search_terms max_results = Ok urls ->
  NoDup urls
  /\ Forall (fun u => u ∈ candidate_stores) urls
  /\ (length urls <= 7)%nat
  /\ (0 <= max_results -> (length urls <= Z.to_nat max_results)%nat).
Proof.
  intros Hrun.
  destruct (find_competitor_urls_stores _ _ _ Hrun) as (Hnd & Hs & _).
  split; [done|]. split; [done|]. split.
  - change 7%nat with (length candidate_stores).
    apply submseteq_length, NoDup_submseteq; [done|].
    intros u Hu. rewrite Forall_forall in Hs. by apply Hs.
  - intros Hmax. unfold find_competitor_urls in Hrun.
    destruct (collect_competitor_urls search_terms []); [|done].
    injection Hrun as <-. by apply list_slice_to_length.
Qed.

(** X13.  A search term that contains one of the words women, men, apparel
    or makeup matches every category of the directory, whatever else it
    says: it selects the first two stores of all five categories. *)
Theorem urls_for_term_broad_keyword term_lower :
  existsb (fun keyword => PyStr.contains keyword term_lower) broad_keywords
    = true ->
  urls_for_term term_lower
  = flat_map (fun c => take 2 (snd c)) shopify_stores_by_category
  /\ forall u, u ∈ candidate_stores -> u ∈ urls_for_term term_lower.
Proof.
  intros Hbroad.
  assert (urls_for_term term_lower
          = flat_map (fun c => take 2 (snd c)) shopify_stores_by_category)
    as Heq.
  { unfold urls_for_term, shopify_stores_by_category.
    cbn [flat_map fst snd]. unfold broad_keywords in Hbroad.
    cbn [existsb] in *. rewrite !Hbroad, !orb_true_r. done. }
  split; [done|]. rewrite Heq. intros u Hu.
  revert u Hu. apply Forall_forall. unfold candidate_stores.
  repeat apply Forall_cons_2; try apply Forall_nil_2;
    apply (bool_decide_unpack _); vm_compute; exact I.
Qed.

Lemma collect_competitor_urls_non_string search_terms acc :
  forallb is_string search_terms = false ->
  exists e, collect_competitor_urls search_terms acc = Raise e
            /\ exn_kind e = AttributeError.
Proof.
  revert acc. induction search_terms as [|term rest IH]; intros acc Hall;
    [done|].
  destruct term; try (by eexists; split; [reflexivity|]).
  cbn [forallb is_string andb] in Hall. cbn [collect_competitor_urls].
  by apply IH.
Qed.

(** X14.  A search term that is not a string makes [find_competitor_urls]
    raise an [AttributeError]; when the terms of the text-structuring
    capability contain one, [analyze_competitors] ends in its handler: it
    returns the failure analysis, without competitors and without falling
    back to the terms derived from the catalog. *)
Theorem analyze_competitors_non_string_term brand max_competitors w terms w1 :
  llm_enabled = true ->
  generate_competitor_search_terms brand w = (Ok terms, w1) ->
  forallb is_string terms = false ->
  exists e,
    find_competitor_urls terms (max_competitors * 2) = Raise e
    /\ exn_kind e = AttributeError
    /\ analyze_competitors brand max_competitors w
       = (Ok (failed_analysis brand e), w1).
Proof.
  intros Hen Hgen Hall.
  destruct (collect_competitor_urls_non_string terms [] Hall)
    as (e & Hc & He).
  assert (find_competitor_urls terms (max_competitors * 2) = Raise e) as Hf.
  { unfold find_competitor_urls. by rewrite Hc. }
  exists e. split; [done|]. split; [done|].
  unfold analyze_competitors, try_except, analyze_competitors_body.
  unfold bind at 1. rewrite Hen, Hgen.
  destruct terms as [|term rest]; [done|].
  unfold bind at 1, lift. by rewrite Hf.
Qed.

(** ** The competitors that are analysed *)

Lemma website_url_append_note note bc :
  website_url (append_note note bc) = website_url bc.
Proof. by destruct bc. Qed.

Lemma extract_all_insights_site given_url w bc w' :
  extract_all_insights given_url w = (Ok bc, w') ->
  website_url bc = normalize_url given_url.
Proof.
  intros Hrun.
  destruct (extract_all_insights_inv _ _ _ _ Hrun)
    as (doc & w1 & [bc0 oe] & Hr & ->).
  apply run_stages_frame in Hr. cbn [fst] in Hr.
  unfold frame_fields in Hr. injection Hr as Hu _ _ _.
  cbn in Hu. destruct oe, bc0; exact Hu.
Qed.

Lemma analyze_candidate_site brand target comps w comps' w' :
  analyze_candidate brand target comps w = (Ok comps', w') ->
  exists ca, comps' = comps ++ [ca]
             /\ website_url ca = normalize_url target.
Proof.
  unfold analyze_candidate, bind, sleep, ret. intros Hrun.
  destruct (extract_all_insights target w) as [[ca|e] w1] eqn:Hx;
    [|discriminate Hrun].
  apply extract_all_insights_site in Hx.
  destruct llm_enabled.
  - destruct (analyze_competitor_similarity brand ca w1) as [[x|e] w2];
      [|discriminate Hrun].
    injection Hrun as <- _. eexists. split; [done|].
    by rewrite website_url_append_note.
  - injection Hrun as <- _. by eexists.
Qed.

Lemma analyze_candidates_sites brand targets comps w comps' w' :
  analyze_candidates brand targets comps w = (Ok comps', w') ->
  exists added,
    comps' = comps ++ added
    /\ map website_url added `sublist_of` map normalize_url targets.
Proof.
  revert comps w. induction targets as [|target rest IH]; intros comps w.
  - intros [= <- _]. exists []. by rewrite app_nil_r.
  - cbn [analyze_candidates]. unfold bind at 1, try_except.
    destruct (analyze_candidate brand target comps w) as [[comps1|e] w1]
      eqn:Hc.
    + apply analyze_candidate_site in Hc as (ca & -> & Hu).
      intros Hrun. apply IH in Hrun as (added & -> & Hsub).
      exists (ca :: added). rewrite <- app_assoc. split; [done|].
      cbn [map]. rewrite Hu. by constructor.
    + cbn [any_exception]. unfold ret.
      intros Hrun. apply IH in Hrun as (added & -> & Hsub).
      exists added. split; [done|]. cbn [map]. by constructor.
Qed.

Lemma normalize_url_store u : u ∈ candidate_stores -> normalize_url u = u.
Proof.
  revert u. apply Forall_forall. unfold candidate_stores.
  repeat apply Forall_cons_2; try apply Forall_nil_2; reflexivity.
Qed.

Lemma filter_sublist {A} (f : A -> bool) l : List.filter f l `sublist_of` l.
Proof.
  induction l as [|x l IH]; [done|]. cbn [List.filter].
  destruct (f x); by constructor.
Qed.

(** X15.  The competitors of a returned analysis are stores of the curated
    directory, pairwise different by URL and different from the URL of the
    primary brand; for a non-negative [max_competitors] there are at most
    that many. *)
Theorem analyze_competitors_competitors brand max_competitors w ca w' :
  analyze_competitors brand max_competitors w = (Ok ca, w') ->
  NoDup (map website_url (competitors ca))
  /\ Forall (fun c => website_url c ∈ candidate_stores
                      /\ website_url c <> website_url brand)
            (competitors ca)
  /\ (0 <= max_competitors ->
      (length (competitors ca) <= Z.to_nat max_competitors)%nat).
Proof.
  unfold analyze_competitors, try_except.
  destruct (analyze_competitors_body brand max_competitors w)
    as [[ca0|e] w0] eqn:Hbody; cbn [any_exception]; intros [= <- _];
    [|by split_and!; [constructor|constructor|cbn; lia]].
  unfold analyze_competitors_body in Hbody. unfold bind at 1 in Hbody.
  destruct (if llm_enabled then _ else _) as [[terms|e] w1];
    [|discriminate Hbody].
  unfold bind at 1, lift in Hbody.
  destruct (find_competitor_urls _ _) as [urls|e] eqn:Hf;
    [|discriminate Hbody].
  apply find_competitor_urls_stores in Hf as (Hnd & Hs & _).
  unfold bind at 1 in Hbody.
  set (targets := PyStr.list_slice_to max_competitors _) in Hbody.
  destruct (analyze_candidates brand targets [] w1) as [[comps|e] w2]
    eqn:Hc; [|discriminate Hbody].
  unfold bind, ret in Hbody.
  destruct (_create_analysis_summary _ _ _); [|discriminate Hbody].
  injection Hbody as <- _. cbn [competitors].
  apply analyze_candidates_sites in Hc as (added & -> & Hsub).
  cbn [app] in *.
  assert (targets `sublist_of` urls) as Hturls.
  { unfold targets. etrans; [apply list_slice_to_sublist|].
    apply filter_sublist. }
  assert (Forall (fun u => u ∈ candidate_stores
                           /\ u <> website_url brand) targets) as Ht.
  { apply Forall_forall. intros u Hu. split.
    - rewrite Forall_forall in Hs. apply Hs.
      by apply (sublist_subseteq _ _ Hturls).
    - apply (sublist_subseteq _ _ (list_slice_to_sublist _ _)) in Hu.
      apply list_elem_of_In, filter_In in Hu as [_ Hu].
      apply negb_true_iff, String.eqb_neq in Hu. done. }
  assert (map normalize_url targets = targets) as Hnorm.
  { clear -Ht. induction Ht as [|u us [Hu _] _ IH]; [done|].
    cbn [map]. by rewrite IH, normalize_url_store. }
  rewrite Hnorm in Hsub.
  split_and!.
  - eapply sublist_NoDup; [|exact Hsub]. by eapply sublist_NoDup.
  - apply Forall_forall. intros c Hc. rewrite Forall_forall in Ht.
    apply Ht, (sublist_subseteq _ _ Hsub), list_elem_of_fmap. by exists c.
  - intros Hmax. apply sublist_length in Hsub.
    rewrite length_map in Hsub.
    pose proof (list_slice_to_length max_competitors
                  (List.filter
                     (fun u => negb (String.eqb u (website_url brand))) urls)
                  Hmax) as Hl.
    fold targets in Hl. lia.
Qed.

(** ** Pacing and chat calls of the competitor analysis *)

Lemma gets_no_sleeps_no_chats evs :
  forallb is_get evs = true -> sleeps evs = [] /\ chats evs = [].
Proof.
  induction evs as [|ev evs IH]; [done|]. cbn [forallb].
  intros [Hev Hevs]%andb_true_iff. destruct ev; try done.
  unfold sleeps, chats in *. cbn [List.filter is_sleep is_chat]. by apply IH.
Qed.

Lemma chat_only_similarity brand1 brand2 :
  chat_only (analyze_competitor_similarity brand1 brand2).
Proof.
  intros w r w'. unfold analyze_competitor_similarity.
  destruct llm_enabled; cbn [negb].
  - unfold try_except, bind, lift, chat, ret, raise.
    destruct (summarize 10 brand1);
      [|intros [= <- <-]; exists 0%float, []; by rewrite app_nil_r].
    destruct (summarize 10 brand2);
      [|intros [= <- <-]; exists 0%float, []; by rewrite app_nil_r].
    destruct (chat_completion w _) as [raw|e];
      [destruct (py_float _)|]; intros [= <- <-]; by eexists _, [_].
  - intros [= <- <-]. exists 0%float, []. by rewrite app_nil_r.
Qed.

Lemma chat_only_search_terms brand :
  chat_only (generate_competitor_search_terms brand).
Proof.
  intros w r w'. unfold generate_competitor_search_terms.
  destruct llm_enabled; cbn [negb].
  - unfold try_except, bind, lift, chat, ret.
    destruct (summarize 5 brand);
      [|intros [= <- <-]; exists [], []; by rewrite app_nil_r].
    destruct (chat_completion w _) as [raw|e];
      [destruct (json_loads _) as [[]|]|]; intros [= <- <-];
      by eexists _, [_].
  - intros [= <- <-]. exists [], []. by rewrite app_nil_r.
Qed.

Lemma sleeps_app evs1 evs2 : sleeps (evs1 ++ evs2) = sleeps evs1 ++ sleeps evs2.
Proof. apply List.filter_app. Qed.

Lemma chats_app evs1 evs2 : chats (evs1 ++ evs2) = chats evs1 ++ chats evs2.
Proof. apply List.filter_app. Qed.

(** one candidate: a sleep of two seconds when it is analysed, none when it
    fails *)
Lemma analyze_candidate_events brand target comps w r w' :
  analyze_candidate brand target comps w = (r, w') ->
  exists evs,
    w' = w ++ evs
    /\ sleeps evs = match r with Ok _ => [EvSleep 2] | Raise _ => [] end
    /\ (llm_enabled = false -> chats evs = []).
Proof.
  unfold analyze_candidate. unfold bind at 1.
  destruct (extract_all_insights target w) as [[ca|e] w1] eqn:Hx;
    destruct (extract_all_insights_gets _ _ _ _ Hx) as (evs1 & -> & Hg);
    apply gets_no_sleeps_no_chats in Hg as [Hs1 Hc1].
  - unfold bind at 1.
    destruct llm_enabled eqn:Hen.
    + unfold bind at 1.
      destruct (analyze_competitor_similarity brand ca (w ++ evs1))
        as [r2 w2] eqn:Hsim.
      destruct (chat_only_similarity _ _ _ _ _ Hsim)
        as (x & evs2 & -> & -> & Hs2 & _).
      unfold ret, bind, sleep. intros [= <- <-].
      exists (evs1 ++ evs2 ++ [EvSleep 2]).
      rewrite !sleeps_app, Hs1, Hs2, <- !app_assoc. done.
    + unfold ret, bind, sleep. intros [= <- <-].
      exists (evs1 ++ [EvSleep 2]).
      rewrite sleeps_app, chats_app, Hs1, Hc1, <- !app_assoc. done.
  - intros [= <- <-]. by exists evs1.
Qed.

Lemma analyze_candidates_events brand targets comps w comps' w' :
  analyze_candidates brand targets comps w = (Ok comps', w') ->
  exists added evs,
    comps' = comps ++ added
    /\ w' = w ++ evs
    /\ sleeps evs = replicate (length added) (EvSleep 2)
    /\ (llm_enabled = false -> chats evs = []).
Proof.
  revert comps w. induction targets as [|target rest IH]; intros comps w.
  - intros [= <- <-]. exists [], []. by rewrite !app_nil_r.
  - cbn [analyze_candidates]. unfold bind at 1, try_except.
    destruct (analyze_candidate brand target comps w) as [[comps1|e] w1]
      eqn:Hc;
      destruct (analyze_candidate_events _ _ _ _ _ _ Hc)
        as (evs1 & -> & Hs1 & Hc1).
    + apply analyze_candidate_ok in Hc as [ca ->].
      intros Hrun. apply IH in Hrun as (added & evs2 & -> & -> & Hs2 & Hc2).
      exists (ca :: added), (evs1 ++ evs2).
      rewrite sleeps_app, chats_app, Hs1, Hs2, <- !app_assoc.
      split_and!; try done. intros Hen. by rewrite Hc1, Hc2.
    + cbn [any_exception]. unfold ret.
      intros Hrun. apply IH in Hrun as (added & evs2 & -> & -> & Hs2 & Hc2).
      exists added, (evs1 ++ evs2).
      rewrite sleeps_app, chats_app, Hs1, Hs2, <- !app_assoc.
      split_and!; try done. intros Hen. by rewrite Hc1, Hc2.
Qed.

Lemma strings_of_terms_strings terms :
  forallb is_string terms = true -> exists l, strings_of_terms terms = Ok l.
Proof.
  induction terms as [|term rest IH]; [by exists []|].
  destruct term; try done. cbn [forallb is_string andb strings_of_terms].
  intros Hrest. destruct (IH Hrest) as [l ->]. by eexists.
Qed.

Lemma forallb_take {A} (f : A -> bool) n l :
  forallb f l = true -> forallb f (take n l) = true.
Proof.
  revert n. induction l as [|x l IH]; intros [|n]; try done.
  cbn [forallb take]. intros [-> Hl]%andb_true_iff. by apply IH.
Qed.

Lemma truediv_raises a b e :
  truediv a b = Raise e ->
  (b = 0 /\ exn_kind e = ZeroDivisionError)
  \/ (overflow_threshold * Z.abs b <= Z.abs a
      /\ exn_kind e = OverflowError).
Proof.
  unfold truediv. destruct (Z.eqb_spec b 0) as [->|Hb].
  - intros [= <-]. by left.
  - destruct (Z.leb_spec (overflow_threshold * Z.abs b) (Z.abs a));
      [|done].
    intros [= <-]. by right.
Qed.

(** with search terms that are strings, the summary raises only when the
    average of the product counts does not fit a float *)
Lemma _create_analysis_summary_strings brand comps terms :
  forallb is_string terms = true ->
  (exists text, _create_analysis_summary brand comps terms = Ok text)
  \/ (exists e, _create_analysis_summary brand comps terms = Raise e
                /\ exn_kind e = OverflowError).
Proof.
  intros Hall. unfold _create_analysis_summary.
  destruct (strings_of_terms_strings (take 5 terms)) as [l ->];
    [by apply forallb_take|].
  destruct comps as [|c comps]; [left; by eexists|].
  destruct (truediv _ _) as [avg|e] eqn:Hdiv; [left; by eexists|].
  right. exists e. split; [done|].
  apply truediv_raises in Hdiv as [[Hlen _]|[_ Hkind]]; [|done].
  cbn [length] in Hlen. lia.
Qed.

(** X16.  [analyze_competitors] sleeps two seconds after every competitor
    it analyses and at no other time.  The sleeps of a call are as many as
    the competitors it returns, unless the average of the summary does not
    fit a float: the call then ends in its handler and returns the failure
    analysis of an [OverflowError], without the competitors it analysed.
    With the capability disabled it makes no chat call. *)
Theorem analyze_competitors_pacing brand max_competitors w ca w' :
  analyze_competitors brand max_competitors w = (Ok ca, w') ->
  exists evs analysed_competitors,
    w' = w ++ evs
    /\ sleeps evs = replicate analysed_competitors (EvSleep 2)
    /\ (llm_enabled = false -> chats evs = [])
    /\ (analysed_competitors = length (competitors ca)
        \/ exists e, exn_kind e = OverflowError
                     /\ ca = failed_analysis brand e).
Proof.
  unfold analyze_competitors, try_except, analyze_competitors_body.
  unfold bind at 1.
  destruct ((if llm_enabled then generate_competitor_search_terms brand
             else ret []) w) as [r0 w0] eqn:Hgen.
  assert (exists terms evs0,
             r0 = Ok terms /\ w0 = w ++ evs0 /\ sleeps evs0 = []
             /\ (llm_enabled = false -> evs0 = [])) as Hg.
  { destruct llm_enabled eqn:Hen.
    - destruct (chat_only_search_terms _ _ _ _ Hgen)
        as (terms & evs0 & -> & -> & Hs & _). by exists terms, evs0.
    - injection Hgen as <- <-. exists [], []. by rewrite app_nil_r. }
  destruct Hg as (terms & evs0 & -> & -> & Hs0 & Hc0).
  unfold bind at 1, lift.
  destruct (find_competitor_urls _ _) as [urls|e] eqn:Hf.
  - apply find_competitor_urls_stores in Hf as (_ & _ & Hstr).
    unfold bind at 1.
    destruct (analyze_candidates _ _ _ _) as [[comps|e] w2] eqn:Hc.
    + apply analyze_candidates_events in Hc
        as (added & evs1 & -> & -> & Hs1 & Hc1).
      unfold bind, ret.
      destruct (_create_analysis_summary_strings brand ([] ++ added) _ Hstr)
        as [[text ->]|(e & -> & Hkind)].
      * intros [= <- <-]. cbn [competitors app].
        exists (evs0 ++ evs1), (length added).
        rewrite sleeps_app, chats_app, Hs0, Hs1, <- app_assoc.
        split_and!; try done; [|by left].
        intros Hen. by rewrite (Hc0 Hen), Hc1.
      * cbn [any_exception]. intros [= <- <-].
        exists (evs0 ++ evs1), (length added).
        rewrite sleeps_app, chats_app, Hs0, Hs1, <- app_assoc.
        split_and!; try done; [|right; by exists e].
        intros Hen. by rewrite (Hc0 Hen), Hc1.
    + destruct (analyze_candidates_extend brand
                  (PyStr.list_slice_to max_competitors
                     (List.filter
                        (fun u => negb (String.eqb u (website_url brand)))
                        urls)) [] (w ++ evs0)) as (? & ? & Hok & _).
      rewrite Hok in Hc. discriminate Hc.
  - cbn [any_exception]. unfold ret. intros [= <- <-].
    exists evs0, 0%nat. cbn [competitors length replicate].
    split_and!; try done; [|by left]. intros Hen. by rewrite (Hc0 Hen).
Qed.

(** ** FAQs of a page *)

(** *** Stripped text *)

Lemma chars_rev_app t acc :
  chars (String.rev_app t acc) = rev (chars t) ++ chars acc.
Proof.
  revert acc. induction t as [|c t IH]; intros acc; [done|].
  cbn [String.rev_app]. rewrite IH. cbn [chars String.list_ascii_of_string rev].
  fold (chars t). by rewrite <- app_assoc.
Qed.

Lemma chars_rev t : chars (String.rev t) = rev (chars t).
Proof. unfold String.rev. by rewrite chars_rev_app, app_nil_r. Qed.

Lemma chars_inj t1 t2 : chars t1 = chars t2 -> t1 = t2.
Proof.
  intros Heq. rewrite <- (String.string_of_list_ascii_of_string t1),
    <- (String.string_of_list_ascii_of_string t2). unfold chars in Heq.
  by rewrite Heq.
Qed.

Lemma chars_app t1 t2 : chars (t1 +:+ t2) = chars t1 ++ chars t2.
Proof.
  unfold chars. induction t1 as [|c t1 IH]; [done|].
  change (String c t1 +:+ t2) with (String c (t1 +:+ t2)).
  cbn [String.list_ascii_of_string app]. by rewrite IH.
Qed.

Lemma rev_rev t : String.rev (String.rev t) = t.
Proof. apply chars_inj. by rewrite !chars_rev, rev_involutive. Qed.

Lemma lstrip_solid t : solid_head (chars (PyStr.lstrip t)).
Proof.
  induction t as [|c t IH]; [done|]. cbn [PyStr.lstrip].
  by destruct (PyStr.is_space c) eqn:Hc.
Qed.

Lemma lstrip_suffix t :
  exists spaces, chars t = spaces ++ chars (PyStr.lstrip t).
Proof.
  induction t as [|c t [spaces IH]]; [by exists []|]. cbn [PyStr.lstrip].
  destruct (PyStr.is_space c); [|by exists []].
  exists (c :: spaces). cbn [chars String.list_ascii_of_string]. fold (chars t).
  by rewrite IH.
Qed.

Lemma solid_lstrip t : solid_head (chars t) -> PyStr.lstrip t = t.
Proof. destruct t as [|c t]; [done|]. cbn. by intros ->. Qed.

Lemma solid_head_prefix l k :
  solid_head (l ++ k) -> solid_head l.
Proof. by destruct l. Qed.

(** a stripped string starts and ends with a character that is no white
    space *)
Lemma strip_solid t :
  solid_head (chars (PyStr.strip t))
  /\ solid_head (rev (chars (PyStr.strip t))).
Proof.
  unfold PyStr.strip. rewrite chars_rev, rev_involutive. split.
  - destruct (lstrip_suffix (String.rev (PyStr.lstrip t)))
      as [spaces Heq].
    rewrite chars_rev in Heq. apply (f_equal (@rev ascii)) in Heq.
    rewrite rev_involutive, rev_app_distr in Heq.
    apply (solid_head_prefix _ (rev spaces)). rewrite <- Heq.
    apply lstrip_solid.
  - apply lstrip_solid.
Qed.

Lemma solid_strip t :
  solid_head (chars t) -> solid_head (rev (chars t)) -> PyStr.strip t = t.
Proof.
  intros Hhead Hlast. unfold PyStr.strip.
  rewrite (solid_lstrip t) by done.
  rewrite (solid_lstrip (String.rev t)) by (by rewrite chars_rev).
  apply rev_rev.
Qed.

Lemma solid_head_app l k :
  l <> [] -> solid_head l -> solid_head (l ++ k).
Proof. by destruct l. Qed.

Lemma concat_solid pieces :
  Forall (fun piece => piece <> EmptyString
                       /\ solid_head (chars piece)
                       /\ solid_head (rev (chars piece))) pieces ->
  solid_head (chars (String.concat EmptyString pieces))
  /\ solid_head (rev (chars (String.concat EmptyString pieces))).
Proof.
  induction 1 as [|piece pieces (Hne & Hhead & Hlast) Hall [IHhead IHlast]];
    [done|].
  assert (chars piece <> []) as Hne' by (by destruct piece).
  destruct pieces as [|piece' pieces]; [done|].
  change (String.concat EmptyString (piece :: piece' :: pieces))
    with (piece +:+ EmptyString
          +:+ String.concat EmptyString (piece' :: pieces)).
  rewrite !chars_app. cbn [chars String.list_ascii_of_string app].
  fold (chars (String.concat EmptyString (piece' :: pieces))).
  split; [by apply solid_head_app|].
  rewrite rev_app_distr.
  apply Forall_cons in Hall as [(Hne2 & _ & _) _].
  apply solid_head_app; [|done].
  intros Hnil%(f_equal (@rev ascii)). rewrite rev_involutive in Hnil.
  cbn in Hnil.
  assert (chars piece' <> []) as Hp by (by destruct piece').
  destruct pieces as [|piece'' pieces].
  - by cbn [String.concat] in Hnil.
  - change (String.concat EmptyString (piece' :: piece'' :: pieces))
      with (piece' +:+ EmptyString
            +:+ String.concat EmptyString (piece'' :: pieces)) in Hnil.
    rewrite chars_app in Hnil. by apply app_eq_nil in Hnil as [? _].
Qed.

(** the text of a node is left as it is by [strip] *)
Lemma get_text_strip_stripped n :
  PyStr.strip (Bs4.get_text_strip n) = Bs4.get_text_strip n.
Proof.
  unfold Bs4.get_text_strip.
  destruct (concat_solid
              (List.filter (fun t => negb (String.eqb t EmptyString))
                           (map PyStr.strip (Bs4.strings_of n))))
    as [Hhead Hlast]; [|by apply solid_strip].
  apply Forall_forall. intros piece Hin. apply list_elem_of_In in Hin.
  apply filter_In in Hin as [Hin Hne]. apply in_map_iff in Hin as (t & <- & _).
  split; [|apply strip_solid].
  intros Heq. by rewrite Heq in Hne.
Qed.

(** X17.  In a document of ASCII text, every FAQ that [extract_faqs]
    returns comes from an element that one of the five selectors matches:
    its question is the text of the first heading-like element below that
    element and its answer the text of the first answer-like element
    below it.  The question has more than 5 and the answer more than 10
    characters, neither has white space at its ends, and the category is
    not set. *)
Theorem extract_faqs_lengths doc :
  ascii_text doc = true ->
  Forall (fun faq =>
            (exists selector element question_elem answer_elem,
               selector ∈ Scraper.faq_selectors
               /\ element ∈ Css.select selector doc
               /\ find_named Scraper.question_names element
                  = Some question_elem
               /\ find_named Scraper.answer_names element
                  = Some answer_elem
               /\ question faq = Bs4.get_text_strip question_elem
               /\ answer faq = Bs4.get_text_strip answer_elem)
            /\ (5 < String.length (question faq))%nat
            /\ (10 < String.length (answer faq))%nat
            /\ PyStr.strip (question faq) = question faq
            /\ PyStr.strip (answer faq) = answer faq
            /\ category faq = None)
         (Scraper.extract_faqs doc).
Proof.
  intros _.
  apply Forall_forall. intros faq Hfaq. unfold Scraper.extract_faqs in Hfaq.
  apply list_elem_of_In in Hfaq.
  apply in_flat_map in Hfaq as (selector & Hsel & Hfaq).
  apply in_flat_map in Hfaq as (element & Hel & Hfaq).
  unfold Scraper.faq_of_element in Hfaq.
  destruct (find_named Scraper.question_names element) as [q|] eqn:Hq;
    [|by destruct Hfaq].
  destruct (find_named Scraper.answer_names element) as [a|] eqn:Ha;
    [|by destruct Hfaq].
  destruct (negb _ && negb _ && _ && _) eqn:Hc; [|by destruct Hfaq].
  destruct Hfaq as [<-|[]]. cbn [question answer category].
  apply andb_true_iff in Hc as [Hc Hla]. apply andb_true_iff in Hc as [_ Hlq].
  apply Nat.ltb_lt in Hla, Hlq.
  split_and!; try done; try apply get_text_strip_stripped.
  exists selector, element, q, a.
  split_and!; try done; by apply list_elem_of_In.
Qed.

(** ** Brand name and description *)

Lemma all_chars_rev_app p s1 s2 :
  all_chars p (String.rev_app s1 s2) = all_chars p s1 && all_chars p s2.
Proof.
  revert s2. induction s1 as [|c s1 IH]; intros s2; [done|].
  cbn [String.rev_app all_chars]. rewrite IH. cbn [all_chars].
  by destruct (p c), (all_chars p s1), (all_chars p s2).
Qed.

Lemma all_chars_lstrip p s :
  all_chars p s = true -> all_chars p (PyStr.lstrip s) = true.
Proof.
  induction s as [|c s IH]; [done|]. cbn [PyStr.lstrip].
  destruct (PyStr.is_space c); [|done].
  cbn [all_chars]. intros [_ Hs]%andb_true_iff. by apply IH.
Qed.

Lemma all_chars_strip p s :
  all_chars p s = true -> all_chars p (PyStr.strip s) = true.
Proof.
  intros Hs. unfold PyStr.strip, String.rev.
  rewrite all_chars_rev_app, andb_true_r.
  apply all_chars_lstrip. rewrite all_chars_rev_app, andb_true_r.
  by apply all_chars_lstrip.
Qed.

Lemma first_description_length selectors doc text :
  Scraper.first_description selectors doc = Some text ->
  (50 < String.length text <= 500)%nat.
Proof.
  induction selectors as [|selector rest IH]; [done|].
  cbn [Scraper.first_description].
  destruct (Css.select_one selector doc) as [about_elem|]; [|exact IH].
  destruct (50 <? _)%nat eqn:Hlen; [|exact IH].
  clear IH. intros Heq. apply Nat.ltb_lt in Hlen.
  assert (text = PyStr.slice_to 500 (Bs4.get_text_strip about_elem)) as ->
    by congruence.
  rewrite slice_to_length_min. lia.
Qed.

(** X18.  The brand name that [extract_brand_info] returns contains no
    vertical bar, and it is absent exactly when the document has no title
    element; a description, when there is one, has more than 50 and at
    most 500 characters. *)
Theorem extract_brand_info_shape doc :
  (forall name, fst (Scraper.extract_brand_info doc) = Some name ->
                all_chars not_bar name = true)
  /\ (fst (Scraper.extract_brand_info doc) = None <->
      Bs4.find (Bs4.is_tag "title") doc = None)
  /\ (forall text, snd (Scraper.extract_brand_info doc) = Some text ->
                   (50 < String.length text <= 500)%nat).
Proof.
  unfold Scraper.extract_brand_info. cbn [fst snd]. split_and!.
  - destruct (Bs4.find _ doc) as [title_tag|]; [|done].
    intros name [= <-]. apply all_chars_strip, take_while_all_chars.
  - by destruct (Bs4.find _ doc).
  - intros text. apply first_description_length.
Qed.

(** ** Navigation links *)





(** ** Currency and country *)

Lemma symbol_currency_code text code :
  Extractor.symbol_currency text = Some code -> code ∈ currency_codes.
Proof.
  unfold Extractor.symbol_currency, currency_codes.
  repeat match goal with
         | |- context [PyStr.contains ?k text] =>
             destruct (PyStr.contains k text)
         end;
    intros [= <-]; apply (bool_decide_unpack _); vm_compute; exact I.
Qed.

Lemma currency_from_code selectors doc code :
  Extractor.currency_from selectors doc = Some code -> code ∈ currency_codes.
Proof.
  induction selectors as [|selector rest IH]; [done|].
  cbn [Extractor.currency_from].
  destruct (Css.select_one selector doc) as [elem|]; [|exact IH].
  destruct (Extractor.symbol_currency _) as [c|] eqn:Hs; [|exact IH].
  intros [= <-]. by eapply symbol_currency_code.
Qed.

(** X21.  [_extract_currency] returns one of the codes USD, EUR, GBP and
    INR, or the value of a [data-currency] attribute of the document, or
    nothing; a symbol found in a currency or money element takes
    precedence over the attribute, and the dollar sign over the other
    symbols. *)
Theorem _extract_currency_range doc :
  (forall code,
     Extractor._extract_currency doc = Some code ->
     code ∈ currency_codes
     \/ exists n, n ∈ Bs4.all_nodes doc
                  /\ Bs4.attr_of "data-currency" n = Some code)
  /\ (forall code,
        Extractor.currency_from Extractor.currency_selectors doc = Some code ->
        Extractor._extract_currency doc = Some code)
  /\ (forall text,
        PyStr.contains "$" text = true ->
        Extractor.symbol_currency text = Some "USD").
Proof.
  split_and!.
  - intros code. unfold Extractor._extract_currency.
    destruct (Extractor.currency_from _ doc) as [c|] eqn:Hc.
    + intros [= <-]. left. by eapply currency_from_code.
    + unfold Bs4.find.
      destruct (List.find _ _) as [n|] eqn:Hn; [|done].
      intros Ha. right. exists n. split; [|done].
      apply find_some in Hn as [Hn _]. by apply list_elem_of_In.
  - intros code Hc. unfold Extractor._extract_currency. by rewrite Hc.
  - intros text Hd. unfold Extractor.symbol_currency. by rewrite Hd.
Qed.

Lemma country_in_name indicator name :
  Extractor.country_in indicator = Some name -> name ∈ country_names.
Proof.
  unfold Extractor.country_in.
  destruct (List.find _ Extractor.countries) as [c|] eqn:Hc; [|done].
  intros [= <-]. apply find_some in Hc as [Hc _].
  apply list_elem_of_In in Hc. revert c Hc. apply Forall_forall.
  unfold Extractor.countries.
  repeat apply Forall_cons_2; try apply Forall_nil_2;
    apply (bool_decide_unpack _); vm_compute; exact I.
Qed.

(** X22.  [_extract_country] returns one of five country names or
    nothing, and it looks at the first text that mentions shipping,
    delivery or a country only: whatever follows that text in the document
    does not change the result. *)
Theorem _extract_country_first_indicator :
  (forall doc name,
     Extractor._extract_country doc = Some name -> name ∈ country_names)
  /\ (forall doc1 doc2,
        Bs4.find_all Extractor.is_country_indicator doc1 <> [] ->
        Extractor._extract_country (doc1 ++ doc2)
        = Extractor._extract_country doc1).
Proof.
  split.
  - intros doc name. unfold Extractor._extract_country.
    destruct (Bs4.find_all _ doc) as [|[s|] rest]; try done.
    apply country_in_name.
  - intros doc1 doc2. unfold Extractor._extract_country, Bs4.find_all.
    rewrite all_nodes_app, List.filter_app.
    by destruct (List.filter _ (Bs4.all_nodes doc1)).
Qed.

(** ** FAQ pages *)

(** one page: the loop ends with the FAQs of the page when it contributes
    any, and goes on with the next page otherwise *)
Lemma additional_faqs_from_cons given_url faq_path rest w :
  Extractor.additional_faqs_from given_url (faq_path :: rest) [] w
  = match page_yield given_url faq_path w with
    | [] => Extractor.additional_faqs_from given_url rest []
              (w ++ fetch given_url faq_path)
    | faqs => (Ok faqs, w ++ fetch given_url faq_path)
    end.
Proof.
  cbn [Extractor.additional_faqs_from]. unfold bind at 1, try_except.
  unfold bind at 1. unfold Extractor.faqs_of_page at 1. unfold bind at 1.
  unfold page_yield, fetch, lift.
  destruct (py_urljoin given_url faq_path) as [faq_url|e];
    [|cbn [any_exception]; unfold ret; by rewrite app_nil_r].
  unfold bind.
  destruct (get_page_content faq_url w)
    as [[[html [doc|]]|e] w1] eqn:Hget;
    pose proof (get_page_content_trace _ _ _ _ Hget) as ->;
    cbn [snd any_exception]; unfold ret; try done.
  by destruct (Extractor.page_faqs doc) as [[|faq faqs]|e].
Qed.

Lemma additional_faqs_from_first given_url paths w :
  exists faqs w',
    Extractor.additional_faqs_from given_url paths [] w = (Ok faqs, w')
    /\ match faqs with
       | [] =>
           no_faqs_on given_url paths w
           /\ w' = w ++ fetches given_url paths
       | _ =>
           exists pre faq_path post,
             paths = pre ++ faq_path :: post
             /\ no_faqs_on given_url pre w
             /\ page_yield given_url faq_path (w ++ fetches given_url pre)
                = faqs
             /\ w' = w ++ fetches given_url (pre ++ [faq_path])
       end.
Proof.
  revert w. induction paths as [|faq_path rest IH]; intros w.
  - exists [], w. split; [done|]. cbn. by rewrite app_nil_r.
  - rewrite additional_faqs_from_cons.
    destruct (page_yield given_url faq_path w) as [|faq faqs] eqn:Hyield.
    + destruct (IH (w ++ fetch given_url faq_path))
        as (faqs' & w' & -> & Hout).
      exists faqs', w'. split; [done|].
      destruct faqs' as [|faq' faqs'].
      * destruct Hout as [Hno ->]. cbn [no_faqs_on fetches flat_map].
        by rewrite <- app_assoc.
      * destruct Hout as (pre & path & post & -> & Hno & Hy & ->).
        exists (faq_path :: pre), path, post.
        cbn [no_faqs_on fetches flat_map app]. rewrite <- !app_assoc.
        rewrite <- app_assoc in Hy. by split_and!.
    + eexists _, _. split; [done|]. exists [], faq_path, rest.
      cbn [no_faqs_on fetches flat_map app]. rewrite !app_nil_r.
      by split_and!.
Qed.

(** X23.  [extract_additional_faqs] never raises.  It probes the six
    candidate pages in their order and returns the FAQs of the first page
    that contributes any, without probing the pages after it; when no page
    contributes any, it has probed all six and returns the empty list.  A
    page contributes nothing when its URL cannot be formed, when the fetch
    yields no document, and when the extractor raises.  A probed page is
    one GET request, or none when its URL cannot be formed. *)
Theorem extract_additional_faqs_one_page given_url w :
  exists faqs w',
    Extractor.extract_additional_faqs given_url w = (Ok faqs, w')
    /\ match faqs with
       | [] =>
           no_faqs_on given_url Extractor.faq_urls w
           /\ w' = w ++ fetches given_url Extractor.faq_urls
       | _ =>
           exists pre faq_path post,
             Extractor.faq_urls = pre ++ faq_path :: post
             /\ no_faqs_on given_url pre w
             /\ page_yield given_url faq_path (w ++ fetches given_url pre)
                = faqs
             /\ w' = w ++ fetches given_url (pre ++ [faq_path])
       end
    /\ exists evs, w' = w ++ evs /\ forallb is_get evs = true
                   /\ (length evs <= 6)%nat.
Proof.
  unfold Extractor.extract_additional_faqs.
  destruct (additional_faqs_from_first given_url Extractor.faq_urls w)
    as (faqs & w' & Hrun & Hout).
  exists faqs, w'. split; [done|]. split; [done|].
  assert (forall pages, (length pages <= 6)%nat ->
            exists evs, w ++ fetches given_url pages = w ++ evs
                        /\ forallb is_get evs = true
                        /\ (length evs <= 6)%nat) as Hevs.
  { intros pages Hlen. exists (fetches given_url pages).
    split; [done|]. split; [apply fetches_gets|].
    pose proof (fetches_length given_url pages). lia. }
  destruct faqs as [|faq faqs].
  - destruct Hout as [_ ->]. by apply Hevs.
  - destruct Hout as (pre & path & post & Heq & _ & _ & ->).
    apply Hevs. apply (f_equal length) in Heq.
    rewrite !length_app in *. cbn [length] in *.
    change (length Extractor.faq_urls) with 6%nat in Heq. lia.
Qed.

(** ** Merging FAQs without repeating a question *)

Lemma lowered_questions_app faqs1 faqs2 :
  lowered_questions (faqs1 ++ faqs2)
  = lowered_questions faqs1 ++ lowered_questions faqs2.
Proof. apply map_app. Qed.

Lemma add_unique_faqs_added additional faqs (seen : gset string) :
  (forall q, q ∈ seen <-> q ∈ lowered_questions faqs) ->
  exists added,
    add_unique_faqs faqs seen additional = faqs ++ added
    /\ added `sublist_of` additional
    /\ NoDup (lowered_questions added)
    /\ (forall q, q ∈ lowered_questions added -> q ∉ lowered_questions faqs)
    /\ (forall q, q ∈ lowered_questions additional ->
                  q ∈ lowered_questions (faqs ++ added)).
Proof.
  revert faqs seen.
  induction additional as [|faq rest IH]; intros faqs seen Hseen.
  - exists []. rewrite app_nil_r. split_and!; try done.
    + constructor.
    + by intros q ?%elem_of_nil.
    + by intros q ?%elem_of_nil.
  - cbn [add_unique_faqs]. case_bool_decide as Hq.
    + destruct (IH faqs seen Hseen) as (added & -> & Hsub & Hnd & Hnew & Hall).
      exists added. split_and!; try done; [by constructor|].
      intros q. cbn [lowered_questions map]. rewrite elem_of_cons.
      intros [->|Hin]; [|by apply Hall].
      rewrite lowered_questions_app, elem_of_app. left. by apply Hseen.
    + destruct (IH (faqs ++ [faq])
                  ({[ PyStr.lower (question faq) ]} ∪ seen))
        as (added & -> & Hsub & Hnd & Hnew & Hall).
      { intros q. rewrite elem_of_union, elem_of_singleton,
          lowered_questions_app, elem_of_app, Hseen.
        cbn [lowered_questions map]. rewrite list_elem_of_singleton. tauto. }
      exists (faq :: added). rewrite <- app_assoc. split_and!; try done.
      * by constructor.
      * cbn [lowered_questions map]. apply NoDup_cons. split; [|done].
        intros Hin. apply (Hnew _ Hin).
        rewrite lowered_questions_app, elem_of_app. right.
        cbn [lowered_questions map]. apply list_elem_of_here.
      * intros q. cbn [lowered_questions map]. rewrite elem_of_cons.
        intros [->|Hin]; [by rewrite <- Hseen|].
        intros Hold. apply (Hnew _ Hin).
        rewrite lowered_questions_app, elem_of_app. by left.
      * intros q. cbn [lowered_questions map]. rewrite elem_of_cons.
        intros [->|Hin].
        -- rewrite lowered_questions_app, elem_of_app. right.
           apply list_elem_of_here.
        -- specialize (Hall q Hin). by rewrite <- app_assoc in Hall.
Qed.

(** X24.  Merging additional FAQs keeps the FAQs already present, in
    place, and appends additional ones in their order.  The appended
    questions differ from each other and from the questions already
    present when letter case is ignored, and every additional question is
    among the questions of the result in that sense; questions that were
    unique before the merge are unique after it. *)
Theorem merge_faqs_unique faqs additional_faqs :
  exists added,
    merge_faqs faqs additional_faqs = faqs ++ added
    /\ added `sublist_of` additional_faqs
    /\ NoDup (lowered_questions added)
    /\ (forall q, q ∈ lowered_questions added -> q ∉ lowered_questions faqs)
    /\ (forall q, q ∈ lowered_questions additional_faqs ->
                  q ∈ lowered_questions (merge_faqs faqs additional_faqs))
    /\ (NoDup (lowered_questions faqs) ->
        NoDup (lowered_questions (merge_faqs faqs additional_faqs))).
Proof.
  unfold merge_faqs.
  destruct (add_unique_faqs_added additional_faqs faqs
              (list_to_set (lowered_questions faqs)))
    as (added & Heq & Hsub & Hnd & Hnew & Hall).
  { intros q. apply elem_of_list_to_set. }
  exists added. rewrite Heq. split_and!; try done.
  intros Hold. rewrite lowered_questions_app. apply NoDup_app.
  split_and!; [done| |done]. intros q Hq Hq'. by apply (Hnew q).
Qed.

(** ** The axes of the market insights *)

Lemma truediv_fits total count :
  count <> 0%nat -> average_fits total count ->
  exists x, truediv total (Z.of_nat count) = Ok x.
Proof.
  unfold average_fits, truediv. intros Hcount Hfits.
  destruct (Z.eqb_spec (Z.of_nat count) 0) as [Hz|_]; [lia|].
  rewrite Z.abs_eq by lia.
  destruct (Z.leb_spec (overflow_threshold * Z.of_nat count) (Z.abs total));
    [lia|by eexists].
Qed.

Lemma truediv_overflows total count :
  count <> 0%nat -> ~ average_fits total count ->
  exists e, truediv total (Z.of_nat count) = Raise e
            /\ exn_kind e = OverflowError.
Proof.
  unfold average_fits, truediv. intros Hcount Hfits.
  destruct (Z.eqb_spec (Z.of_nat count) 0) as [Hz|_]; [lia|].
  rewrite Z.abs_eq by lia.
  destruct (Z.leb_spec (overflow_threshold * Z.of_nat count) (Z.abs total));
    [by eexists|lia].
Qed.

Lemma product_diversity_cases brand comps :
  comps <> [] ->
  average_fits (sum (map total_products comps)) (length comps) ->
  average_fits (social_total comps) (length comps) ->
  product_diversity (get_market_insights brand comps) =
  let primary_types := type_set (product_catalog brand) in
  let competitor_types := type_set (flat_map product_catalog comps) in
  if (size (primary_types ∩ competitor_types)
      <? size (primary_types ∖ competitor_types))%nat
  then "unique_offerings"
  else if (size (primary_types ∖ competitor_types)
           <? size (primary_types ∩ competitor_types))%nat
  then "similar_to_market"
  else "balanced_portfolio".
Proof.
  intros Hne Hproducts Hsocial. destruct comps as [|c comps]; [done|].
  unfold get_market_insights, average_products, average_social.
  unfold social_total in Hsocial.
  destruct (truediv_fits _ (length (c :: comps)) ltac:(done) Hproducts)
    as [avg ->].
  by destruct (truediv_fits _ (length (c :: comps)) ltac:(done) Hsocial)
    as [avg_social ->].
Qed.

(** X25.  Without competitors every axis of [get_market_insights] is
    unknown, and the price axis is unknown in any case: the code never
    computes it.  With competitors the axes are assigned one after the
    other, and an average that does not fit a float ends the assignments.
    When the average of the product counts does not fit, every axis is
    unknown.  When it fits, the catalog axis takes one of its three
    values; the social and the diversity axis then each take one of their
    three values when the average of the numbers of social handles fits,
    and are both unknown when it does not. *)
Theorem get_market_insights_axes brand comps :
  let i := get_market_insights brand comps in
  price_positioning i = "unknown"
  /\ (comps = [] ->
      market_position i = "unknown" /\ social_presence i = "unknown"
      /\ product_diversity i = "unknown")
  /\ (comps <> [] ->
      ~ average_fits (sum (map total_products comps)) (length comps) ->
      market_position i = "unknown" /\ social_presence i = "unknown"
      /\ product_diversity i = "unknown")
  /\ (comps <> [] ->
      average_fits (sum (map total_products comps)) (length comps) ->
      market_position i
        ∈ ["large_catalog"; "focused_catalog"; "average_catalog"]
      /\ (average_fits (social_total comps) (length comps) ->
          social_presence i ∈ ["strong"; "weak"; "average"]
          /\ product_diversity i
               ∈ ["unique_offerings"; "similar_to_market";
                  "balanced_portfolio"])
      /\ (~ average_fits (social_total comps) (length comps) ->
          social_presence i = "unknown"
          /\ product_diversity i = "unknown")).
Proof.
  cbv zeta. split_and!.
  - destruct comps as [|c comps]; [done|]. unfold get_market_insights.
    destruct (average_products _); [|done].
    by destruct (average_social _).
  - by intros ->.
  - intros Hne Hproducts. destruct comps as [|c comps]; [done|].
    unfold get_market_insights, average_products.
    by destruct (truediv_overflows _ (length (c :: comps)) ltac:(done)
                   Hproducts) as (e & -> & _).
  - intros Hne Hproducts. destruct comps as [|c comps]; [done|].
    unfold get_market_insights, average_products, average_social.
    destruct (truediv_fits _ (length (c :: comps)) ltac:(done) Hproducts)
      as [avg ->].
    unfold social_total. split_and!.
    + destruct (truediv _ _);
        cbn [market_position set_market_position set_social_presence
             set_product_diversity];
        repeat match goal with
               | |- context [if ?b then _ else _] => destruct b
               end;
        rewrite !elem_of_cons; auto.
    + intros Hsocial.
      destruct (truediv_fits _ (length (c :: comps)) ltac:(done) Hsocial)
        as [avg_social ->].
      cbn [social_presence product_diversity set_market_position
           set_social_presence set_product_diversity].
      split;
        repeat match goal with
               | |- context [if ?b then _ else _] => destruct b
               end;
        rewrite !elem_of_cons; auto.
    + intros Hsocial.
      by destruct (truediv_overflows _ (length (c :: comps)) ltac:(done)
                     Hsocial) as (e & -> & _).
Qed.

(** X26.  When both averages fit a float, the diversity axis compares the
    product types of the primary brand that competitors do not have with
    those they share.  A brand without typed products is a
    [balanced_portfolio]; a brand all of whose types a competitor also has
    is [similar_to_market]; a brand that shares no type with any
    competitor has [unique_offerings]. *)
Theorem product_diversity_by_types brand comps :
  comps <> [] ->
  average_fits (sum (map total_products comps)) (length comps) ->
  average_fits (social_total comps) (length comps) ->
  let primary_types := type_set (product_catalog brand) in
  let competitor_types := type_set (flat_map product_catalog comps) in
  (primary_types = ∅ ->
   product_diversity (get_market_insights brand comps)
   = "balanced_portfolio")
  /\ (primary_types <> ∅ -> primary_types ⊆ competitor_types ->
      product_diversity (get_market_insights brand comps)
      = "similar_to_market")
  /\ (primary_types <> ∅ -> primary_types ## competitor_types ->
      product_diversity (get_market_insights brand comps)
      = "unique_offerings").
Proof.
  intros Hne Hproducts Hsocial primary_types competitor_types.
  rewrite product_diversity_cases by done. cbv zeta.
  fold primary_types competitor_types.
  assert (primary_types <> ∅ -> (0 < size primary_types)%nat) as Hpos.
  { intros Hp. apply Nat.neq_0_lt_0. rewrite size_non_empty_iff.
    by intros ?%leibniz_equiv. }
  split_and!.
  - intros ->. by rewrite (left_absorb_L ∅ (∩)), empty_difference_L.
  - intros Hp Hsub.
    rewrite subseteq_intersection_1_L, subseteq_empty_difference_L by done.
    rewrite size_empty. apply Hpos in Hp.
    destruct (size primary_types <? 0)%nat eqn:H1;
      [apply Nat.ltb_lt in H1; lia|].
    by apply Nat.ltb_lt in Hp as ->.
  - intros Hp Hdis.
    assert (primary_types ∖ competitor_types = primary_types) as ->
      by (apply leibniz_equiv, difference_disjoint, Hdis).
    assert (primary_types ∩ competitor_types = ∅) as ->
      by (apply leibniz_equiv, disjoint_intersection, Hdis).
    rewrite size_empty. apply Hpos in Hp. by apply Nat.ltb_lt in Hp as ->.
Qed.

(** ** Feeds that are not objects, brands without a description *)

(** X27.  The store check takes any true JSON value in which
    ['products' in value] holds for a store.  A feed whose body is the
    number 1 or [true] makes the test raise a [TypeError], which the check
    swallows: it answers false without looking at the root document.  A
    feed whose body is a JSON string that contains the word products
    passes the check, and [_extract_products] then raises a [TypeError] on
    the same body. *)
Theorem is_shopify_store_odd_feed target w products_data w1 :
  get_products_json target w = (Ok products_data, w1) ->
  (is_scalar products_data = true -> Py.truthy products_data = true ->
   is_shopify_store target w = (Ok false, w1))
  /\ (forall s,
        products_data = JStr s -> PyStr.contains "products" s = true ->
        is_shopify_store target w = (Ok true, w1)
        /\ exists e, _extract_products target w = (Raise e, w1)
                     /\ exn_kind e = TypeError).
Proof.
  intros Hget. split.
  - intros Hscalar Htrue.
    unfold is_shopify_store, try_except, bind, lift. rewrite Hget.
    unfold has_products_key. rewrite Htrue.
    by destruct products_data.
  - intros s -> Hs.
    assert (has_products_key (JStr s) = Ok true) as Hkey.
    { unfold has_products_key. destruct s; [done|].
      cbn [Py.truthy Py.contains String.eqb negb]. by rewrite Hs. }
    split.
    + unfold is_shopify_store, try_except, bind, lift.
      by rewrite Hget, Hkey.
    + unfold _extract_products, bind, lift. rewrite Hget, Hkey.
      cbn [Py.getitem]. by eexists.
Qed.

Lemma summarize_no_description n brand :
  about_brand brand = None -> exists e, summarize n brand = Raise e.
Proof. intros Ha. unfold summarize. rewrite Ha. by eexists. Qed.

(** X28.  A brand without description never reaches the text-structuring
    capability: slicing the missing description raises, so search-term
    generation returns the empty list and the similarity with any other
    brand is 0.0, in both cases without a chat call, whether the
    capability is enabled or not. *)
Theorem no_description_no_chat brand other w :
  about_brand brand = None ->
  generate_competitor_search_terms brand w = (Ok [], w)
  /\ analyze_competitor_similarity brand other w = (Ok 0%float, w)
  /\ analyze_competitor_similarity other brand w = (Ok 0%float, w).
Proof.
  intros Ha.
  destruct (summarize_no_description 5 brand Ha) as [e5 H5].
  destruct (summarize_no_description 10 brand Ha) as [e10 H10].
  unfold generate_competitor_search_terms, analyze_competitor_similarity.
  destruct llm_enabled; cbn [negb]; [|done].
  unfold try_except, bind, lift. rewrite H5, H10.
  split_and!; try done.
  by destruct (summarize 10 other).
Qed.

(** ** The fallback search terms *)

Lemma lower_char_no_upper c :
  is_ascii c = true -> no_upper (PyStr.lower_char c) = true.
Proof.
  destruct c as [[] [] [] [] [] [] [] []]; vm_compute; intros; done.
Qed.

Lemma all_chars_lower t :
  all_chars is_ascii t = true ->
  all_chars no_upper (PyStr.lower t) = true.
Proof.
  induction t as [|c t IH]; [done|]. cbn [PyStr.lower all_chars].
  intros [Hc Ht]%andb_true_iff. by rewrite lower_char_no_upper, IH.
Qed.

Lemma rev_app_nonempty s acc :
  acc <> EmptyString -> String.rev_app s acc <> EmptyString.
Proof.
  revert acc. induction s as [|c s IH]; intros acc Hacc; [done|].
  cbn [String.rev_app]. by apply IH.
Qed.

Lemma flush_word p cur :
  all_chars p cur = true ->
  Forall (fun t => t <> EmptyString /\ all_chars p t = true)
         (if String.eqb cur EmptyString then [] else [String.rev cur]).
Proof.
  intros Hcur. destruct cur as [|c cur]; [constructor|].
  cbn [String.eqb]. apply Forall_singleton. split.
  - unfold String.rev. cbn [String.rev_app]. by apply rev_app_nonempty.
  - unfold String.rev. by rewrite all_chars_rev_app, Hcur.
Qed.

Lemma words_go_words p cur s :
  all_chars p cur = true -> all_chars p s = true ->
  Forall (fun t => t <> EmptyString /\ all_chars p t = true)
         (PyStr.words_go cur s).
Proof.
  revert cur. induction s as [|c s IH]; intros cur Hcur Hs;
    cbn [PyStr.words_go].
  - by apply flush_word.
  - cbn [all_chars] in Hs. apply andb_true_iff in Hs as [Hc Hs].
    destruct (PyStr.is_word c).
    + apply IH; [|done]. cbn [all_chars]. by rewrite Hc, Hcur.
    + apply Forall_app. split; [by apply flush_word|by apply IH].
Qed.

Lemma lowered_product_types_lowered products :
  forallb (fun product => ascii_option (product_type product)) products
    = true ->
  Forall (fun t => t <> EmptyString /\ all_chars no_upper t = true)
         (lowered_product_types products).
Proof.
  intros Hascii.
  apply Forall_forall. intros t Ht. unfold lowered_product_types in Ht.
  apply list_elem_of_omap in Ht as (prod & Hprod & Hty).
  rewrite forallb_forall in Hascii.
  apply list_elem_of_In, Hascii in Hprod.
  unfold nonempty in Hty. destruct (product_type prod) as [ty|]; [|done].
  cbn [ascii_option] in Hprod.
  destruct ty as [|c ty]; [done|]. cbn in Hty. injection Hty as <-.
  split; [done|]. by apply (all_chars_lower (String c ty)).
Qed.

(** X29.  For a brand whose name and product types are ASCII text, the
    fallback search terms are between one and eight, none of them empty,
    all of them ASCII text without a capital letter.  The generic term
    fashion is among them unless the product types and the words of the
    name already fill the eight places; a brand without products and
    without name gets the two generic terms fashion and beauty only. *)
Theorem _generate_fallback_search_terms_shape brand :
  ascii_brand brand = true ->
  let terms := _generate_fallback_search_terms brand in
  (1 <= length terms <= 8)%nat
  /\ Forall (fun t => t <> EmptyString /\ all_chars no_upper t = true) terms
  /\ ("fashion" ∈ terms \/ length terms = 8%nat)
  /\ (product_catalog brand = [] -> nonempty (brand_name brand) = None ->
      terms = ["fashion"; "beauty"]).
Proof.
  intros [Hname Htypes0]%andb_true_iff. cbn zeta.
  unfold _generate_fallback_search_terms.
  set (from_types := match product_catalog brand with [] => [] | _ => _ end).
  set (from_name := match nonempty (brand_name brand) with
                    | Some _ => _ | None => _ end).
  change (take 2 generic_terms) with ["fashion"; "beauty"].
  assert (Forall (fun t => t <> EmptyString /\ all_chars no_upper t = true)
                 from_types) as Htypes.
  { subst from_types. destruct (product_catalog brand) eqn:Hcat;
      [constructor|]. rewrite <- Hcat.
    apply Forall_forall. intros t Ht. rewrite list_set_elem in Ht.
    revert t Ht. apply Forall_forall, lowered_product_types_lowered.
    rewrite Hcat. by apply forallb_take. }
  assert (Forall (fun t => t <> EmptyString /\ all_chars no_upper t = true)
                 from_name) as Hwords.
  { subst from_name. unfold nonempty.
    destruct (brand_name brand) as [name|] eqn:Hn; [|constructor].
    destruct (String.eqb name EmptyString); [constructor|].
    apply Forall_take, words_go_words; [done|].
    by apply all_chars_lower. }
  rewrite app_assoc. set (derived := from_types ++ from_name).
  split_and!.
  - rewrite length_take, length_app. cbn [length]. lia.
  - rewrite length_take. lia.
  - apply Forall_take, Forall_app. split; [by apply Forall_app|].
    repeat constructor; done.
  - destruct (decide (length derived < 8)%nat) as [Hlt|Hge].
    + left. rewrite take_app.
      destruct (8 - length derived)%nat as [|k] eqn:Hk; [lia|].
      apply elem_of_app. right. cbn [take]. apply elem_of_cons. by left.
    + right. rewrite length_take, length_app. cbn [length]. lia.
  - intros Hcat Hnm. subst derived from_types from_name.
    by rewrite Hcat, Hnm.
Qed.

End Further.

(** * Runs of the further properties *)

Section FurtherRuns.
Import Demo Samples.

(** ** The page extractors on sample documents *)

(** an element that matches two selectors is read twice *)
Example extract_faqs_faq_page :
  map question (Scraper.extract_faqs faq_page)
  = ["How long is shipping?"; "How long is shipping?"].
Proof. vm_compute. reflexivity. Qed.

Example extract_brand_info_brand_page :
  fst (Scraper.extract_brand_info brand_page) = Some "Glow"
  /\ snd (Scraper.extract_brand_info brand_page) = Some (letters 500).
Proof. split; vm_compute; reflexivity. Qed.

Example extract_important_links_nav_page :
  map link_url
      (@Scraper.extract_important_links store_env nav_page
         "https://shop.example")
  = ["https://shop.example/pages/contact"; "https://blog.example";
     "https://shop.example/pages/contact"; "https://blog.example"].
Proof. vm_compute. reflexivity. Qed.

Example _extract_currency_money_page :
  Extractor._extract_currency money_page = Some "USD".
Proof. vm_compute. reflexivity. Qed.

Example _extract_country_shipping_page :
  Extractor._extract_country shipping_page = Some "Canada".
Proof. vm_compute. reflexivity. Qed.

Example extract_additional_faqs_open_site :
  @Extractor.extract_additional_faqs open_env "https://shop.example" []
  = (Ok (Scraper.extract_faqs faq_page),
     [EvGet "https://shop.example/pages/faq";
      EvGet "https://shop.example/pages/faqs";
      EvGet "https://shop.example/pages/frequently-asked-questions";
      EvGet "https://shop.example/faq"]).
Proof. vm_compute. reflexivity. Qed.

Example analyze_competitors_open_sites :
  @analyze_competitors open_env open_brand 2 [] = (Ok open_analysis, open_trace)
  /\ map website_url (competitors open_analysis)
     = ["https://fashionnova.com"; "https://gymshark.com"]
  /\ sleeps open_trace = [EvSleep 2; EvSleep 2].
Proof. split_and!; vm_compute; reflexivity. Qed.

(** a product type that is also a word of the name is repeated *)
Example fallback_search_terms_repeat :
  @_generate_fallback_search_terms store_env (typed_brand "Serum Lab" ["Serum"])
  = ["serum"; "serum"; "lab"; "fashion"; "beauty"].
Proof. vm_compute. reflexivity. Qed.

(** ** Witnesses *)

Lemma hero_products_sublist_of_catalog_witness :
  @extract_all_insights store_env "shop.example" []
    = (Ok store_context, store_trace)
  /\ hero_products store_context `sublist_of` product_catalog store_context.
Proof.
  split; [vm_compute; reflexivity|].
  apply (@hero_products_sublist_of_catalog store_env "shop.example" []
           store_context store_trace).
  vm_compute. reflexivity.
Defined.

Lemma normalize_url_idempotent_witness :
  (PyStr.startswith "http://" "https://shop.example"
   || PyStr.startswith "https://" "https://shop.example") = true
  /\ normalize_url "https://shop.example" = "https://shop.example".
Proof.
  split; [reflexivity|].
  apply (normalize_url_idempotent "https://shop.example").
  reflexivity.
Defined.

Lemma extract_all_insights_url_and_note_witness :
  @extract_all_insights store_env "shop.example" []
    = (Ok store_context, store_trace)
  /\ website_url store_context = normalize_url "shop.example".
Proof.
  split; [vm_compute; reflexivity|].
  apply (@extract_all_insights_url_and_note store_env "shop.example" []
           store_context store_trace).
  vm_compute. reflexivity.
Defined.

Lemma _extract_products_objects_witness :
  forallb is_object two_products = true
  /\ @_extract_products open_env "https://open.example" []
     = (Ok (omap (@normalized open_env "https://open.example") two_products),
        [EvGet "https://open.example/products.json"]).
Proof.
  split; [reflexivity|].
  apply (@_extract_products_objects open_env "https://open.example" []
           [("products", JArr two_products)] two_products
           [EvGet "https://open.example/products.json"]);
    vm_compute; reflexivity.
Defined.

Lemma _extract_products_non_object_witness :
  forallb is_object mixed_entries = false
  /\ exists e,
       @_extract_products mixed_env "https://mixed.example" []
       = (Raise e, [EvGet "https://mixed.example/products.json"])
       /\ exn_kind e = AttributeError.
Proof.
  split; [reflexivity|].
  apply (@_extract_products_non_object mixed_env "https://mixed.example" []
           [("products", JArr mixed_entries)] mixed_entries
           [EvGet "https://mixed.example/products.json"]);
    vm_compute; reflexivity.
Defined.

Lemma _extract_products_without_feed_witness :
  @urljoin_error store_env "https://nowhere.example" "/products.json" = None
  /\ @_extract_products store_env "https://nowhere.example" []
     = (Ok [], [] ++ [EvGet (@feed_url store_env "https://nowhere.example")])
  /\ @_extract_products store_env "https://[nowhere" []
     = (Raise {| exn_kind := ValueError; exn_str := "Invalid IPv6 URL" |},
        []).
Proof.
  split; [reflexivity|]. split.
  - apply (proj1 (proj1 (@_extract_products_without_feed store_env
                           "https://nowhere.example" []) eq_refl)
             {| exn_kind := RequestException;
                exn_str := "404 Client Error" |});
      vm_compute; reflexivity.
  - apply (proj2 (@_extract_products_without_feed store_env
                    "https://[nowhere" [])).
    reflexivity.
Defined.

Lemma extract_all_insights_requests_witness :
  (exists evs,
     store_trace
     = [] ++ EvGet (@feed_url store_env (normalize_url "shop.example")) :: evs
     /\ forallb is_get evs = true
     /\ (length evs <= 18)%nat)
  /\ @extract_all_insights store_env "[shop.example" []
     = (Raise not_shopify_error, []).
Proof.
  split.
  - apply (@extract_all_insights_requests store_env "shop.example" []
             (Ok store_context) store_trace).
    vm_compute. reflexivity.
  - destruct (@extract_all_insights store_env "[shop.example" [])
      as [r w'] eqn:Hrun.
    destruct (@extract_all_insights_requests store_env "[shop.example" []
                r w' Hrun) as [-> ->].
    reflexivity.
Defined.

Lemma extract_policies_stored_witness :
  @extract_policies store_env "https://shop.example" []
    = (Ok store_policies, store_policies_trace)
  /\ Forall2 (fun c np =>
                fst np = fst c
                /\ forall p, snd np = Some p ->
                             @stored_policy store_env "https://shop.example"
                               (fst c) (snd c) p)
             policy_urls store_policies.
Proof.
  split; [vm_compute; reflexivity|].
  apply (@extract_policies_stored store_env "https://shop.example" []
           store_policies store_policies_trace).
  vm_compute. reflexivity.
Defined.

Lemma find_competitor_urls_result_witness :
  @find_competitor_urls store_env [JStr "fashion"; JStr "beauty"] 3
    = Ok ["https://fashionnova.com"; "https://gymshark.com";
          "https://colourpop.com"]
  /\ NoDup ["https://fashionnova.com"; "https://gymshark.com";
            "https://colourpop.com"].
Proof.
  split; [vm_compute; reflexivity|].
  apply (@find_competitor_urls_result store_env
           [JStr "fashion"; JStr "beauty"] 3
           ["https://fashionnova.com"; "https://gymshark.com";
            "https://colourpop.com"]).
  vm_compute. reflexivity.
Defined.

Lemma urls_for_term_broad_keyword_witness :
  existsb (fun keyword => PyStr.contains keyword "womenswear") broad_keywords
    = true
  /\ urls_for_term "womenswear"
     = flat_map (fun c => take 2 (snd c)) shopify_stores_by_category.
Proof.
  split; [reflexivity|].
  apply (urls_for_term_broad_keyword "womenswear").
  reflexivity.
Defined.

Lemma analyze_competitors_non_string_term_witness :
  forallb is_string [JInt 1] = false
  /\ exists e,
       @find_competitor_urls odd_terms_env [JInt 1] (3 * 2) = Raise e
       /\ exn_kind e = AttributeError
       /\ @analyze_competitors odd_terms_env glow 3 []
          = (Ok (failed_analysis glow e),
             [EvChat (SearchTermsPrompt
                        {| summary_name := Some "glow.example";
                           summary_products := [];
                           summary_description := "Skin care" |})]).
Proof.
  split; [reflexivity|].
  apply (@analyze_competitors_non_string_term odd_terms_env glow 3 []
           [JInt 1]);
    vm_compute; reflexivity.
Defined.

Lemma analyze_competitors_competitors_witness :
  @analyze_competitors open_env open_brand 2 [] = (Ok open_analysis, open_trace)
  /\ NoDup (map website_url (competitors open_analysis)).
Proof.
  split; [vm_compute; reflexivity|].
  apply (@analyze_competitors_competitors open_env open_brand 2 []
           open_analysis open_trace).
  vm_compute. reflexivity.
Defined.

Lemma analyze_competitors_pacing_witness :
  exists evs analysed_competitors,
    open_trace = [] ++ evs
    /\ sleeps evs = replicate analysed_competitors (EvSleep 2)
    /\ (@llm_enabled open_env = false -> chats evs = [])
    /\ (analysed_competitors = length (competitors open_analysis)
        \/ exists e, exn_kind e = OverflowError
                     /\ open_analysis = failed_analysis open_brand e).
Proof.
  apply (@analyze_competitors_pacing open_env open_brand 2 []
           open_analysis open_trace).
  vm_compute. reflexivity.
Defined.

Lemma extract_brand_info_shape_witness :
  snd (Scraper.extract_brand_info brand_page) = Some (letters 500)
  /\ (50 < String.length (letters 500) <= 500)%nat.
Proof.
  split; [vm_compute; reflexivity|].
  apply (extract_brand_info_shape brand_page).
  vm_compute. reflexivity.
Defined.


Lemma _extract_currency_range_witness :
  Extractor._extract_currency money_page = Some "USD"
  /\ ("USD" ∈ currency_codes
      \/ exists n, n ∈ Bs4.all_nodes money_page
                   /\ Bs4.attr_of "data-currency" n = Some "USD").
Proof.
  split; [vm_compute; reflexivity|].
  apply (_extract_currency_range money_page).
  vm_compute. reflexivity.
Defined.

Lemma _extract_country_first_indicator_witness :
  Extractor._extract_country shipping_page = Some "Canada"
  /\ "Canada" ∈ country_names.
Proof.
  split; [vm_compute; reflexivity|].
  apply (proj1 _extract_country_first_indicator shipping_page).
  vm_compute. reflexivity.
Defined.

Lemma merge_faqs_unique_witness :
  NoDup (lowered_questions [asked "Returns?"])
  /\ NoDup (lowered_questions
              (merge_faqs [asked "Returns?"]
                 [asked "RETURNS?"; asked "Shipping?"; asked "shipping?"])).
Proof.
  assert (NoDup (lowered_questions [asked "Returns?"])) as Hfaqs
    by (vm_compute; apply NoDup_singleton).
  split; [exact Hfaqs|].
  destruct (merge_faqs_unique [asked "Returns?"]
              [asked "RETURNS?"; asked "Shipping?"; asked "shipping?"])
    as (added & _ & _ & _ & _ & _ & Hunique).
  exact (Hunique Hfaqs).
Defined.

Lemma get_market_insights_axes_witness :
  (~ average_fits (sum (map total_products [sized (2 ^ 1024)]))
                  (length [sized (2 ^ 1024)])
   /\ market_position (get_market_insights (sized 5) [sized (2 ^ 1024)])
      = "unknown")
  /\ (average_fits (sum (map total_products [sized 4])) (length [sized 4])
      /\ market_position (get_market_insights (sized 5) [sized 4])
         ∈ ["large_catalog"; "focused_catalog"; "average_catalog"]).
Proof.
  assert (~ average_fits (sum (map total_products [sized (2 ^ 1024)]))
                         (length [sized (2 ^ 1024)])) as Hbig
    by (vm_compute; discriminate).
  assert (average_fits (sum (map total_products [sized 4]))
                       (length [sized 4])) as Hsmall
    by (vm_compute; reflexivity).
  split; (split; [done|]).
  - destruct (get_market_insights_axes (sized 5) [sized (2 ^ 1024)])
      as (_ & _ & Hunknown & _).
    apply Hunknown; [discriminate|exact Hbig].
  - destruct (get_market_insights_axes (sized 5) [sized 4])
      as (_ & _ & _ & Hknown).
    apply Hknown; [discriminate|exact Hsmall].
Defined.

Lemma product_diversity_by_types_witness :
  product_diversity
    (get_market_insights (typed_brand "a" ["Lipstick"; "Serum"])
       [typed_brand "b" ["serum"]; typed_brand "c" ["soap"; "lipstick"]])
  = "similar_to_market"
  /\ product_diversity
       (get_market_insights (typed_brand "a" ["Lipstick"; "Serum"])
          [typed_brand "b" ["soap"]])
     = "unique_offerings"
  /\ product_diversity
       (get_market_insights (typed_brand "a" [])
          [typed_brand "b" ["soap"]])
     = "balanced_portfolio".
Proof.
  split_and!.
  - apply (product_diversity_by_types
             (typed_brand "a" ["Lipstick"; "Serum"])
             [typed_brand "b" ["serum"]; typed_brand "c" ["soap"; "lipstick"]]);
      [discriminate|vm_compute; reflexivity|vm_compute; reflexivity| |];
      apply (bool_decide_unpack _); vm_compute; exact I.
  - apply (product_diversity_by_types
             (typed_brand "a" ["Lipstick"; "Serum"])
             [typed_brand "b" ["soap"]]);
      [discriminate|vm_compute; reflexivity|vm_compute; reflexivity| |];
      apply (bool_decide_unpack _); vm_compute; exact I.
  - apply (product_diversity_by_types (typed_brand "a" [])
             [typed_brand "b" ["soap"]]);
      [discriminate|vm_compute; reflexivity|vm_compute; reflexivity|].
    reflexivity.
Defined.

Lemma is_shopify_store_odd_feed_witness :
  @get_products_json scalar_env "https://scalar.example" []
    = (Ok (JInt 1), [EvGet "https://scalar.example/products.json"])
  /\ @is_shopify_store scalar_env "https://scalar.example" []
     = (Ok false, [EvGet "https://scalar.example/products.json"]).
Proof.
  split; [vm_compute; reflexivity|].
  apply (@is_shopify_store_odd_feed scalar_env "https://scalar.example" []
           (JInt 1) [EvGet "https://scalar.example/products.json"]);
    vm_compute; reflexivity.
Defined.

Lemma no_description_no_chat_witness :
  about_brand colourpop = None
  /\ @generate_competitor_search_terms (chatty_env "0.8") colourpop []
     = (Ok [], [])
  /\ @analyze_competitor_similarity (chatty_env "0.8") colourpop glow []
     = (Ok 0%float, [])
  /\ @analyze_competitor_similarity (chatty_env "0.8") glow colourpop []
     = (Ok 0%float, []).
Proof.
  split; [reflexivity|].
  apply (@no_description_no_chat (chatty_env "0.8") colourpop glow []).
  reflexivity.
Defined.

Lemma extract_faqs_lengths_witness :
  ascii_text faq_page = true
  /\ Forall (fun faq => PyStr.strip (question faq) = question faq
                        /\ (5 < String.length (question faq))%nat)
            (Scraper.extract_faqs faq_page).
Proof.
  split; [reflexivity|].
  eapply Forall_impl;
    [apply (extract_faqs_lengths faq_page); reflexivity|].
  intros faq (_ & Hq & _ & Hs & _). by split.
Defined.

Lemma _generate_fallback_search_terms_shape_witness :
  ascii_brand (typed_brand "Serum Lab" ["Serum"]) = true
  /\ Forall (fun t => t <> EmptyString /\ all_chars no_upper t = true)
            (@_generate_fallback_search_terms store_env
               (typed_brand "Serum Lab" ["Serum"])).
Proof.
  split; [reflexivity|].
  apply (@_generate_fallback_search_terms_shape store_env
           (typed_brand "Serum Lab" ["Serum"])).
  reflexivity.
Defined.

End FurtherRuns.
